(** * The reactivity core of Vue: Dep, the active-subscriber stack, Observer,
      defineReactive, set and del.

    A shallow embedding of [src/core/observer/dep.js] and
    [src/core/observer/index.js].  The JavaScript heap is explicit: objects
    live in a store addressed by [addr], every Dep, Observer and
    defineReactive activation has its own entry in a table of the state, and
    the functions of the two files are state transformers in a small error
    monad.  Recursion through the object graph is bounded by a fuel
    argument that counts the depth of nested calls. *)

From Stdlib Require Import PrimFloat Uint63.
From stdpp Require Import base option list strings gmap sorting.

Open Scope string_scope.
Open Scope list_scope.

(* ===================================================================== *)
(** ** Values of the host language                                        *)
(* ===================================================================== *)

(** Addresses of objects in the heap. *)
Abbreviation addr := nat (only parsing).

(** The seven mutating array methods that [arrayMethods] wraps. *)
Inductive arrayMethod := Push | Pop | Shift | Unshift | Splice | Sort | Reverse.

(** A subscriber, as far as this layer sees one: [subs.sort] reads [id]. *)
Record Watcher := mkWatcher { w_id : nat }.

Inductive value :=
| VUndefined
| VNull
| VBool (b : bool)
| VNumber (f : float)
| VString (s : string)
| VObject (a : addr)            (* a reference into the heap *)
| VObserver (o : nat)           (* a reference to an Observer instance *)
| VMutator (m : arrayMethod)    (* a function of arrayMethods *)
| VBuiltin (name : string).     (* a function of a built-in prototype *)

(** Property keys.  [KIdx n] is the canonical numeric key [n] (the number or
    its decimal string), [KStr s] any other name. *)
Inductive key := KIdx (n : nat) | KStr (s : string).

#[global] Instance key_eq_dec : EqDecision key.
Proof. solve_decision. Defined.

#[global] Instance arrayMethod_eq_dec : EqDecision arrayMethod.
Proof. solve_decision. Defined.

#[global] Instance Watcher_eq_dec : EqDecision Watcher.
Proof. solve_decision. Defined.

(** ToBoolean. *)
Definition truthy (v : value) : bool :=
  match v with
  | VUndefined | VNull => false
  | VBool b => b
  | VNumber f => negb (PrimFloat.is_nan f || PrimFloat.is_zero f)
  | VString s => negb (String.eqb s "")
  | VObject _ | VObserver _ | VMutator _ | VBuiltin _ => true
  end.

(** The operator [===]: same type and same value, numbers compared as
    IEEE 754 doubles (NaN differs from itself, +0 equals -0), objects by
    reference. *)
Definition strict_equal (x y : value) : bool :=
  match x, y with
  | VUndefined, VUndefined => true
  | VNull, VNull => true
  | VBool a, VBool b => Bool.eqb a b
  | VNumber a, VNumber b => PrimFloat.eqb a b
  | VString a, VString b => String.eqb a b
  | VObject a, VObject b => Nat.eqb a b
  | VObserver a, VObserver b => Nat.eqb a b
  | VMutator a, VMutator b => bool_decide (a = b)
  | VBuiltin a, VBuiltin b => String.eqb a b
  | _, _ => false
  end.

(* ===================================================================== *)
(** ** Functions stored in accessor properties                            *)
(* ===================================================================== *)

(** A getter or setter is either a function of the embedding program
    (named by a number, run by the [Host]) or one of the two functions that
    an activation of [defineReactive] creates.  Such a function carries what
    the activation closed over; the two variables it assigns ([val] and
    [childOb]) live in the state, under [cl_cell]. *)
Inductive getterFn :=
| GUser (f : nat)
| GReactive (c : closure)
with setterFn :=
| SUser (f : nat)
| SReactive (c : closure)
with closure :=
| Closure (cl_cell : nat) (cl_obj : addr) (cl_dep : nat)
          (cl_getter : option getterFn) (cl_setter : option setterFn)
          (cl_shallow : bool) (cl_customSetter : option nat).

Definition cl_cell (c : closure) : nat := let 'Closure x _ _ _ _ _ _ := c in x.
Definition cl_obj (c : closure) : addr := let 'Closure _ x _ _ _ _ _ := c in x.
Definition cl_dep (c : closure) : nat := let 'Closure _ _ x _ _ _ _ := c in x.
Definition cl_getter (c : closure) : option getterFn := let 'Closure _ _ _ x _ _ _ := c in x.
Definition cl_setter (c : closure) : option setterFn := let 'Closure _ _ _ _ x _ _ := c in x.
Definition cl_shallow (c : closure) : bool := let 'Closure _ _ _ _ _ x _ := c in x.
Definition cl_customSetter (c : closure) : option nat := let 'Closure _ _ _ _ _ _ x := c in x.

Inductive property :=
| PData (v : value) (writable enumerable configurable : bool)
| PAccessor (get : option getterFn) (set : option setterFn) (enumerable configurable : bool).

Definition p_enumerable (p : property) : bool :=
  match p with PData _ _ e _ => e | PAccessor _ _ e _ => e end.

Definition p_configurable (p : property) : bool :=
  match p with PData _ _ _ c => c | PAccessor _ _ _ c => c end.

Definition p_get (p : property) : option getterFn :=
  match p with PData _ _ _ _ => None | PAccessor g _ _ _ => g end.

Definition p_set (p : property) : option setterFn :=
  match p with PData _ _ _ _ => None | PAccessor _ s _ _ => s end.

(* ===================================================================== *)
(** ** Objects                                                            *)
(* ===================================================================== *)

(** What [Array.isArray], [isPlainObject] and [instanceof VNode] tell
    apart. *)
Inductive kind := KPlain | KArray | KVNode | KOther.

#[global] Instance kind_eq_dec : EqDecision kind.
Proof. solve_decision. Defined.

(** The prototype of an object is one of the built-in ones; [arrayMethods]
    is the object [protoAugment] installs. *)
Inductive proto := ProtoObject | ProtoArray | ProtoArrayMethods | ProtoNull.

(** An object: own named properties in creation order and, for an array,
    its slots ([None] is a hole). *)
Record object := mkObject {
  o_kind : kind;
  o_proto : proto;
  o_extensible : bool;
  o_props : list (key * property);
  o_elems : list (option value)
}.

(** class Observer: [value], [dep], [vmCount]. *)
Record Observer := mkObserver {
  ob_value : addr;
  ob_dep : nat;
  vmCount : nat
}.

(** The variables [val] and [childOb] of one activation of defineReactive. *)
Record cellVars := mkCell {
  c_val : value;
  c_childOb : option nat
}.

(** [Dep.target] and the entries of [targetStack] ([?Watcher]). *)
Inductive Target := TNull | TUndefined | TWatcher (w : Watcher).

Inductive warning := WarnSetPrimitive | WarnDelPrimitive | WarnSetRoot | WarnDelRoot.

(** What the layer sends out: calls of [update] on subscribers, warnings,
    the line the setter writes to the console, calls of a customSetter. *)
Inductive event :=
| EUpdate (w : Watcher)
| EWarn (m : warning)
| EConsoleLog (v : value)
| ECustomSetter (f : nat).

Record State := mkState {
  heap : list object;
  observers : list Observer;          (* the Observer instances *)
  deps : list (list Watcher);         (* [subs] of the Dep with that id; [uid] is the length *)
  cells : list cellVars;
  target : Target;                    (* Dep.target *)
  targetStack : list Target;          (* the top of the stack first *)
  shouldObserve : bool;
  watcherDeps : gmap nat (list nat);  (* the dep ids each subscriber recorded *)
  trace : list event
}.

(** The embedding program and the build: what the two files read from
    outside.  A getter of the embedding program computes its result from
    the object graph (the heap and the values the reactive properties
    hold) and changes nothing; a setter is any change of the state. *)
Class Host := mkHost {
  production : bool;        (* process.env.NODE_ENV === 'production' *)
  config_async : bool;      (* config.async *)
  hasProto : bool;          (* '__proto__' in {} *)
  isServerRendering : bool;
  userGetter : nat -> addr -> list object -> list cellVars -> value;
  userSetter : nat -> addr -> value -> State -> State
}.

(* ===================================================================== *)
(** ** The monad                                                          *)
(* ===================================================================== *)

Inductive error :=
| TypeError
| Unmodelled.   (* the step leaves the fragment of the host language modelled here *)

Inductive result (A : Type) :=
| Ok (a : A) (s : State)
| Throw (e : error)
| OutOfFuel.

Arguments Ok {A} a s.
Arguments Throw {A} e.
Arguments OutOfFuel {A}.

Definition M (A : Type) : Type := State -> result A.

Definition ret {A} (a : A) : M A := fun s => Ok a s.

Definition bind {A B} (m : M A) (f : A -> M B) : M B :=
  fun s => match m s with
           | Ok a s' => f a s'
           | Throw e => Throw e
           | OutOfFuel => OutOfFuel
           end.

Definition throw {A} (e : error) : M A := fun _ => Throw e.
Definition gets {A} (f : State -> A) : M A := fun s => Ok (f s) s.
Definition modify (f : State -> State) : M unit := fun s => Ok tt (f s).

Notation "x <- c1 ;; c2" := (bind c1 (fun x => c2))
  (at level 100, c1 at next level, right associativity).
Notation "c1 ;;; c2" := (bind c1 (fun _ => c2))
  (at level 100, right associativity).

(** [for (let i = from, l = from + n; i < l; i++) body(i)]. *)
Fixpoint for_loop (n from : nat) (body : nat -> M unit) : M unit :=
  match n with
  | 0 => ret tt
  | S n' => body from ;;; for_loop n' (S from) body
  end.

(** [for (const x of xs) body(x)]. *)
Fixpoint for_each {A} (xs : list A) (body : A -> M unit) : M unit :=
  match xs with
  | [] => ret tt
  | x :: xs' => body x ;;; for_each xs' body
  end.

(* ===================================================================== *)
(** ** Reading and writing the state                                      *)
(* ===================================================================== *)

Definition set_heap (h : list object) (s : State) : State :=
  mkState h (observers s) (deps s) (cells s) (target s) (targetStack s)
          (shouldObserve s) (watcherDeps s) (trace s).

Definition set_observers (o : list Observer) (s : State) : State :=
  mkState (heap s) o (deps s) (cells s) (target s) (targetStack s)
          (shouldObserve s) (watcherDeps s) (trace s).

Definition set_deps (d : list (list Watcher)) (s : State) : State :=
  mkState (heap s) (observers s) d (cells s) (target s) (targetStack s)
          (shouldObserve s) (watcherDeps s) (trace s).

Definition set_cells (c : list cellVars) (s : State) : State :=
  mkState (heap s) (observers s) (deps s) c (target s) (targetStack s)
          (shouldObserve s) (watcherDeps s) (trace s).

Definition set_target (t : Target) (stack : list Target) (s : State) : State :=
  mkState (heap s) (observers s) (deps s) (cells s) t stack
          (shouldObserve s) (watcherDeps s) (trace s).

Definition set_watcherDeps (w : gmap nat (list nat)) (s : State) : State :=
  mkState (heap s) (observers s) (deps s) (cells s) (target s) (targetStack s)
          (shouldObserve s) w (trace s).

Definition emit (e : event) (s : State) : State :=
  mkState (heap s) (observers s) (deps s) (cells s) (target s) (targetStack s)
          (shouldObserve s) (watcherDeps s) (trace s ++ [e]).

(** An address outside the heap denotes no object: reading it gives an
    object that has no property and accepts none. *)
Definition dead_object : object := mkObject KOther ProtoNull false [] [].
Definition dead_observer : Observer := mkObserver 0 0 0.
Definition dead_cell : cellVars := mkCell VUndefined None.

Definition obj_at (s : State) (a : addr) : object := default dead_object (heap s !! a).
Definition ob_at (s : State) (o : nat) : Observer := default dead_observer (observers s !! o).
Definition cell_at (s : State) (c : nat) : cellVars := default dead_cell (cells s !! c).
Definition subs_at (s : State) (d : nat) : list Watcher := default [] (deps s !! d).

Definition put_obj (a : addr) (o : object) (s : State) : State :=
  set_heap (<[a := o]> (heap s)) s.

Definition put_cell (c : nat) (v : cellVars) (s : State) : State :=
  set_cells (<[c := v]> (cells s)) s.

(** The calls of [update] among the events, in the order they were made. *)
Fixpoint updates (t : list event) : list Watcher :=
  match t with
  | [] => []
  | EUpdate w :: t' => w :: updates t'
  | _ :: t' => updates t'
  end.

(* ===================================================================== *)
(** ** dep.js                                                             *)
(* ===================================================================== *)

(** [new Dep()]: [this.id = uid++; this.subs = []].  The Dep is known by its
    id, and [uid] is the number of Deps made so far. *)
Definition uid (s : State) : nat := length (deps s).

Definition new_Dep : M nat :=
  fun s => Ok (uid s) (set_deps (deps s ++ [[]]) s).

(** [addSub (sub) { this.subs.push(sub) }] *)
Definition addSub (d : nat) (sub : Watcher) : M unit :=
  modify (fun s => set_deps (<[d := subs_at s d ++ [sub]]> (deps s)) s).



(** Modelled from the spec: the subscriber's [addDep], of [./watcher], which
    is not among the sources.  "A subscriber registers itself", and
    "de-dup is subscriber's responsibility": the subscriber records the id
    of the Dep and, the first time it meets it, calls [dep.addSub(this)]. *)
Definition Watcher_addDep (w : Watcher) (d : nat) : M unit :=
  seen <- gets (fun s => default [] (watcherDeps s !! w_id w)) ;;
  if bool_decide (d ∈ seen) then ret tt
  else
    modify (fun s => set_watcherDeps (<[w_id w := seen ++ [d]]> (watcherDeps s)) s) ;;;
    addSub d w.

(** Modelled from the spec: the subscriber's [update], of [./watcher]: an
    opaque capability of which this layer only makes the call. *)
Definition Watcher_update (w : Watcher) : M unit :=
  modify (emit (EUpdate w)).

(** [if (Dep.target)] *)
Definition active (t : Target) : option Watcher :=
  match t with TWatcher w => Some w | TNull | TUndefined => None end.

(** [depend () { if (Dep.target) { Dep.target.addDep(this) } }] *)
Definition depend (d : nat) : M unit :=
  t <- gets target ;;
  match active t with
  | Some w => Watcher_addDep w d
  | None => ret tt
  end.

(** [subs.sort((a, b) => a.id - b.id)]: the order the comparison function
    induces.  The sort of the host is stable. *)
Definition id_le (a b : Watcher) : Prop := w_id a <= w_id b.

#[global] Instance id_le_dec : RelDecision id_le.
Proof. intros a b. unfold id_le. apply _. Defined.

(** The sort of the host is stable: an insertion sort that keeps equal
    ids in the order they had. *)
Fixpoint insert_by_id (x : Watcher) (l : list Watcher) : list Watcher :=
  match l with
  | [] => [x]
  | y :: l' => if decide (id_le x y) then x :: y :: l' else y :: insert_by_id x l'
  end.

Definition sort_by_id (l : list Watcher) : list Watcher := foldr insert_by_id [] l.

(** The guard of the sort in [notify]:
    [process.env.NODE_ENV !== 'production' && !config.async]. *)
Definition sync_mode `{Host} : bool := negb production && negb config_async.

(** The order in which a snapshot of [subs] is notified:
<<
    if (process.env.NODE_ENV !== 'production' && !config.async) {
      subs.sort((a, b) => a.id - b.id)
    }
>> *)
Definition delivery `{Host} (subs : list Watcher) : list Watcher :=
  if sync_mode then sort_by_id subs else subs.

(** [notify ()] *)
Definition notify `{Host} (d : nat) : M unit :=
  (* stabilize the subscriber list first *)
  subs <- gets (fun s => subs_at s d) ;;
  for_each (delivery subs) Watcher_update.

(** [pushTarget (target) { targetStack.push(target); Dep.target = target }] *)
Definition pushTarget (t : Target) : M unit :=
  modify (fun s => set_target t (t :: targetStack s) s).

(** [popTarget () { targetStack.pop();
                    Dep.target = targetStack[targetStack.length - 1] }]:
    reading past the end of an array gives [undefined]. *)
Definition popTarget : M unit :=
  modify (fun s =>
    let stack := tail (targetStack s) in
    set_target (default TUndefined (head stack)) stack s).

(** The state in which the module is loaded: [Dep.target = null] and
    [targetStack = []]. *)
Definition initial_state : State := mkState [] [] [] [] TNull [] true ∅ [].

(** A sequence of calls of [pushTarget] and [popTarget]. *)
Inductive stackOp := OpPush (t : Target) | OpPop.

Definition run_op (o : stackOp) : M unit :=
  match o with
  | OpPush t => pushTarget t
  | OpPop => popTarget
  end.

Definition run_ops (ops : list stackOp) : M unit := for_each ops run_op.

(** Strictly nested calls: every push is closed by its own pop. *)
Inductive balanced : list stackOp -> Prop :=
| balanced_nil : balanced []
| balanced_nest t ops : balanced ops -> balanced (OpPush t :: ops ++ [OpPop])
| balanced_app ops1 ops2 : balanced ops1 -> balanced ops2 -> balanced (ops1 ++ ops2).

(** What [pushTarget] and [popTarget] keep true from the initial state on:
    the pointer is the top of the stack, and names no subscriber when the
    stack is empty. *)
Definition stack_inv (s : State) : Prop :=
  match targetStack s with
  | [] => active (target s) = None
  | t :: _ => target s = t
  end.


(* ===================================================================== *)
(** ** Objects of the host: own properties, prototypes, arrays            *)
(* ===================================================================== *)

Fixpoint lookup_key (k : key) (l : list (key * property)) : option property :=
  match l with
  | [] => None
  | (k', p) :: l' => if decide (k = k') then Some p else lookup_key k l'
  end.

(** Redefine the property in place, or add it after the others. *)
Fixpoint replace_key (k : key) (p : property) (l : list (key * property))
  : list (key * property) :=
  match l with
  | [] => [(k, p)]
  | (k', p') :: l' =>
      if decide (k = k') then (k, p) :: l' else (k', p') :: replace_key k p l'
  end.

Definition delete_key (k : key) (l : list (key * property)) : list (key * property) :=
  filter (fun kp => kp.1 <> k) l.

(** Modelled from the spec: [isValidArrayIndex] of [../util/index], which is
    not among the sources: "key is a valid index".  An array index of the
    host language is an integer from 0 to 2^32 - 2. *)
Definition isValidArrayIndex (k : key) : bool :=
  match k with
  | KIdx n => bool_decide (N.of_nat n < 4294967295)%N
  | KStr _ => false
  end.

Definition number_of_nat (n : nat) : value :=
  VNumber (PrimFloat.of_uint63 (Uint63.of_Z (Z.of_nat n))).

(** [Object.getOwnPropertyDescriptor(obj, key)].  The slots of an array are
    plain data properties and its [length] is an own property too. *)
Definition own_property (o : object) (k : key) : option property :=
  if bool_decide (o_kind o = KArray) && isValidArrayIndex k then
    match k with
    | KIdx n =>
        match o_elems o !! n with
        | Some (Some v) => Some (PData v true true true)
        | _ => None
        end
    | KStr _ => None
    end
  else if bool_decide (o_kind o = KArray) && bool_decide (k = KStr "length") then
    Some (PData (number_of_nat (length (o_elems o))) true false false)
  else lookup_key k (o_props o).

(** Modelled from the spec: [hasOwn] of [../util/index]: "an own property". *)
Definition hasOwn (o : object) (k : key) : bool :=
  match own_property o k with Some _ => true | None => false end.

(** The names [Object.prototype] defines. *)
Definition ObjectPrototype_keys : list string :=
  [ "constructor"; "__defineGetter__"; "__defineSetter__"; "hasOwnProperty";
    "__lookupGetter__"; "__lookupSetter__"; "isPrototypeOf";
    "propertyIsEnumerable"; "toString"; "valueOf"; "__proto__";
    "toLocaleString" ].

(** The functions [Array.prototype] defines. *)
Definition ArrayPrototype_keys : list string :=
  [ "concat"; "copyWithin"; "fill"; "find"; "findIndex"; "lastIndexOf";
    "pop"; "push"; "reverse"; "shift"; "unshift"; "slice"; "sort"; "splice";
    "includes"; "indexOf"; "join"; "keys"; "entries"; "values"; "forEach";
    "filter"; "flat"; "flatMap"; "map"; "every"; "some"; "reduce";
    "reduceRight" ].

Definition methodsToPatch : list arrayMethod :=
  [ Push; Pop; Shift; Unshift; Splice; Sort; Reverse ].

Definition method_name (m : arrayMethod) : string :=
  match m with
  | Push => "push" | Pop => "pop" | Shift => "shift" | Unshift => "unshift"
  | Splice => "splice" | Sort => "sort" | Reverse => "reverse"
  end.

(** [key in Object.prototype] *)
Definition in_ObjectPrototype (k : key) : bool :=
  match k with
  | KStr name => bool_decide (name ∈ ObjectPrototype_keys)
  | KIdx _ => false
  end.

(** What a read that finds no own property gets from the prototype chain. *)
Definition proto_lookup (p : proto) (k : key) : value :=
  match k with
  | KIdx _ => VUndefined
  | KStr name =>
      let from_Object :=
        if bool_decide (name ∈ ObjectPrototype_keys) then VBuiltin name else VUndefined in
      let from_Array :=
        if bool_decide (name ∈ ArrayPrototype_keys) then VBuiltin name else from_Object in
      match p with
      | ProtoNull => VUndefined
      | ProtoObject => from_Object
      | ProtoArray => from_Array
      | ProtoArrayMethods =>
          match list_find (fun m => method_name m = name) methodsToPatch with
          | Some (_, m) => VMutator m
          | None => from_Array
          end
      end
  end.

(** [key in obj], for an object. *)
Definition has_property (o : object) (k : key) : bool :=
  hasOwn o k ||
  match proto_lookup (o_proto o) k with VUndefined => false | _ => true end.

(** The slots of an array with slot [n] set, holes added before it if the
    array was shorter. *)
Definition store_slot (n : nat) (v : option value) (l : list (option value))
  : list (option value) :=
  if bool_decide (n < length l) then <[n := v]> l
  else l ++ replicate (n - length l) None ++ [v].

(** The object with own property [k] (re)defined as [p]; [None] where the
    model has no such object: a slot of an array is always a plain data
    property, and [length] is not redefined. *)
Definition store_prop (k : key) (p : property) (o : object) : option object :=
  if bool_decide (o_kind o = KArray) && isValidArrayIndex k then
    match k, p with
    | KIdx n, PData v true true true =>
        Some (mkObject (o_kind o) (o_proto o) (o_extensible o) (o_props o)
                       (store_slot n (Some v) (o_elems o)))
    | _, _ => None
    end
  else if bool_decide (o_kind o = KArray) && bool_decide (k = KStr "length") then None
  else Some (mkObject (o_kind o) (o_proto o) (o_extensible o)
                      (replace_key k p (o_props o)) (o_elems o)).

Definition remove_prop (k : key) (o : object) : object :=
  if bool_decide (o_kind o = KArray) && isValidArrayIndex k then
    match k with
    | KIdx n => mkObject (o_kind o) (o_proto o) (o_extensible o) (o_props o)
                         (<[n := None]> (o_elems o))
    | KStr _ => o
    end
  else mkObject (o_kind o) (o_proto o) (o_extensible o)
                (delete_key k (o_props o)) (o_elems o).

(** [Object.defineProperty(obj, key, descriptor)] with a full descriptor:
    a TypeError when the property exists and is not configurable, or does
    not exist on an object that is not extensible. *)
Definition defineProperty (a : addr) (k : key) (p : property) : M unit :=
  fun s =>
    let o := obj_at s a in
    let allowed :=
      match own_property o k with
      | Some old => p_configurable old
      | None => o_extensible o
      end in
    if allowed then
      match store_prop k p o with
      | Some o' => Ok tt (put_obj a o' s)
      | None => Throw Unmodelled
      end
    else Throw TypeError.

(** Modelled from the spec: [def] of [../util/index], which is not among the
    sources: it defines a hidden property, "non-enumerable marker
    referencing this Observer instance". *)
Definition def (a : addr) (name : string) (v : value) : M unit :=
  modify (fun s =>
    let o := obj_at s a in
    put_obj a (mkObject (o_kind o) (o_proto o) (o_extensible o)
                        (replace_key (KStr name) (PData v true false true) (o_props o))
                        (o_elems o)) s).

(** [delete obj[key]] in strict code: a TypeError when the property is not
    configurable. *)
Definition delete_property (a : addr) (k : key) : M unit :=
  fun s =>
    let o := obj_at s a in
    match own_property o k with
    | Some p =>
        if p_configurable p then Ok tt (put_obj a (remove_prop k o) s)
        else Throw TypeError
    | None => Ok tt s
    end.

Definition is_index_key (k : key) : option nat :=
  match k with KIdx n => Some n | KStr _ => None end.

Definition is_name_key (k : key) : bool :=
  match k with KIdx _ => false | KStr _ => true end.

(** [Object.keys(obj)]: the own enumerable keys, integer keys first in
    ascending order, then the names in creation order. *)
Definition Object_keys (o : object) : list key :=
  let candidates :=
    remove_dups ((KIdx <$> seq 0 (length (o_elems o))) ++ (o_props o).*1) in
  let own :=
    filter (fun k => p_enumerable <$> own_property o k = Some true) candidates in
  (KIdx <$> merge_sort le (omap is_index_key own))
    ++ filter (fun k => is_name_key k = true) own.

Definition isArray (s : State) (v : value) : bool :=
  match v with
  | VObject a => bool_decide (o_kind (obj_at s a) = KArray)
  | _ => false
  end.

(** [arr.length], for an array. *)
Definition array_length (s : State) (v : value) : nat :=
  match v with
  | VObject a => length (o_elems (obj_at s a))
  | _ => 0
  end.

Definition put_elems (a : addr) (l : list (option value)) (s : State) : State :=
  let o := obj_at s a in
  put_obj a (mkObject (o_kind o) (o_proto o) (o_extensible o) (o_props o) l) s.

(** [arr.length = n] *)
Definition set_length (a : addr) (n : nat) : M unit :=
  modify (fun s =>
    let l := o_elems (obj_at s a) in
    put_elems a (take n l ++ replicate (n - length l) None) s).

(** [Array.prototype.splice.call(arr, start, deleteCount, ...items)], for
    [start >= 0]; it returns the slots it removed.  An array that is not
    extensible cannot grow. *)
Definition Array_splice (a : addr) (start deleteCount : nat) (items : list value)
  : M (list (option value)) :=
  fun s =>
    let o := obj_at s a in
    let l := o_elems o in
    let start := Nat.min start (length l) in
    let deleteCount := Nat.min deleteCount (length l - start) in
    let l' := take start l ++ (Some <$> items) ++ drop (start + deleteCount) l in
    if negb (o_extensible o) && bool_decide (length l < length l') then Throw TypeError
    else Ok (take deleteCount (drop start l)) (put_elems a l' s).

(* ===================================================================== *)
(** ** Reading a property; the getter defineReactive installs             *)
(* ===================================================================== *)

(** The Observer behind a truthy [__ob__].  Any other object is a stand-in
    made by the embedding program, which the model leaves out; on anything
    else [.dep] is undefined and the call on it fails. *)
Definition observer_of (v : value) : M nat :=
  match v with
  | VObserver o => ret o
  | VObject _ => throw Unmodelled
  | _ => throw TypeError
  end.

Section Getters.
Context `{Host}.

(** The recursive call of [dependArray]. *)
Variable dependArray_rec : value -> M unit.

(** [getter.call(obj)], and [reactiveGetter] of index.js:
<<
    get: function reactiveGetter () {
      const value = getter ? getter.call(obj) : val
      if (Dep.target) {
        dep.depend()
        if (childOb) {
          childOb.dep.depend()
          if (Array.isArray(value)) { dependArray(value) }
        }
      }
      return value
    }
>> *)
Fixpoint call_getter (g : getterFn) (this : addr) {struct g} : M value :=
  match g with
  | GUser f => gets (fun s => userGetter f this (heap s) (cells s))
  | GReactive c => reactiveGetter c
  end
with reactiveGetter (c : closure) {struct c} : M value :=
  match c with
  | Closure cell obj dep getter _ _ _ =>
      value <- match getter with
               | Some g => call_getter g obj
               | None => gets (fun s => c_val (cell_at s cell))
               end ;;
      t <- gets target ;;
      match active t with
      | Some _ =>
          depend dep ;;;
          childOb <- gets (fun s => c_childOb (cell_at s cell)) ;;
          match childOb with
          | Some ob =>
              d <- gets (fun s => ob_dep (ob_at s ob)) ;;
              depend d ;;;
              is_arr <- gets (fun s => isArray s value) ;;
              if is_arr then dependArray_rec value else ret tt
          | None => ret tt
          end
      | None => ret tt
      end ;;;
      ret value
  end.

(** [obj[key]], as a read.  The accessor [__proto__] that objects inherit is
    left out. *)
Definition get_prop_with (v : value) (k : key) : M value :=
  match v with
  | VUndefined | VNull => throw TypeError
  | VObject a =>
      o <- gets (fun s => obj_at s a) ;;
      match own_property o k with
      | Some (PData x _ _ _) => ret x
      | Some (PAccessor (Some g) _ _ _) => call_getter g a
      | Some (PAccessor None _ _ _) => ret VUndefined
      | None =>
          if bool_decide (k = KStr "__proto__") then throw Unmodelled
          else ret (proto_lookup (o_proto o) k)
      end
  | _ => ret VUndefined
  end.

(** The body of [dependArray]:
<<
  for (let e, i = 0, l = value.length; i < l; i++) {
    e = value[i]
    e && e.__ob__ && e.__ob__.dep.depend()
    if (Array.isArray(e)) { dependArray(e) }
  }
>> *)
Definition dependArray_body (value : value) : M unit :=
  l <- gets (fun s => array_length s value) ;;
  for_loop l 0 (fun i =>
    e <- get_prop_with value (KIdx i) ;;
    (if truthy e then
       ob <- get_prop_with e (KStr "__ob__") ;;
       if truthy ob then
         o <- observer_of ob ;;
         d <- gets (fun s => ob_dep (ob_at s o)) ;;
         depend d
       else ret tt
     else ret tt) ;;;
    is_arr <- gets (fun s => isArray s e) ;;
    if is_arr then dependArray_rec e else ret tt).

End Getters.

(** [dependArray]; the fuel bounds the nesting of arrays it descends. *)
Fixpoint dependArray `{Host} (fuel : nat) (value : value) : M unit :=
  match fuel with
  | 0 => fun _ => OutOfFuel
  | S fuel' => dependArray_body (dependArray fuel') value
  end.

Definition get_prop `{Host} (fuel : nat) : value -> key -> M value :=
  get_prop_with (dependArray fuel).

(* ===================================================================== *)
(** ** index.js: Observer, observe, defineReactive                        *)
(* ===================================================================== *)

(** [toggleObserving (value) { shouldObserve = value }] *)
Definition toggleObserving (value : bool) : M unit :=
  modify (fun s =>
    mkState (heap s) (observers s) (deps s) (cells s) (target s) (targetStack s)
            value (watcherDeps s) (trace s)).

(** [target.__proto__ = src], with [src] the object [arrayMethods]. *)
Definition protoAugment (a : addr) : M unit :=
  modify (fun s =>
    let o := obj_at s a in
    put_obj a (mkObject (o_kind o) ProtoArrayMethods (o_extensible o)
                        (o_props o) (o_elems o)) s).

(** [for (...) { const key = keys[i]; def(target, key, src[key]) }], with
    [src] the object [arrayMethods] and [keys] its own names. *)
Definition copyAugment (a : addr) (keys : list arrayMethod) : M unit :=
  for_each keys (fun m => def a (method_name m) (VMutator m)).

Definition new_cell (v : value) (childOb : option nat) : M nat :=
  fun s => Ok (length (cells s)) (set_cells (cells s ++ [mkCell v childOb]) s).

Definition new_observer_entry (value : addr) (dep : nat) : M nat :=
  fun s => Ok (length (observers s))
              (set_observers (observers s ++ [mkObserver value dep 0]) s).

(** Modelled from the spec: [isObject] and [isPlainObject] of
    [../util/index] and the class [VNode], which are not among the sources.
    An Observer instance met as an ordinary value is left alone. *)
Definition isObject (v : value) : bool :=
  match v with VObject _ => true | _ => false end.

Definition isPlainObject (o : object) : bool :=
  bool_decide (o_kind o = KPlain) || bool_decide (o_kind o = KVNode).

Definition instanceof_VNode (o : object) : bool := bool_decide (o_kind o = KVNode).

(** [ob.vmCount++] *)
Definition vmCount_incr (i : nat) (s : State) : State :=
  let x := ob_at s i in
  set_observers
    (<[i := mkObserver (ob_value x) (ob_dep x) (S (vmCount x))]> (observers s)) s.

Section Observe.
Context `{Host}.

(** The fuel of the property reads, and the recursive call of [observe]. *)
Variable fuel : nat.
Variable observe_rec : value -> bool -> M (option nat).

(** [defineReactive (obj, key, val, customSetter, shallow)].  [val] is
    [None] for the call with two arguments ([arguments.length === 2]). *)
Definition defineReactive_with (obj : addr) (k : key) (val : option value)
    (customSetter : option nat) (shallow : bool) : M unit :=
  dep <- new_Dep ;;
  property <- gets (fun s => own_property (obj_at s obj) k) ;;
  if match property with Some p => negb (p_configurable p) | None => false end
  then ret tt
  else
    (* cater for pre-defined getter/setters *)
    let getter := property ≫= p_get in
    let setter := property ≫= p_set in
    val <- match val with
           | None =>
               if negb (bool_decide (is_Some getter)) || bool_decide (is_Some setter)
               then get_prop fuel (VObject obj) k
               else ret VUndefined
           | Some v => ret v
           end ;;
    childOb <- (if shallow then ret None else observe_rec val false) ;;
    cell <- new_cell val childOb ;;
    let c := Closure cell obj dep getter setter shallow customSetter in
    defineProperty obj k (PAccessor (Some (GReactive c)) (Some (SReactive c)) true true).

(** [walk (obj)] *)
Definition walk_with (obj : addr) : M unit :=
  keys <- gets (fun s => Object_keys (obj_at s obj)) ;;
  for_each keys (fun k => defineReactive_with obj k None None false).

(** [observeArray (items)]: [items] is given by its length and the read of
    a slot. *)
Definition observeArray_with (l : nat) (item : nat -> M value) : M unit :=
  for_loop l 0 (fun i => v <- item i ;; observe_rec v false ;;; ret tt).

(** [new Observer(value)] *)
Definition new_Observer_with (value : addr) : M nat :=
  dep <- new_Dep ;;
  this <- new_observer_entry value dep ;;
  def value "__ob__" (VObserver this) ;;;
  is_arr <- gets (fun s => isArray s (VObject value)) ;;
  (if is_arr then
     (if hasProto then protoAugment value else copyAugment value methodsToPatch) ;;;
     l <- gets (fun s => array_length s (VObject value)) ;;
     observeArray_with l (fun i => get_prop fuel (VObject value) (KIdx i))
   else walk_with value) ;;;
  ret this.

(** [observe (value, asRootData)] *)
Definition observe_body (value : value) (asRootData : bool) : M (option nat) :=
  match value with
  | VObject a =>
      o <- gets (fun s => obj_at s a) ;;
      if instanceof_VNode o then ret None
      else
        ob <- (existing <- (if hasOwn o (KStr "__ob__")
                            then get_prop fuel value (KStr "__ob__")
                            else ret VUndefined) ;;
               match existing with
               | VObserver _ =>
                   ob <- get_prop fuel value (KStr "__ob__") ;;
                   match ob with
                   | VObserver i => ret (Some i)
                   | _ => if truthy ob then throw Unmodelled else ret None
                   end
               | _ =>
                   enabled <- gets shouldObserve ;;
                   if enabled && negb isServerRendering
                      && (bool_decide (o_kind o = KArray) || isPlainObject o)
                      && o_extensible o
                   then
                     isVue <- get_prop fuel value (KStr "_isVue") ;;
                     if negb (truthy isVue)
                     then this <- new_Observer_with a ;; ret (Some this)
                     else ret None
                   else ret None
               end) ;;
        match ob with
        | Some i =>
            (if asRootData then modify (vmCount_incr i) else ret tt) ;;;
            ret (Some i)
        | None => ret None
        end
  | _ => ret None
  end.

End Observe.

Fixpoint observe `{Host} (fuel : nat) (value : value) (asRootData : bool)
  : M (option nat) :=
  match fuel with
  | 0 => fun _ => OutOfFuel
  | S fuel' => observe_body fuel' (observe fuel') value asRootData
  end.

Definition defineReactive `{Host} (fuel : nat) :=
  defineReactive_with fuel (observe fuel).

Definition walk `{Host} (fuel : nat) := walk_with fuel (observe fuel).

Definition observeArray `{Host} (fuel : nat) := observeArray_with (observe fuel).

Definition new_Observer `{Host} (fuel : nat) := new_Observer_with fuel (observe fuel).

(* ===================================================================== *)
(** ** The setter defineReactive installs; writing a property             *)
(* ===================================================================== *)

(** The test of the setter: [newVal === value ||
    (newVal !== newVal && value !== value)]. *)
Definition same_value (newVal value : value) : bool :=
  strict_equal newVal value
  || (negb (strict_equal newVal newVal) && negb (strict_equal value value)).

Section Setters.
Context `{Host}.

Variable fuel : nat.

(** [setter.call(obj, newVal)], and [reactiveSetter] of index.js:
<<
    set: function reactiveSetter (newVal) {
      console.log('set', newVal);
      const value = getter ? getter.call(obj) : val
      if (newVal === value || (newVal !== newVal && value !== value)) {
        return
      }
      if (process.env.NODE_ENV !== 'production' && customSetter) {
        customSetter()
      }
      // #7981: for accessor properties without setter
      if (getter && !setter) return
      if (setter) { setter.call(obj, newVal) } else { val = newVal }
      childOb = !shallow && observe(newVal)
      dep.notify()
    }
>> *)
Fixpoint call_setter (f : setterFn) (this : addr) (newVal : value) {struct f} : M unit :=
  match f with
  | SUser f => modify (userSetter f this newVal)
  | SReactive c => reactiveSetter c newVal
  end
with reactiveSetter (c : closure) (newVal : value) {struct c} : M unit :=
  match c with
  | Closure cell obj dep getter setter shallow customSetter =>
      modify (emit (EConsoleLog newVal)) ;;;
      value <- match getter with
               | Some g => call_getter (dependArray fuel) g obj
               | None => gets (fun s => c_val (cell_at s cell))
               end ;;
      if same_value newVal value then ret tt
      else
        match customSetter with
        | Some f => if negb production then modify (emit (ECustomSetter f)) else ret tt
        | None => ret tt
        end ;;;
        if bool_decide (is_Some getter) && negb (bool_decide (is_Some setter))
        then ret tt
        else
          match setter with
          | Some f => call_setter f obj newVal
          | None =>
              modify (fun s => put_cell cell (mkCell newVal (c_childOb (cell_at s cell))) s)
          end ;;;
          childOb <- (if shallow then ret None else observe fuel newVal false) ;;
          modify (fun s => put_cell cell (mkCell (c_val (cell_at s cell)) childOb) s) ;;;
          notify dep
  end.

(** [target[key] = val] in strict code.  A property found on a built-in
    prototype is a writable data property, so the write makes an own one;
    the accessor [__proto__] is left out, and so is a write to [length]. *)
Definition put_prop (v : value) (k : key) (x : value) : M unit :=
  match v with
  | VObject a =>
      o <- gets (fun s => obj_at s a) ;;
      match own_property o k with
      | Some (PData _ true e c) =>
          match store_prop k (PData x true e c) o with
          | Some o' => modify (put_obj a o')
          | None => throw Unmodelled
          end
      | Some (PData _ false _ _) => throw TypeError
      | Some (PAccessor _ (Some f) _ _) => call_setter f a x
      | Some (PAccessor _ None _ _) => throw TypeError
      | None =>
          if bool_decide (k = KStr "__proto__") then throw Unmodelled
          else if o_extensible o then
            match store_prop k (PData x true true true) o with
            | Some o' => modify (put_obj a o')
            | None => throw Unmodelled
            end
          else throw TypeError
      end
  | _ => throw TypeError
  end.

(** Modelled from the spec: the function [arrayMethods.splice] of
    [./array], which is not among the sources: the wrapped version
    "(a) perform[s] the original mutation, (b) observe[s] any newly inserted
    elements, (c) notif[ies] the array's own Dep". *)
Definition mutator_splice (this : addr) (start deleteCount : nat) (items : list value)
  : M (list (option value)) :=
  result <- Array_splice this start deleteCount items ;;
  ob <- get_prop fuel (VObject this) (KStr "__ob__") ;;
  o <- observer_of ob ;;
  observeArray fuel (length items) (fun i => ret (nth i items VUndefined)) ;;;
  d <- gets (fun s => ob_dep (ob_at s o)) ;;
  notify d ;;;
  ret result.

(** [target.splice(start, deleteCount, ...items)]: the method is the one
    the read of [splice] finds. *)
Definition call_splice (target : addr) (start deleteCount : nat) (items : list value)
  : M (list (option value)) :=
  f <- get_prop fuel (VObject target) (KStr "splice") ;;
  match f with
  | VMutator Splice => mutator_splice target start deleteCount items
  | VMutator _ => throw Unmodelled
  | VBuiltin name =>
      if String.eqb name "splice" then Array_splice target start deleteCount items
      else throw Unmodelled
  | _ => throw TypeError
  end.

(** Modelled from the spec: [isUndef] and [isPrimitive] of [../util/index]:
    "target is absent or not an object-like value". *)
Definition isUndef (v : value) : bool :=
  match v with VUndefined | VNull => true | _ => false end.

Definition isPrimitive (v : value) : bool :=
  match v with VBool _ | VNumber _ | VString _ => true | _ => false end.

(** Modelled from the spec: [warn] of [../util/index]: "reported via a
    warning channel". *)
Definition warn (m : warning) : M unit := modify (emit (EWarn m)).

(** [ob && ob.vmCount] *)
Definition ob_vmCount (ob : value) : M bool :=
  if truthy ob then
    match ob with
    | VObserver o => gets (fun s => negb (Nat.eqb (vmCount (ob_at s o)) 0))
    | _ => c <- get_prop fuel ob (KStr "vmCount") ;; ret (truthy c)
    end
  else ret false.

(** [key in target]: a TypeError on what is no object. *)
Definition key_in (target : value) (k : key) : M bool :=
  match target with
  | VObject a => gets (fun s => has_property (obj_at s a) k)
  | _ => throw TypeError
  end.

(** [set (target, key, val)] of index.js. *)
Definition set (target : value) (k : key) (val : value) : M value :=
  (if negb production && (isUndef target || isPrimitive target)
   then warn WarnSetPrimitive else ret tt) ;;;
  is_arr <- gets (fun s => isArray s target) ;;
  if is_arr && isValidArrayIndex k then
    match target, k with
    | VObject a, KIdx i =>
        len <- gets (fun s => array_length s target) ;;
        set_length a (Nat.max len i) ;;;
        call_splice a i 1 [val] ;;;
        ret val
    | _, _ => ret val   (* no such case: an array is an object, an index a number *)
    end
  else
    present <- key_in target k ;;
    if present && negb (in_ObjectPrototype k) then
      put_prop target k val ;;;
      ret val
    else
      ob <- get_prop fuel target (KStr "__ob__") ;;
      isVue <- get_prop fuel target (KStr "_isVue") ;;
      root <- (if truthy isVue then ret true else ob_vmCount ob) ;;
      if root then
        (if negb production then warn WarnSetRoot else ret tt) ;;;
        ret val
      else if negb (truthy ob) then
        put_prop target k val ;;;
        ret val
      else
        o <- observer_of ob ;;
        value <- gets (fun s => ob_value (ob_at s o)) ;;
        defineReactive fuel value k (Some val) None false ;;;
        d <- gets (fun s => ob_dep (ob_at s o)) ;;
        notify d ;;;
        ret val.

(** [hasOwn(target, key)]: what is no object has no own property here. *)
Definition hasOwn_value (s : State) (target : value) (k : key) : bool :=
  match target with
  | VObject a => hasOwn (obj_at s a) k
  | _ => false
  end.

(** [del (target, key)] of index.js. *)
Definition del (target : value) (k : key) : M unit :=
  (if negb production && (isUndef target || isPrimitive target)
   then warn WarnDelPrimitive else ret tt) ;;;
  is_arr <- gets (fun s => isArray s target) ;;
  if is_arr && isValidArrayIndex k then
    match target, k with
    | VObject a, KIdx i => call_splice a i 1 [] ;;; ret tt
    | _, _ => ret tt    (* no such case: an array is an object, an index a number *)
    end
  else
    ob <- get_prop fuel target (KStr "__ob__") ;;
    isVue <- get_prop fuel target (KStr "_isVue") ;;
    root <- (if truthy isVue then ret true else ob_vmCount ob) ;;
    if root then
      (if negb production then warn WarnDelRoot else ret tt)
    else
      own <- gets (fun s => hasOwn_value s target k) ;;
      if negb own then ret tt
      else
        match target with
        | VObject a => delete_property a k
        | _ => ret tt
        end ;;;
        if negb (truthy ob) then ret tt
        else
          o <- observer_of ob ;;
          d <- gets (fun s => ob_dep (ob_at s o)) ;;
          notify d.

End Setters.

(* ===================================================================== *)
(** ** Views of the state used in the statements                          *)
(* ===================================================================== *)

(** The value a getter returns, read off the object graph:
    [getter ? getter.call(obj) : val]. *)
Fixpoint getter_value `{Host} (g : getterFn) (this : addr)
    (h : list object) (cs : list cellVars) {struct g} : value :=
  match g with
  | GUser f => userGetter f this h cs
  | GReactive c => current_value c h cs
  end
with current_value `{Host} (c : closure) (h : list object) (cs : list cellVars)
    {struct c} : value :=
  match c with
  | Closure cell obj _ getter _ _ _ =>
      match getter with
      | Some g => getter_value g obj h cs
      | None => c_val (default dead_cell (cs !! cell))
      end
  end.

(** The pre-defined getter, if there is one, is a function of the embedding
    program and not a reactive getter: calling it touches no Dep. *)
Definition quiet_getter (g : option getterFn) : bool :=
  match g with
  | Some (GReactive _) => false
  | _ => true
  end.

(** [plain_read o k = Some v]: the read of [k] on [o] calls no getter and
    gives [v]. *)
Definition plain_read (o : object) (k : key) : option value :=
  match own_property o k with
  | Some (PData x _ _ _) => Some x
  | Some (PAccessor (Some _) _ _ _) => None
  | Some (PAccessor None _ _ _) => Some VUndefined
  | None =>
      if bool_decide (k = KStr "__proto__") then None
      else Some (proto_lookup (o_proto o) k)
  end.

(** The Observer the hidden marker [__ob__] of an object refers to. *)
Definition marker (o : object) : option nat :=
  match own_property o (KStr "__ob__") with
  | Some (PData (VObserver i) _ _ _) => Some i
  | _ => None
  end.

(** The dep ids subscriber [w] has recorded. *)
Definition recorded (s : State) (w : Watcher) : list nat :=
  default [] (watcherDeps s !! w_id w).

(** What [defineReactive] leaves behind on [obj[key]]: the accessor pair of
    one activation, whose Dep and variables exist. *)
Definition installed (s : State) (a : addr) (k : key) (c : closure) : Prop :=
  own_property (obj_at s a) k
    = Some (PAccessor (Some (GReactive c)) (Some (SReactive c)) true true) /\
  cl_obj c = a /\
  cl_dep c < length (deps s) /\
  cl_cell c < length (cells s).

(** [s] with one more event, or with a warning in a build that warns. *)
Definition warned `{Host} (m : warning) (s : State) : State :=
  if production then s else emit (EWarn m) s.

(** [s] after the events [es]. *)
Definition emit_all (es : list event) (s : State) : State :=
  mkState (heap s) (observers s) (deps s) (cells s) (target s) (targetStack s)
          (shouldObserve s) (watcherDeps s) (trace s ++ es).


(** What a read may change: subscribers register.  Nothing else moves;
    the lists of subscribers and of recorded ids only grow at their end,
    and a subscriber that records a Dep is added to its [subs]. *)
Record registers (s s' : State) : Prop := mkRegisters {
  reg_heap : heap s' = heap s;
  reg_observers : observers s' = observers s;
  reg_cells : cells s' = cells s;
  reg_target : target s' = target s;
  reg_stack : targetStack s' = targetStack s;
  reg_shouldObserve : shouldObserve s' = shouldObserve s;
  reg_trace : trace s' = trace s;
  reg_deps : length (deps s') = length (deps s);
  reg_subs : forall d, subs_at s d `prefix_of` subs_at s' d;
  reg_recorded : forall w, recorded s w `prefix_of` recorded s' w;
  reg_new : forall w d, d ∈ recorded s' w -> d ∉ recorded s w ->
                        d < length (deps s) -> w ∈ subs_at s' d
}.

(** Every run of [m] that returns relates the states by [R]. *)
Definition preserves {A} (R : State -> State -> Prop) (m : M A) : Prop :=
  forall s a s', m s = Ok a s' -> R s s'.

(** The number of objects of the heap that carry no marker: the measure
    that bounds the recursion of [observe]. *)
Definition unmarked (s : State) : nat :=
  length (filter (fun o => marker o = None) (heap s)).

(** [k] is an own property of [o] that is not configurable. *)
Definition frozen_at (o : object) (k : key) : Prop :=
  match own_property o k with
  | Some p => p_configurable p = false
  | None => False
  end.

(** What [observe] and the functions it calls may change.  No object of the
    heap is made or lost, and neither the kind, the extensibility nor the
    slots of one change, no own property goes and none is made
    non-configurable; a marker stays; an object that carries a marker
    is left as it is, except the object [x] being walked; Observers, Deps
    and activations are only added, and subscribers only register; the
    active subscriber, the switch and the events stay.  With no active
    subscriber no subscriber registers at all. *)
Record evolves (x : option addr) (s s' : State) : Prop := mkEvolves {
  ev_heap : length (heap s') = length (heap s);
  ev_kind : forall a, o_kind (obj_at s' a) = o_kind (obj_at s a);
  ev_extensible : forall a, o_extensible (obj_at s' a) = o_extensible (obj_at s a);
  ev_elems : forall a, o_elems (obj_at s' a) = o_elems (obj_at s a);
  ev_own : forall a k, is_Some (own_property (obj_at s a) k) ->
                       is_Some (own_property (obj_at s' a) k);
  ev_frozen : forall a k, frozen_at (obj_at s' a) k -> frozen_at (obj_at s a) k;
  ev_marker : forall a i, marker (obj_at s a) = Some i -> marker (obj_at s' a) = Some i;
  ev_marked : forall a, x <> Some a -> is_Some (marker (obj_at s a)) ->
                        obj_at s' a = obj_at s a;
  ev_observers : forall i, i < length (observers s) ->
                   ob_value (ob_at s' i) = ob_value (ob_at s i) /\
                   ob_dep (ob_at s' i) = ob_dep (ob_at s i);
  ev_observers_len : length (observers s) <= length (observers s');
  ev_cells : cells s `prefix_of` cells s';
  ev_subs : forall d, subs_at s d `prefix_of` subs_at s' d;
  ev_deps_len : length (deps s) <= length (deps s');
  ev_target : target s' = target s;
  ev_stack : targetStack s' = targetStack s;
  ev_shouldObserve : shouldObserve s' = shouldObserve s;
  ev_trace : trace s' = trace s;
  ev_idle : active (target s) = None ->
            deps s `prefix_of` deps s' /\ watcherDeps s' = watcherDeps s
}.

(** The outcome of a run from [s] with the depth [n] left for [observe]:
    a result in a state [s] evolved into, for which [Q] holds; an error
    only while a subscriber is active; and no fuel left only if [n] does
    not exceed the number of objects still to mark. *)
Definition runs {A} (n : nat) (x : option addr) (s : State) (r : result A)
    (Q : A -> State -> Prop) : Prop :=
  match r with
  | Ok a s' => evolves x s s' /\ Q a s'
  | Throw _ => active (target s) <> None
  | OutOfFuel => active (target s) = None -> n <= unmarked s
  end.

(** The hidden marker: [__ob__], if there, is not enumerable. *)
Definition marker_hidden (o : object) : Prop :=
  match own_property o (KStr "__ob__") with
  | Some p => p_enumerable p = false
  | None => True
  end.

(** Defining [k] on [o] stays within the model: a slot of an array and its
    [length] are not redefined. *)
Definition definable (o : object) (k : key) : Prop :=
  o_kind o = KArray -> isValidArrayIndex k = false /\ k <> KStr "length".

(** The slot [__ob__] of the object, if there, is a data property, as
    [def] makes it. *)
Definition marker_plain (o : object) : Prop :=
  match own_property o (KStr "__ob__") with
  | Some (PAccessor _ _ _ _) => False
  | _ => True
  end.

(** [observed s a ob]: the object at [a] carries the Observer [ob], as
    [new Observer(a)] leaves it: the marker refers to [ob], [ob.value] is
    the object, the Dep of [ob] exists, and the object is extensible. *)
Definition observed (s : State) (a : addr) (ob : nat) : Prop :=
  marker (obj_at s a) = Some ob /\
  ob < length (observers s) /\
  ob_value (ob_at s ob) = a /\
  ob_dep (ob_at s ob) < length (deps s) /\
  o_extensible (obj_at s a) = true.

(** The array methods of the object are the wrapped ones: [splice] is read
    from [arrayMethods] (protoAugment) or from the object (copyAugment). *)
Definition augmented (s : State) (a : addr) : Prop :=
  plain_read (obj_at s a) (KStr "splice") = Some (VMutator Splice).

(** Between the traces [t] and [t'], [update] was called on [w]. *)
Definition notified (t t' : list event) (w : Watcher) : Prop :=
  exists es, t' = t ++ es /\ EUpdate w ∈ es.

(** [restored s s']: [s'] is [s] with the same stack and a pointer that
    names the same subscriber; the very same value when the stack is not
    empty. *)
Definition restored (s s' : State) : Prop :=
  exists t, s' = set_target t (targetStack s) s /\
            active t = active (target s) /\
            (targetStack s <> [] -> t = target s).

(** What is assumed of the recursive call of [observe] with depth [n]. *)
Definition observe_ok (n : nat) (rec : value -> bool -> M (option nat)) : Prop :=
  forall v root s, runs n None s (rec v root s) (fun _ _ => True).

(** The slots of the array once [set] has grown it and put the value. *)
Definition grown (l : list (option value)) (i : nat) (val : value) : list (option value) :=
  l ++ replicate (i - length l) None ++ [Some val].

(** A write of a new value to a property installed by [defineReactive]
    with no pre-defined accessor calls [update] on every subscriber of the
    Dep of the property and leaves the value in it; with no subscriber
    active and enough fuel the write returns. *)
Definition write_tracked `{Host} (a : addr) (k : key) (c : closure) (x : value) : Prop :=
  forall fuel y s,
    installed s a k c ->
    c_val (cell_at s (cl_cell c)) = x ->
    same_value y x = false ->
    (forall s',
       put_prop fuel (VObject a) k y s = Ok tt s' ->
       (forall w, w ∈ subs_at s (cl_dep c) -> notified (trace s) (trace s') w) /\
       c_val (cell_at s' (cl_cell c)) = y) /\
    (active (target s) = None -> unmarked s < fuel ->
     exists s', put_prop fuel (VObject a) k y s = Ok tt s').

(** ** Induction on the functions stored in accessors *)

Section closure_induction.
Variable P : getterFn -> Prop.
Variable Ps : setterFn -> Prop.
Variable Q : closure -> Prop.
Hypothesis HGU : forall f, P (GUser f).
Hypothesis HGR : forall c, Q c -> P (GReactive c).
Hypothesis HSU : forall f, Ps (SUser f).
Hypothesis HSR : forall c, Q c -> Ps (SReactive c).
Hypothesis HC : forall cell obj dep g st sh cs,
  (forall g', g = Some g' -> P g') ->
  (forall s', st = Some s' -> Ps s') ->
  Q (Closure cell obj dep g st sh cs).

Fixpoint getterFn_induction (g : getterFn) : P g :=
  match g with
  | GUser f => HGU f
  | GReactive c => HGR c (closure_induction c)
  end
with setterFn_induction (f : setterFn) : Ps f :=
  match f with
  | SUser f => HSU f
  | SReactive c => HSR c (closure_induction c)
  end
with closure_induction (c : closure) : Q c :=
  match c with
  | Closure cell obj dep g st sh cs =>
      HC cell obj dep g st sh cs
        (match g as g0 return forall g', g0 = Some g' -> P g' with
         | Some g1 => fun g' e =>
             eq_ind g1 P (getterFn_induction g1) g' (f_equal (default g1) e)
         | None => fun g' e =>
             False_ind _ (eq_ind None (fun x => if x is None then True else False) I _ e)
         end)
        (match st as s0 return forall s', s0 = Some s' -> Ps s' with
         | Some s1 => fun s' e =>
             eq_ind s1 Ps (setterFn_induction s1) s' (f_equal (default s1) e)
         | None => fun s' e =>
             False_ind _ (eq_ind None (fun x => if x is None then True else False) I _ e)
         end)
  end.

End closure_induction.

(** Observers are only added, and those there keep their fields, the
    count of roots among them: what a call of [observe] that is not for
    root data does to the table of Observers. *)
Definition observers_grow (s s' : State) : Prop :=
  observers s `prefix_of` observers s'.

(** The functions of an activation of [defineReactive] on a property that
    had no accessor of its own, made for a deep property without
    customSetter: what [walk] and [set] install. *)
Definition plain_closure (c : closure) : Prop :=
  cl_getter c = None /\ cl_setter c = None /\
  cl_shallow c = false /\ cl_customSetter c = None.

(** The object with the hidden marker that refers to Observer [ob]. *)
Definition with_marker (ob : nat) (o : object) : object :=
  mkObject (o_kind o) (o_proto o) (o_extensible o)
           (replace_key (KStr "__ob__") (PData (VObserver ob) true false true) (o_props o))
           (o_elems o).

(** An object [observe] makes an Observer for, when observation is on:
    an array or a plain object, extensible, without [__ob__], whose
    [_isVue] is read without a call and is falsy. *)
Definition observable `{Host} (s : State) (a : addr) : Prop :=
  a < length (heap s) /\
  (o_kind (obj_at s a) = KPlain \/ o_kind (obj_at s a) = KArray) /\
  hasOwn (obj_at s a) (KStr "__ob__") = false /\
  o_extensible (obj_at s a) = true /\
  shouldObserve s = true /\
  isServerRendering = false /\
  exists isVue, plain_read (obj_at s a) (KStr "_isVue") = Some isVue /\ truthy isVue = false.

(** The state once the constructor of Observer has made its Dep and set the
    marker on the object. *)
Definition marked_state (a : addr) (s : State) : State :=
  put_obj a (with_marker (length (observers s)) (obj_at s a))
    (set_observers (observers s ++ [mkObserver a (length (deps s)) 0])
       (set_deps (deps s ++ [[]]) s)).

(** What the constructor of Observer does with the object once the marker
    is set: an array gets the wrapped methods and its items are observed,
    any other object is walked. *)
Definition Observer_rest `{Host} (fuel : nat) (rec : value -> bool -> M (option nat))
    (a : addr) (is_arr : bool) : M unit :=
  if is_arr then
    (if hasProto then protoAugment a else copyAugment a methodsToPatch) ;;;
    l <- gets (fun s => array_length s (VObject a)) ;;
    observeArray_with rec l (fun i => get_prop fuel (VObject a) (KIdx i))
  else walk_with fuel rec a.

(** An item of an array that [dependArray] handles without a call into the
    embedding program and without descending: no array, and with an
    [__ob__] that is read without a call and is an Observer or falsy. *)
Definition flat_item (s : State) (e : option value) : bool :=
  match e with
  | Some (VObject b) =>
      negb (bool_decide (o_kind (obj_at s b) = KArray)) &&
      match plain_read (obj_at s b) (KStr "__ob__") with
      | Some (VObserver _) => true
      | Some x => negb (truthy x)
      | None => false
      end
  | _ => true
  end.

(** What a call of [observe] that is not for root data does to the heap,
    besides what [evolves] says: the marker of an object that had one is
    left alone; an object that ends without a marker was not touched; and
    an object that ends with a marker it had not is observed by the
    Observer the marker refers to.  Observers are only added, Deps too,
    and extensibility stays. *)
Record settles (s s' : State) : Prop := mkSettles {
  st_marker : forall b, is_Some (marker (obj_at s b)) ->
                own_property (obj_at s' b) (KStr "__ob__")
                = own_property (obj_at s b) (KStr "__ob__");
  st_unmarked : forall b, marker (obj_at s' b) = None -> obj_at s' b = obj_at s b;
  st_observers : observers s `prefix_of` observers s';
  st_deps : length (deps s) <= length (deps s');
  st_heap : length (heap s') = length (heap s);
  st_shouldObserve : shouldObserve s' = shouldObserve s;
  st_extensible : forall b, o_extensible (obj_at s' b) = o_extensible (obj_at s b);
  st_kind : forall b, o_kind (obj_at s' b) = o_kind (obj_at s b);
  st_new : forall b i, marker (obj_at s b) = None -> marker (obj_at s' b) = Some i ->
                       observed s' b i
}.

(** [m] settles the heap when run on a state in which the object [a]
    carries its hidden marker. *)
Definition settles_on (a : addr) {A} (m : M A) : Prop :=
  forall s x s',
    is_Some (marker (obj_at s a)) -> marker_hidden (obj_at s a) ->
    m s = Ok x s' -> settles s s'.

(** A value [observe] gives an Observer for: an observable object, or one
    that is observed already. *)
Definition ready `{Host} (s : State) (b : addr) : Prop :=
  observable s b \/ (o_kind (obj_at s b) <> KVNode /\ exists i, observed s b i).

(** [k] can be defined on [o] and holds no accessor: a configurable data
    property, or no own property of an extensible object. *)
Definition data_slot (o : object) (k : key) : bool :=
  match own_property o k with
  | Some (PData _ _ _ c) => c
  | Some (PAccessor _ _ _ _) => false
  | None => o_extensible o
  end.

(* ===================================================================== *)
(** ** Concrete hosts and states, for the examples                        *)
(* ===================================================================== *)

(** A development build that delivers notifications synchronously. *)
Definition dev_host : Host :=
  mkHost false false true false (fun _ _ _ _ => VUndefined) (fun _ _ _ s => s).

(** A production build. *)
Definition prod_host : Host :=
  mkHost true false true false (fun _ _ _ _ => VUndefined) (fun _ _ _ s => s).

Definition w1 : Watcher := mkWatcher 1.
Definition w2 : Watcher := mkWatcher 2.
Definition w3 : Watcher := mkWatcher 3.

(** One Dep, to which the subscribers 3, 1 and 2 were added in this order. *)
Definition state_one_dep : State :=
  mkState [] [] [[w3; w1; w2]] [] TNull [] true ∅ [].

(** The state inside the evaluation of subscriber 1. *)
Definition state_in_w1 : State :=
  mkState [] [] [] [] (TWatcher w1) [TWatcher w1] true ∅ [].

Definition state_of {A} (r : result A) : State :=
  match r with Ok _ s => s | _ => initial_state end.

(** The object [{ a: NaN, b: ["x", <hole>] }] before and after
    [observe]. *)
Definition plain_obj : object :=
  mkObject KPlain ProtoObject true
    [ (KStr "a", PData (VNumber PrimFloat.nan) true true true);
      (KStr "b", PData (VObject 1) true true true) ] [].

Definition arr_obj : object :=
  mkObject KArray ProtoArray true [] [Some (VString "x"); None].

Definition state_raw : State :=
  mkState [plain_obj; arr_obj] [] [] [] TNull [] true ∅ [].

Definition state_observed : State :=
  Eval vm_compute in state_of (@observe dev_host 3 (VObject 0) false state_raw).

(** The functions installed on the property [a] of the object. *)
Definition closure_a : closure := Closure 0 0 1 None None false None.

(** The observed state, inside the evaluation of subscriber 1. *)
Definition state_observed_w1 : State :=
  set_target (TWatcher w1) [TWatcher w1] state_observed.

(** The observed object as the root data of one component. *)
Definition state_root : State :=
  Eval vm_compute in state_of (@observe dev_host 3 (VObject 0) true state_raw).

(** The observed state with the subscribers 2 and 1 on the collection Dep
    of the object. *)
Definition state_observed_subs : State :=
  set_deps (<[0 := [w2; w1]]> (deps state_observed)) state_observed.

(** The observed state with the subscribers 2 and 1 on the collection Dep
    of the array (the Dep with id 3). *)
Definition state_array_subs : State :=
  set_deps (<[3 := [w2; w1]]> (deps state_observed)) state_observed.

(** The array [[{}, "x", <hole>]] with the object in it at address 1. *)
Definition state_items_raw : State :=
  mkState [ mkObject KArray ProtoArray true []
              [Some (VObject 1); Some (VString "x"); None];
            mkObject KPlain ProtoObject true [] [] ]
          [] [] [] TNull [] true ∅ [].

(** That array after [observe], inside the evaluation of subscriber 1: the
    array has Observer 0, the object in it Observer 1. *)
Definition state_items : State :=
  Eval vm_compute in
    set_target (TWatcher w1) [TWatcher w1]
      (state_of (@observe dev_host 3 (VObject 0) false state_items_raw)).

(* ===================================================================== *)
(** * Properties                                                          *)
(* ===================================================================== *)

#[global] Arguments get_prop : simpl never.
#[global] Arguments own_property : simpl never.
#[global] Arguments has_property : simpl never.
#[global] Arguments isArray : simpl never.
#[global] Arguments notify : simpl never.
#[global] Arguments put_prop : simpl never.
#[global] Arguments call_splice : simpl never.
#[global] Arguments ob_vmCount : simpl never.
#[global] Arguments defineReactive : simpl never.
#[global] Arguments observe : simpl never.
#[global] Arguments isValidArrayIndex : simpl never.
#[global] Arguments delete_property : simpl never.
#[global] Arguments defineProperty : simpl never.

(** ** The monad *)

Lemma bind_Ok {A B} (m : M A) (f : A -> M B) s b s2 :
  bind m f s = Ok b s2 <-> exists a s1, m s = Ok a s1 /\ f a s1 = Ok b s2.
Proof.
  unfold bind. split.
  - destruct (m s) as [a s1| |] eqn:E; try discriminate. eauto.
  - intros (a & s1 & -> & ?). done.
Qed.

Lemma bind_ret_Ok {A B} (m : M A) (f : A -> M B) s a s1 :
  m s = Ok a s1 -> bind m f s = f a s1.
Proof. unfold bind. by intros ->. Qed.

Lemma state_eta (s : State) :
  mkState (heap s) (observers s) (deps s) (cells s) (target s) (targetStack s)
          (shouldObserve s) (watcherDeps s) (trace s) = s.
Proof. by destruct s. Qed.

Lemma emit_all_nil s : emit_all [] s = s.
Proof. unfold emit_all. rewrite app_nil_r. apply state_eta. Qed.

Lemma emit_all_cons e es s : emit_all (e :: es) s = emit_all es (emit e s).
Proof. unfold emit_all, emit. simpl. by rewrite <- app_assoc. Qed.

Lemma for_each_app {A} (l1 l2 : list A) (body : A -> M unit) s :
  for_each (l1 ++ l2) body s = (for_each l1 body ;;; for_each l2 body) s.
Proof.
  revert s. induction l1 as [|x l1 IH]; intros s; simpl.
  - reflexivity.
  - unfold bind. destruct (body x s) as [[] s1| |]; [|done..].
    rewrite IH. reflexivity.
Qed.

(** ** The stable sort by id *)

Lemma insert_by_id_perm x l : insert_by_id x l ≡ₚ x :: l.
Proof.
  induction l as [|y l IH]; simpl; [done|].
  case_decide; [done|]. rewrite IH. apply Permutation_swap.
Qed.

Lemma sort_by_id_perm l : sort_by_id l ≡ₚ l.
Proof.
  induction l as [|x l IH]; simpl; [done|].
  rewrite insert_by_id_perm. by f_equiv.
Qed.

Lemma insert_by_id_HdRel a x l :
  id_le a x -> HdRel id_le a l -> HdRel id_le a (insert_by_id x l).
Proof.
  intros Hax Hl. destruct l as [|y l]; simpl; [by constructor|].
  case_decide; constructor; [done|]. by inversion Hl.
Qed.

Lemma insert_by_id_sorted x l : Sorted id_le l -> Sorted id_le (insert_by_id x l).
Proof.
  induction 1 as [|y l Hs IH Hhd]; simpl; [by repeat constructor|].
  case_decide as Hxy.
  - constructor; [by constructor|by constructor].
  - constructor; [done|]. apply insert_by_id_HdRel; [|done].
    unfold id_le in *. lia.
Qed.

Lemma sort_by_id_sorted l : Sorted id_le (sort_by_id l).
Proof.
  induction l as [|x l IH]; simpl; [constructor|]. by apply insert_by_id_sorted.
Qed.

(** ** dep.js *)

Lemma for_each_update (l : list Watcher) s :
  for_each l Watcher_update s = Ok tt (emit_all (EUpdate <$> l) s).
Proof.
  revert s. induction l as [|w l IH]; intros s; simpl.
  - by rewrite emit_all_nil.
  - unfold bind, Watcher_update, modify. by rewrite IH, emit_all_cons.
Qed.

Lemma notify_eq `{Host} d s :
  notify d s = Ok tt (emit_all (EUpdate <$> delivery (subs_at s d)) s).
Proof. unfold notify, bind, gets. apply for_each_update. Qed.

(** [notify] calls [update] once on every subscriber of the Dep, in one
    order or another. *)
Lemma delivery_perm `{Host} l : delivery l ≡ₚ l.
Proof. unfold delivery. destruct sync_mode; [apply sort_by_id_perm|done]. Qed.

Lemma notified_delivery `{Host} t w l l' es :
  w ∈ l -> l `prefix_of` l' -> notified t (t ++ es ++ (EUpdate <$> delivery l')) w.
Proof.
  intros Hw Hpre. exists (es ++ (EUpdate <$> delivery l')). split; [done|].
  apply elem_of_app. right. apply list_elem_of_fmap_2.
  rewrite delivery_perm. by eapply elem_of_prefix.
Qed.

(** C4.  In the mode in which notifications are not deferred (the guard of
    the sort: a build that is not the production build, with config.async
    off), [notify] calls [update] on the subscribers of the Dep in
    ascending order of their ids, whatever the order [addSub] put them in:
    the calls are a sorted permutation of [subs]. *)
Theorem notify_ascending_ids `{Host} (d : nat) (s : State) :
  production = false ->
  config_async = false ->
  exists us,
    notify d s = Ok tt (emit_all (EUpdate <$> us) s) /\
    Sorted id_le us /\
    us ≡ₚ subs_at s d.
Proof.
  intros Hp Ha. exists (sort_by_id (subs_at s d)).
  rewrite notify_eq. unfold delivery, sync_mode. rewrite Hp, Ha. simpl.
  split; [done|]. split; [apply sort_by_id_sorted|apply sort_by_id_perm].
Qed.

Lemma notify_ascending_ids_witness :
  exists us,
    @notify dev_host 0 state_one_dep = Ok tt (emit_all (EUpdate <$> us) state_one_dep) /\
    Sorted id_le us /\
    us ≡ₚ [w3; w1; w2].
Proof. apply (@notify_ascending_ids dev_host 0 state_one_dep); reflexivity. Defined.

(** The calls go out in the order 1, 2, 3 although the subscribers were
    added in the order 3, 1, 2. *)
Example notify_example :
  @notify dev_host 0 state_one_dep =
  Ok tt (emit_all [EUpdate w1; EUpdate w2; EUpdate w3] state_one_dep).
Proof. reflexivity. Qed.

(** The production build does not sort. *)
Example notify_production_example :
  @notify prod_host 0 state_one_dep =
  Ok tt (emit_all [EUpdate w3; EUpdate w1; EUpdate w2] state_one_dep).
Proof. reflexivity. Qed.

(** ** The stack of active subscribers *)

Lemma stack_inv_initial : stack_inv initial_state.
Proof. reflexivity. Qed.

Lemma stack_inv_pushTarget t s s' : pushTarget t s = Ok tt s' -> stack_inv s'.
Proof. intros [= <-]. reflexivity. Qed.

Lemma stack_inv_popTarget s s' : popTarget s = Ok tt s' -> stack_inv s'.
Proof.
  intros [= <-]. unfold stack_inv. simpl.
  destruct (tail (targetStack s)) as [|t l]; reflexivity.
Qed.

Lemma restored_refl s : restored s s.
Proof.
  exists (target s). split; [|done]. unfold set_target. by rewrite state_eta.
Qed.

Lemma restored_trans s1 s2 s3 : restored s1 s2 -> restored s2 s3 -> restored s1 s3.
Proof.
  intros (t & -> & Ht & Hne) (t' & -> & Ht' & Hne'). simpl in *.
  exists t'. split; [done|]. split; [congruence|].
  intros Hs. rewrite Hne', Hne; done.
Qed.

Lemma restored_stack_inv s s' : restored s s' -> stack_inv s -> stack_inv s'.
Proof.
  intros (t & -> & Ht & Hne). unfold stack_inv. simpl.
  destruct (targetStack s) as [|t0 l]; [congruence|].
  intros <-. by apply Hne.
Qed.

Lemma run_balanced ops :
  balanced ops ->
  forall s, stack_inv s -> exists s', run_ops ops s = Ok tt s' /\ restored s s'.
Proof.
  unfold run_ops.
  induction 1 as [|t ops Hb IH|ops1 ops2 Hb1 IH1 Hb2 IH2]; intros s Hinv.
  - exists s. split; [done|apply restored_refl].
  - simpl. unfold bind at 1. unfold pushTarget at 1, modify.
    set (s1 := set_target t (t :: targetStack s) s).
    destruct (IH s1) as (s2 & Hrun & (t' & -> & Ht' & Hne')); [reflexivity|].
    rewrite for_each_app. unfold bind at 1. rewrite Hrun. simpl.
    unfold bind, popTarget, modify. simpl.
    eexists. split; [reflexivity|].
    exists (default TUndefined (head (targetStack s))). split; [done|].
    unfold stack_inv in Hinv.
    destruct (targetStack s) as [|t0 l]; simpl; [done|].
    split; [by rewrite Hinv|done].
  - destruct (IH1 s Hinv) as (s1 & Hrun1 & Hr1).
    destruct (IH2 s1) as (s2 & Hrun2 & Hr2); [by eapply restored_stack_inv|].
    exists s2. split; [|by eapply restored_trans].
    rewrite for_each_app. unfold bind. by rewrite Hrun1.
Qed.

(** C5.  [pushTarget(w)], any strictly nested pushes and pops, and the
    [popTarget()] that closes the first push leave the stack as it was and
    the pointer on the subscriber it named before (on none if it named
    none).  When the pointer was itself installed by a push (the stack is
    not empty: an evaluation B nested in the evaluation of A), it gets back
    the very value it had. *)
Theorem pushTarget_popTarget_restores (w : Watcher) (inner : list stackOp) (s : State) :
  stack_inv s ->
  balanced inner ->
  exists s',
    run_ops (OpPush (TWatcher w) :: inner ++ [OpPop]) s = Ok tt s' /\
    targetStack s' = targetStack s /\
    active (target s') = active (target s) /\
    (targetStack s <> [] -> target s' = target s).
Proof.
  intros Hinv Hb.
  destruct (run_balanced _ (balanced_nest (TWatcher w) inner Hb) s Hinv)
    as (s' & Hrun & (t & -> & Ht & Hne)).
  exists (set_target t (targetStack s) s). done.
Qed.

Lemma pushTarget_popTarget_restores_witness :
  exists s',
    run_ops [OpPush (TWatcher w2); OpPush (TWatcher w3); OpPop; OpPop] state_in_w1 = Ok tt s' /\
    targetStack s' = [TWatcher w1] /\
    active (target s') = Some w1 /\
    ([TWatcher w1] <> [] -> target s' = TWatcher w1).
Proof.
  apply (pushTarget_popTarget_restores w2 [OpPush (TWatcher w3); OpPop] state_in_w1).
  - reflexivity.
  - apply (balanced_nest (TWatcher w3) [] balanced_nil).
Defined.

(** C10.  [popTarget()] on an empty stack does not fail: the stack stays
    empty and [Dep.target] becomes [undefined]; nothing else changes. *)
Theorem popTarget_empty_stack (s : State) :
  targetStack s = [] ->
  popTarget s = Ok tt (set_target TUndefined [] s) /\
  active (target (set_target TUndefined [] s)) = None.
Proof. intros Hs. unfold popTarget, modify. by rewrite Hs. Qed.

Lemma popTarget_empty_stack_witness :
  popTarget initial_state = Ok tt (set_target TUndefined [] initial_state) /\
  active (target (set_target TUndefined [] initial_state)) = None.
Proof. apply (popTarget_empty_stack initial_state). reflexivity. Defined.


(** ** Reads *)

Lemma plain_read_get_prop `{Host} fuel a k v s :
  plain_read (obj_at s a) k = Some v ->
  get_prop fuel (VObject a) k s = Ok v s.
Proof.
  unfold plain_read, get_prop, get_prop_with, bind, gets.
  destruct (own_property (obj_at s a) k) as [[x ? ? ?|[g|] ? ? ?]|]; try done.
  - by intros [= ->].
  - by intros [= <-].
  - case_bool_decide; [done|]. by intros [= <-].
Qed.

Lemma depend_idle d s : active (target s) = None -> depend d s = Ok tt s.
Proof. unfold depend, bind, gets. by intros ->. Qed.

(** With no active subscriber a getter only computes its value. *)
Lemma call_getter_idle `{Host} depArr g this s :
  active (target s) = None ->
  call_getter depArr g this s = Ok (getter_value g this (heap s) (cells s)) s.
Proof.
  intros Hidle. revert this.
  induction g using getterFn_induction with
    (Ps := fun _ => True)
    (Q := fun c => reactiveGetter depArr c s = Ok (current_value c (heap s) (cells s)) s);
    intros; try done.
  destruct g as [g|]; simpl.
  - unfold bind at 1. rewrite (H0 g eq_refl). unfold bind, gets. by rewrite Hidle.
  - unfold bind, gets. by rewrite Hidle.
Qed.

Lemma reactiveGetter_idle `{Host} depArr c s :
  active (target s) = None ->
  reactiveGetter depArr c s = Ok (current_value c (heap s) (cells s)) s.
Proof. intros Hidle. apply (call_getter_idle depArr (GReactive c) 0 s Hidle). Qed.

(** A getter of the embedding program only computes its value. *)
Lemma call_getter_quiet `{Host} depArr g this s :
  quiet_getter (Some g) = true ->
  call_getter depArr g this s = Ok (getter_value g this (heap s) (cells s)) s.
Proof. by destruct g. Qed.

(** ** The setter: assigning the value the property already has *)

(** C2.  On a property installed by defineReactive, assigning a value that
    is strictly equal to the current one, or NaN over NaN, returns at the
    test: after the line the setter writes to the console the state is the
    one before the assignment, and no subscriber is notified.  The current
    value is [getter ? getter.call(obj) : val]; the pre-defined getter is a
    function of the embedding program, or no subscriber is active. *)
Theorem reactiveSetter_same_value `{Host} (fuel : nat) (c : closure)
    (newVal : value) (s : State) :
  active (target s) = None \/ quiet_getter (cl_getter c) = true ->
  same_value newVal (current_value c (heap s) (cells s)) = true ->
  reactiveSetter fuel c newVal s = Ok tt (emit (EConsoleLog newVal) s) /\
  updates (trace (emit (EConsoleLog newVal) s)) = updates (trace s).
Proof.
  intros Hq Hsame. split.
  - destruct c as [cell obj dep getter setter shallow customSetter]. simpl in *.
    unfold bind at 1. unfold modify at 1.
    set (s1 := emit (EConsoleLog newVal) s).
    destruct getter as [g|].
    + assert (call_getter (dependArray fuel) g obj s1
              = Ok (getter_value g obj (heap s) (cells s)) s1) as Hg.
      { destruct Hq as [Hidle|Hq].
        - by apply (call_getter_idle _ g obj s1).
        - by apply (call_getter_quiet _ g obj s1). }
      unfold bind at 1. rewrite Hg. by rewrite Hsame.
    + unfold bind at 1. unfold gets at 1. simpl.
      unfold cell_at. simpl. by rewrite Hsame.
  - unfold emit. simpl. induction (trace s) as [|[] t IH]; simpl; congruence.
Qed.

(** ** Runs that keep a relation between the states *)

Section preserves.
Context (R : State -> State -> Prop) `{!PreOrder R}.

Lemma preserves_ret {A} (a : A) : preserves R (ret a).
Proof. intros s a' s' [= _ <-]. reflexivity. Qed.

Lemma preserves_gets {A} (f : State -> A) : preserves R (gets f).
Proof. intros s a' s' [= _ <-]. reflexivity. Qed.

Lemma preserves_throw {A} e : preserves R (@throw A e).
Proof. intros s a' s' [=]. Qed.

Lemma preserves_bind {A B} (m : M A) (f : A -> M B) :
  preserves R m -> (forall a, preserves R (f a)) -> preserves R (bind m f).
Proof.
  intros Hm Hf s b s2 (a & s1 & H1 & H2)%bind_Ok.
  etrans; [by eapply Hm|by eapply Hf].
Qed.

Lemma preserves_for_loop n from body :
  (forall i, preserves R (body i)) -> preserves R (for_loop n from body).
Proof.
  intros Hb. revert from. induction n as [|n IH]; intros from; simpl.
  - apply preserves_ret.
  - apply preserves_bind; [apply Hb|intros _; apply IH].
Qed.

Lemma preserves_for_each {A} (l : list A) body :
  (forall x, x ∈ l -> preserves R (body x)) -> preserves R (for_each l body).
Proof.
  induction l as [|x l IH]; intros Hb; simpl.
  - apply preserves_ret.
  - apply preserves_bind; [apply Hb; left|intros _; apply IH].
    intros y Hy. apply Hb. by right.
Qed.

Lemma preserves_modify (f : State -> State) :
  (forall s, R s (f s)) -> preserves R (modify f).
Proof. intros Hf s a' s' [= _ <-]. apply Hf. Qed.

End preserves.

#[global] Instance registers_preorder : PreOrder registers.
Proof.
  split.
  - intros s. split; done.
  - intros s1 s2 s3 [] []. split; try congruence; try (intros; etrans; eauto).
    intros w d Hin Hnot Hlt.
    destruct (decide (d ∈ recorded s2 w)) as [Hin2|Hnot2].
    + eapply elem_of_prefix; [|apply reg_subs1]. apply reg_new0; [done..|congruence].
    + apply reg_new1; [done|done|congruence].
Qed.

Lemma addSub_subs d w s s' x :
  addSub d w s = Ok x s' ->
  d < length (deps s) ->
  subs_at s' d = subs_at s d ++ [w].
Proof.
  intros [= _ <-] Hlt. unfold subs_at at 1. simpl.
  by rewrite list_lookup_insert_eq.
Qed.

Lemma addSub_subs_prefix d w s s' x d' :
  addSub d w s = Ok x s' -> subs_at s d' `prefix_of` subs_at s' d'.
Proof.
  intros [= _ <-]. unfold subs_at at 2. simpl.
  destruct (decide (d = d')) as [->|Hne].
  - destruct (decide (d' < length (deps s))).
    + rewrite list_lookup_insert_eq by done. simpl. by apply prefix_app_r.
    + rewrite list_insert_ge by lia. done.
  - by rewrite list_lookup_insert_ne.
Qed.

Lemma Watcher_addDep_registers w d : preserves registers (Watcher_addDep w d).
Proof.
  intros s x s'. unfold Watcher_addDep, bind, gets, modify.
  case_bool_decide as Hin.
  - intros [= _ <-]. reflexivity.
  - set (s1 := set_watcherDeps _ s). intros Hadd.
    assert (forall w', recorded s1 w' =
             if decide (w_id w = w_id w') then recorded s w ++ [d] else recorded s w')
      as Hrec.
    { intros w'. unfold recorded at 1. simpl. case_decide as Hw.
      - rewrite <- Hw. by rewrite lookup_insert_eq.
      - by rewrite lookup_insert_ne. }
    assert (forall w', recorded s' w' = recorded s1 w') as Hrec'.
    { intros w'. by injection Hadd as _ <-. }
    assert (forall d', subs_at s d' = subs_at s1 d') as Hsubs by done.
    split.
    1-7: by injection Hadd as _ <-.
    + injection Hadd as _ <-. simpl. by rewrite length_insert.
    + intros d'. rewrite Hsubs. apply (addSub_subs_prefix _ _ _ _ _ d' Hadd).
    + intros w'. rewrite Hrec', Hrec. case_decide as Hw; [|done].
      assert (recorded s w' = recorded s w) as -> by (unfold recorded; by rewrite Hw).
      by apply prefix_app_r.
    + intros w' d' Hin' Hnot Hlt.
      rewrite Hrec', Hrec in Hin'.
      case_decide as Hw; [|done].
      assert (recorded s w' = recorded s w) as Heq by (unfold recorded; by rewrite Hw).
      rewrite Heq in Hnot.
      apply elem_of_app in Hin' as [?| ->%list_elem_of_singleton]; [done|].
      assert (w' = w) as -> by (destruct w, w'; simpl in *; congruence).
      rewrite (addSub_subs _ _ _ _ _ Hadd) by done.
      apply elem_of_app. right. by left.
Qed.

Lemma depend_registers d : preserves registers (depend d).
Proof.
  unfold depend. apply preserves_bind; [apply _|apply preserves_gets, _|].
  intros t. destruct (active t).
  - apply Watcher_addDep_registers.
  - apply preserves_ret, _.
Qed.

(** A getter only registers subscribers, provided [dependArray] does. *)
Lemma call_getter_registers `{Host} depArr g this :
  (forall v, preserves registers (depArr v)) ->
  preserves registers (call_getter depArr g this).
Proof.
  intros Hd. revert this.
  induction g using getterFn_induction with
    (Ps := fun _ => True)
    (Q := fun c => preserves registers (reactiveGetter depArr c));
    intros; try done.
  - apply preserves_gets, _.
  - simpl. apply preserves_bind; [apply _| |].
    { destruct g as [g|]; [by apply H0|apply preserves_gets, _]. }
    intros value. apply preserves_bind; [apply _|apply preserves_gets, _|].
    intros t. apply preserves_bind; [apply _| |intros; apply preserves_ret, _].
    destruct (active t); [|apply preserves_ret, _].
    apply preserves_bind; [apply _|apply depend_registers|intros _].
    apply preserves_bind; [apply _|apply preserves_gets, _|intros [ob|]].
    2: apply preserves_ret, _.
    apply preserves_bind; [apply _|apply preserves_gets, _|intros d].
    apply preserves_bind; [apply _|apply depend_registers|intros _].
    apply preserves_bind; [apply _|apply preserves_gets, _|intros []].
    + apply Hd.
    + apply preserves_ret, _.
Qed.

Lemma get_prop_with_registers `{Host} depArr v k :
  (forall v, preserves registers (depArr v)) ->
  preserves registers (get_prop_with depArr v k).
Proof.
  intros Hd. unfold get_prop_with.
  destruct v; try apply preserves_ret, _; try apply preserves_throw.
  apply preserves_bind; [apply _|apply preserves_gets, _|intros o].
  destruct (own_property o k) as [[x ? ? ?|[g|] ? ? ?]|].
  - apply preserves_ret, _.
  - by apply call_getter_registers.
  - apply preserves_ret, _.
  - case_bool_decide; [apply preserves_throw|apply preserves_ret, _].
Qed.

Lemma observer_of_registers v : preserves registers (observer_of v).
Proof. destruct v; try apply preserves_throw. apply preserves_ret, _. Qed.

Lemma dependArray_registers `{Host} fuel v :
  preserves registers (dependArray fuel v).
Proof.
  revert v. induction fuel as [|fuel IH]; intros v; [by intros s a s'|].
  simpl. unfold dependArray_body.
  apply preserves_bind; [apply _|apply preserves_gets, _|intros l].
  apply preserves_for_loop; [apply _|]. intros i.
  apply preserves_bind; [apply _|by apply get_prop_with_registers|intros e].
  apply preserves_bind; [apply _| |intros _].
  { destruct (truthy e); [|apply preserves_ret, _].
    apply preserves_bind; [apply _|by apply get_prop_with_registers|intros ob].
    destruct (truthy ob); [|apply preserves_ret, _].
    apply preserves_bind; [apply _|apply observer_of_registers|intros o].
    apply preserves_bind; [apply _|apply preserves_gets, _|intros d].
    apply depend_registers. }
  apply preserves_bind; [apply _|apply preserves_gets, _|intros []].
  - apply IH.
  - apply preserves_ret, _.
Qed.

Lemma get_prop_registers `{Host} fuel v k : preserves registers (get_prop fuel v k).
Proof. apply get_prop_with_registers. intros. apply dependArray_registers. Qed.

(** The value a getter returns is the one read off the object graph. *)
Lemma call_getter_value `{Host} depArr g this s v s' :
  (forall v, preserves registers (depArr v)) ->
  call_getter depArr g this s = Ok v s' ->
  v = getter_value g this (heap s) (cells s).
Proof.
  intros Hd. revert this s v s'.
  induction g using getterFn_induction with
    (Ps := fun _ => True)
    (Q := fun c => forall s v s', reactiveGetter depArr c s = Ok v s' ->
                   v = current_value c (heap s) (cells s));
    intros; try done.
  - simpl in *. by injection H0 as <- _.
  - simpl in *. eauto.
  - simpl in *. apply bind_Ok in H2 as (value & s1 & Hval & Hrest).
    apply bind_Ok in Hrest as (t & s2 & _ & Hrest).
    apply bind_Ok in Hrest as (? & s3 & _ & [= <- _]).
    destruct g as [g|]; [by eapply H0|]. by injection Hval as <- _.
Qed.

(** The read of a reactive property by the active subscriber records the
    Dep of the property with the subscriber. *)
Lemma reactiveGetter_records `{Host} depArr c s v s' w :
  (forall v, preserves registers (depArr v)) ->
  target s = TWatcher w ->
  reactiveGetter depArr c s = Ok v s' ->
  cl_dep c ∈ recorded s' w.
Proof.
  intros Hd Ht Hrun. destruct c as [cell obj dep getter setter shallow customSetter].
  simpl in *.
  apply bind_Ok in Hrun as (value & s1 & Hval & Hrest).
  assert (registers s s1) as Hs1.
  { destruct getter as [g|]; [by eapply call_getter_registers|by injection Hval as _ <-]. }
  apply bind_Ok in Hrest as (t & s2 & [= <- <-] & Hrest).
  apply bind_Ok in Hrest as (? & s3 & Hdep & [= _ <-]).
  rewrite (reg_target _ _ Hs1), Ht in Hdep. simpl in Hdep.
  apply bind_Ok in Hdep as ([] & s4 & Hadd & Hrest).
  assert (dep ∈ recorded s4 w) as Hin.
  { unfold depend, bind, gets in Hadd.
    rewrite (reg_target _ _ Hs1), Ht in Hadd. simpl in Hadd.
    unfold Watcher_addDep, bind, gets, modify in Hadd.
    case_bool_decide as Hseen.
    - by injection Hadd as <-.
    - injection Hadd as <-. unfold recorded. simpl. rewrite lookup_insert_eq. simpl.
      apply elem_of_app. right. by left. }
  assert (registers s4 s3) as Hs3.
  { assert (preserves registers
      (childOb <- gets (fun s => c_childOb (cell_at s cell)) ;;
       match childOb with
       | Some ob =>
           d <- gets (fun s => ob_dep (ob_at s ob)) ;;
           depend d ;;;
           is_arr <- gets (fun s => isArray s value) ;;
           if is_arr then depArr value else ret tt
       | None => ret tt
       end)) as Htail; [|by eapply Htail].
    apply preserves_bind; [apply _|apply preserves_gets, _|intros [ob|]].
    2: apply preserves_ret, _.
    apply preserves_bind; [apply _|apply preserves_gets, _|intros d].
    apply preserves_bind; [apply _|apply depend_registers|intros _].
    apply preserves_bind; [apply _|apply preserves_gets, _|intros []].
    + apply Hd.
    + apply preserves_ret, _. }
  eapply elem_of_prefix; [done|]. apply (reg_recorded _ _ Hs3).
Qed.

Lemma reactiveSetter_same_value_witness :
  @reactiveSetter dev_host 1 closure_a (VNumber PrimFloat.nan) state_observed
    = Ok tt (emit (EConsoleLog (VNumber PrimFloat.nan)) state_observed) /\
  updates (trace (emit (EConsoleLog (VNumber PrimFloat.nan)) state_observed))
    = updates (trace state_observed).
Proof.
  apply (@reactiveSetter_same_value dev_host 1 closure_a (VNumber PrimFloat.nan)
           state_observed); [by left|reflexivity].
Defined.

Lemma get_prop_installed `{Host} fuel a k c s :
  installed s a k c ->
  get_prop fuel (VObject a) k s = reactiveGetter (dependArray fuel) c s.
Proof.
  intros (Hown & _). unfold get_prop, get_prop_with, bind, gets. by rewrite Hown.
Qed.

(** C7.  Reading a reactive property while no subscriber is active
    registers nothing: the read returns the value and leaves the state,
    with every Dep in it, as it was.  While subscriber [w] is active the
    read only registers subscribers, and it registers the Dep of the
    property with [w]: [w] has recorded the Dep, and is among its [subs]
    if it had not recorded it before.  For a property that holds no
    observed value the read is exactly [Dep.target.addDep(dep)]. *)
Theorem read_reactive_property `{Host} (fuel : nat) (a : addr) (k : key)
    (c : closure) (s : State) :
  installed s a k c ->
  (active (target s) = None ->
     get_prop fuel (VObject a) k s = Ok (current_value c (heap s) (cells s)) s) /\
  (forall w v s',
     target s = TWatcher w ->
     get_prop fuel (VObject a) k s = Ok v s' ->
     v = current_value c (heap s) (cells s) /\
     registers s s' /\
     cl_dep c ∈ recorded s' w /\
     (cl_dep c ∉ recorded s w -> w ∈ subs_at s' (cl_dep c))) /\
  (forall w,
     target s = TWatcher w ->
     cl_getter c = None ->
     c_childOb (cell_at s (cl_cell c)) = None ->
     get_prop fuel (VObject a) k s
       = (Watcher_addDep w (cl_dep c) ;;; ret (c_val (cell_at s (cl_cell c)))) s).
Proof.
  intros Hinst. rewrite (get_prop_installed fuel a k c s Hinst).
  destruct Hinst as (_ & _ & Hdep & _).
  split; [|split].
  - apply reactiveGetter_idle.
  - intros w v s' Ht Hrun.
    assert (registers s s') as Hreg.
    { eapply (call_getter_registers _ (GReactive c) 0); [|exact Hrun].
      intros. apply dependArray_registers. }
    split; [|split; [done|]].
    { eapply (call_getter_value _ (GReactive c) 0); [|exact Hrun].
      intros. apply dependArray_registers. }
    assert (cl_dep c ∈ recorded s' w) as Hin.
    { eapply reactiveGetter_records; [|done..]. intros. apply dependArray_registers. }
    split; [done|]. intros Hnot. by eapply reg_new.
  - intros w Ht Hg Hc.
    destruct c as [cell obj dep getter setter shallow customSetter]. simpl in *.
    subst getter. unfold bind at 1. unfold gets at 1.
    unfold bind at 1. unfold gets at 1. rewrite Ht. simpl.
    unfold bind at 1. unfold bind at 1. unfold bind at 3.
    unfold depend at 1. unfold bind at 1. unfold gets at 1. rewrite Ht. simpl.
    unfold bind.
    destruct (Watcher_addDep w dep s) as [[] s1| |] eqn:Hadd; [|done..].
    pose proof (Watcher_addDep_registers _ _ _ _ _ Hadd) as Hreg.
    unfold gets, cell_at. rewrite (reg_cells _ _ Hreg).
    unfold cell_at in Hc. rewrite Hc. reflexivity.
Qed.

Lemma read_reactive_property_witness :
  (active (target state_observed_w1) = None ->
     @get_prop dev_host 1 (VObject 0) (KStr "a") state_observed_w1
       = Ok (@current_value dev_host closure_a (heap state_observed_w1)
               (cells state_observed_w1)) state_observed_w1) /\
  (forall w v s',
     target state_observed_w1 = TWatcher w ->
     @get_prop dev_host 1 (VObject 0) (KStr "a") state_observed_w1 = Ok v s' ->
     v = @current_value dev_host closure_a (heap state_observed_w1)
           (cells state_observed_w1) /\
     registers state_observed_w1 s' /\
     cl_dep closure_a ∈ recorded s' w /\
     (cl_dep closure_a ∉ recorded state_observed_w1 w ->
      w ∈ subs_at s' (cl_dep closure_a))) /\
  (forall w,
     target state_observed_w1 = TWatcher w ->
     cl_getter closure_a = None ->
     c_childOb (cell_at state_observed_w1 (cl_cell closure_a)) = None ->
     @get_prop dev_host 1 (VObject 0) (KStr "a") state_observed_w1
       = (Watcher_addDep w (cl_dep closure_a) ;;;
          ret (c_val (cell_at state_observed_w1 (cl_cell closure_a)))) state_observed_w1).
Proof.
  apply (@read_reactive_property dev_host 1 0 (KStr "a") closure_a state_observed_w1).
  repeat split; vm_compute; lia.
Defined.

(** Subscriber 1 reads [obj.a]: it records Dep 1 and is added to its
    [subs]. *)
Example read_registers_example :
  exists s', @get_prop dev_host 1 (VObject 0) (KStr "a") state_observed_w1
             = Ok (VNumber PrimFloat.nan) s' /\
             recorded s' w1 = [1] /\ subs_at s' 1 = [w1].
Proof. eexists. split; [reflexivity|]. split; reflexivity. Qed.

(** ** set and del on what they refuse or leave alone *)

Lemma ob_vmCount_Observer `{Host} fuel i s :
  ob_vmCount fuel (VObserver i) s = Ok (negb (Nat.eqb (vmCount (ob_at s i)) 0)) s.
Proof. reflexivity. Qed.

Lemma ob_vmCount_falsy `{Host} fuel ob s :
  truthy ob = false -> ob_vmCount fuel ob s = Ok false s.
Proof. unfold ob_vmCount. by intros ->. Qed.

Lemma updates_app t1 t2 : updates (t1 ++ t2) = updates t1 ++ updates t2.
Proof. induction t1 as [|[] t1 IH]; simpl; congruence. Qed.

Lemma updates_warned `{Host} m s : updates (trace (warned m s)) = updates (trace s).
Proof.
  unfold warned. destruct production; [done|]. simpl.
  rewrite updates_app. simpl. by rewrite app_nil_r.
Qed.

(** C6.  On a target whose Observer counts at least one root use, or that
    is a framework-root instance ([_isVue]), [set] with a key the target
    does not have refuses the addition: it returns the value, and but for
    the warning of a development build the state is untouched: the key is
    not added, no accessor is installed, no subscriber is notified. *)
Theorem set_refuses_on_root `{Host} (fuel : nat) (a : addr) (k : key)
    (val ob isVue : value) (s : State) :
  isArray s (VObject a) && isValidArrayIndex k = false ->
  has_property (obj_at s a) k = false ->
  plain_read (obj_at s a) (KStr "__ob__") = Some ob ->
  plain_read (obj_at s a) (KStr "_isVue") = Some isVue ->
  (truthy isVue = true \/
   exists i, ob = VObserver i /\ vmCount (ob_at s i) <> 0) ->
  set fuel (VObject a) k val s = Ok val (warned WarnSetRoot s) /\
  heap (warned WarnSetRoot s) = heap s /\
  cells (warned WarnSetRoot s) = cells s /\
  deps (warned WarnSetRoot s) = deps s /\
  updates (trace (warned WarnSetRoot s)) = updates (trace s).
Proof.
  intros Harr Hnot Hob HisVue Hroot. split.
  - assert ((if truthy isVue then ret true else ob_vmCount fuel ob) s = Ok true s) as Hr.
    { destruct (truthy isVue) eqn:Hv; [done|].
      destruct Hroot as [?|(i & -> & Hcount)]; [done|].
      rewrite ob_vmCount_Observer. f_equal.
      destruct (vmCount (ob_at s i)); done. }
    unfold set, bind, gets, key_in. simpl. rewrite andb_false_r. simpl.
    rewrite Harr, Hnot. simpl.
    rewrite (plain_read_get_prop _ _ _ _ _ Hob).
    rewrite (plain_read_get_prop _ _ _ _ _ HisVue).
    rewrite Hr.
    unfold warned, warn, modify, ret. by destruct production.
  - unfold warned. destruct production; [done|]. repeat split.
    simpl. rewrite updates_app. simpl. by rewrite app_nil_r.
Qed.

Lemma set_refuses_on_root_witness :
  @set dev_host 0 (VObject 0) (KStr "c") (VString "late") state_root
    = Ok (VString "late") (@warned dev_host WarnSetRoot state_root) /\
  heap (@warned dev_host WarnSetRoot state_root) = heap state_root /\
  cells (@warned dev_host WarnSetRoot state_root) = cells state_root /\
  deps (@warned dev_host WarnSetRoot state_root) = deps state_root /\
  updates (trace (@warned dev_host WarnSetRoot state_root)) = updates (trace state_root).
Proof.
  apply (@set_refuses_on_root dev_host 0 0 (KStr "c") (VString "late")
           (VObserver 0) VUndefined state_root); try reflexivity.
  right. exists 0. split; [reflexivity|]. vm_compute. lia.
Defined.

Lemma obj_at_put_obj a o s : a < length (heap s) -> obj_at (put_obj a o s) a = o.
Proof. intros Hlt. unfold obj_at, put_obj. simpl. by rewrite list_lookup_insert_eq. Qed.

Lemma obj_at_put_obj_ne a b o s : a <> b -> obj_at (put_obj a o s) b = obj_at s b.
Proof. intros Hne. unfold obj_at, put_obj. simpl. by rewrite list_lookup_insert_ne. Qed.

Lemma own_property_in_heap s a k p :
  own_property (obj_at s a) k = Some p -> a < length (heap s).
Proof.
  intros Hown. destruct (decide (a < length (heap s))) as [|Hge]; [done|].
  unfold obj_at in Hown. rewrite lookup_ge_None_2 in Hown by lia. done.
Qed.

Lemma own_property_not_array o k :
  o_kind o <> KArray -> own_property o k = lookup_key k (o_props o).
Proof.
  intros Hk. unfold own_property.
  rewrite (bool_decide_eq_false_2 _ Hk). reflexivity.
Qed.

Lemma lookup_key_delete_key k l : lookup_key k (delete_key k l) = None.
Proof.
  unfold delete_key. induction l as [|[k' p] l IH]; [done|].
  rewrite filter_cons. simpl. case_decide as Hk; [|done].
  simpl. case_decide; [congruence|done].
Qed.

Lemma hasOwn_remove_prop o k : o_kind o <> KArray -> hasOwn (remove_prop k o) k = false.
Proof.
  intros Hk. unfold hasOwn, remove_prop.
  rewrite (bool_decide_eq_false_2 _ Hk). simpl.
  rewrite own_property_not_array by done. simpl.
  by rewrite lookup_key_delete_key.
Qed.

(** C9.  [del] on a target that is no array and no root: when the key is
    not an own property nothing happens at all, no property goes and no
    subscriber is notified.  When it is an own (configurable) property it
    is deleted, and then [update] is called on the subscribers of the
    collection Dep, once on each, if the target has an Observer, and on
    nobody if it has none. *)
Theorem del_own_property_only `{Host} (fuel : nat) (a : addr) (k : key)
    (ob isVue : value) (s : State) :
  o_kind (obj_at s a) <> KArray ->
  plain_read (obj_at s a) (KStr "__ob__") = Some ob ->
  plain_read (obj_at s a) (KStr "_isVue") = Some isVue ->
  truthy isVue = false ->
  (truthy ob = false \/ exists i, ob = VObserver i /\ vmCount (ob_at s i) = 0) ->
  (hasOwn (obj_at s a) k = false -> del fuel (VObject a) k s = Ok tt s) /\
  (forall p,
     own_property (obj_at s a) k = Some p ->
     p_configurable p = true ->
     let s1 := put_obj a (remove_prop k (obj_at s a)) s in
     hasOwn (obj_at s1 a) k = false /\
     (truthy ob = false -> del fuel (VObject a) k s = Ok tt s1) /\
     (forall i, ob = VObserver i ->
        exists us,
          us ≡ₚ subs_at s (ob_dep (ob_at s i)) /\
          del fuel (VObject a) k s = Ok tt (emit_all (EUpdate <$> us) s1))).
Proof.
  intros Hkind Hob HisVue Hv Hroot.
  assert (isArray s (VObject a) = false) as Harr.
  { unfold isArray. by apply bool_decide_eq_false_2. }
  assert ((if truthy isVue then ret true else ob_vmCount fuel ob) s = Ok false s) as Hr.
  { rewrite Hv. destruct Hroot as [?|(i & -> & Hcount)].
    - by apply ob_vmCount_falsy.
    - rewrite ob_vmCount_Observer. by rewrite Hcount. }
  split.
  - intros Hown. unfold del, bind, gets. simpl. rewrite andb_false_r. simpl.
    rewrite Harr. simpl.
    rewrite (plain_read_get_prop _ _ _ _ _ Hob).
    rewrite (plain_read_get_prop _ _ _ _ _ HisVue).
    rewrite Hr. by rewrite Hown.
  - intros p Hp Hconf s1.
    assert (a < length (heap s)) as Hlt by by eapply own_property_in_heap.
    split; [|split].
    + unfold s1. rewrite obj_at_put_obj by done. by apply hasOwn_remove_prop.
    + intros Hfalsy. unfold del, bind, gets. simpl. rewrite andb_false_r. simpl.
      rewrite Harr. simpl.
      rewrite (plain_read_get_prop _ _ _ _ _ Hob).
      rewrite (plain_read_get_prop _ _ _ _ _ HisVue).
      rewrite Hr. unfold hasOwn. rewrite Hp. simpl.
      unfold delete_property. rewrite Hp, Hconf. by rewrite Hfalsy.
    + intros i ->. exists (delivery (subs_at s (ob_dep (ob_at s i)))).
      split; [apply delivery_perm|].
      unfold del, bind, gets. simpl. rewrite andb_false_r. simpl.
      rewrite Harr. simpl.
      rewrite (plain_read_get_prop _ _ _ _ _ Hob).
      rewrite (plain_read_get_prop _ _ _ _ _ HisVue).
      rewrite Hr. unfold hasOwn. rewrite Hp. simpl.
      unfold delete_property. rewrite Hp, Hconf. simpl.
      fold s1. apply (notify_eq (ob_dep (ob_at s1 i)) s1).
Qed.

Lemma del_own_property_only_witness :
  (hasOwn (obj_at state_observed 0) (KStr "zz") = false ->
   @del dev_host 0 (VObject 0) (KStr "zz") state_observed = Ok tt state_observed) /\
  (forall p,
     own_property (obj_at state_observed 0) (KStr "zz") = Some p ->
     p_configurable p = true ->
     let s1 := put_obj 0 (remove_prop (KStr "zz") (obj_at state_observed 0)) state_observed in
     hasOwn (obj_at s1 0) (KStr "zz") = false /\
     (truthy (VObserver 0) = false ->
      @del dev_host 0 (VObject 0) (KStr "zz") state_observed = Ok tt s1) /\
     (forall i, VObserver 0 = VObserver i ->
        exists us,
          us ≡ₚ subs_at state_observed (ob_dep (ob_at state_observed i)) /\
          @del dev_host 0 (VObject 0) (KStr "zz") state_observed
          = Ok tt (emit_all (EUpdate <$> us) s1))).
Proof.
  apply (@del_own_property_only dev_host 0 0 (KStr "zz") (VObserver 0) VUndefined
           state_observed); try done.
  right. exists 0. split; reflexivity.
Defined.

(** Deleting the property [a] of the observed object, whose collection Dep
    has the subscribers 2 and 1: the property goes and both are notified,
    in the order of their ids. *)
Example del_example :
  exists s', @del dev_host 0 (VObject 0) (KStr "a") state_observed_subs = Ok tt s' /\
             hasOwn (obj_at s' 0) (KStr "a") = false /\
             hasOwn (obj_at s' 0) (KStr "b") = true /\
             trace s' = [EUpdate w1; EUpdate w2].
Proof. eexists. split; [reflexivity|]. repeat split. Qed.

(** ** What observe may change *)

Lemma evolves_refl x s : evolves x s s.
Proof. split; done. Qed.

Lemma evolves_trans x s1 s2 s3 : evolves x s1 s2 -> evolves x s2 s3 -> evolves x s1 s3.
Proof.
  intros H12 H23. split.
  - rewrite (ev_heap _ _ _ H23). apply (ev_heap _ _ _ H12).
  - intros a. rewrite (ev_kind _ _ _ H23). apply (ev_kind _ _ _ H12).
  - intros a. rewrite (ev_extensible _ _ _ H23). apply (ev_extensible _ _ _ H12).
  - intros a. rewrite (ev_elems _ _ _ H23). apply (ev_elems _ _ _ H12).
  - intros a k Hown. apply (ev_own _ _ _ H23), (ev_own _ _ _ H12), Hown.
  - intros a k Hf. apply (ev_frozen _ _ _ H12), (ev_frozen _ _ _ H23), Hf.
  - intros a i Hm. apply (ev_marker _ _ _ H23), (ev_marker _ _ _ H12), Hm.
  - intros a Hx Hm. pose proof (ev_marked _ _ _ H12 a Hx Hm) as E.
    rewrite <- E. apply (ev_marked _ _ _ H23 a Hx). by rewrite E.
  - intros i Hi.
    destruct (ev_observers _ _ _ H12 i Hi) as [E1 E2].
    destruct (ev_observers _ _ _ H23 i) as [E3 E4].
    { pose proof (ev_observers_len _ _ _ H12). lia. }
    split; congruence.
  - etrans; [apply (ev_observers_len _ _ _ H12)|apply (ev_observers_len _ _ _ H23)].
  - etrans; [apply (ev_cells _ _ _ H12)|apply (ev_cells _ _ _ H23)].
  - intros d. etrans; [apply (ev_subs _ _ _ H12)|apply (ev_subs _ _ _ H23)].
  - etrans; [apply (ev_deps_len _ _ _ H12)|apply (ev_deps_len _ _ _ H23)].
  - rewrite (ev_target _ _ _ H23). apply (ev_target _ _ _ H12).
  - rewrite (ev_stack _ _ _ H23). apply (ev_stack _ _ _ H12).
  - rewrite (ev_shouldObserve _ _ _ H23). apply (ev_shouldObserve _ _ _ H12).
  - rewrite (ev_trace _ _ _ H23). apply (ev_trace _ _ _ H12).
  - intros Hidle.
    destruct (ev_idle _ _ _ H12 Hidle) as [P1 W1].
    destruct (ev_idle _ _ _ H23) as [P2 W2].
    { by rewrite (ev_target _ _ _ H12). }
    split; [by etrans|congruence].
Qed.

#[global] Instance evolves_preorder x : PreOrder (evolves x).
Proof. split; [intros s; apply evolves_refl|intros s1 s2 s3; apply evolves_trans]. Qed.

(** Leaving every marked object alone is leaving all of them but [a]
    alone. *)
Lemma evolves_weaken x s s' : evolves None s s' -> evolves x s s'.
Proof.
  intros []. split; try done. intros a _ Hm. by apply ev_marked0.
Qed.

(** An object that had no marker is not among the marked ones. *)
Lemma evolves_upgrade a s s' :
  evolves (Some a) s s' -> marker (obj_at s a) = None -> evolves None s s'.
Proof.
  intros [] Hm. split; try done. intros b _ Hb. apply ev_marked0; [|done].
  intros [= ->]. rewrite Hm in Hb. by destruct Hb.
Qed.

(** ** The measure *)

Lemma unmarked_le (l l' : list object) :
  Forall2 (fun o o' => marker o' = None -> marker o = None) l l' ->
  length (filter (fun o => marker o = None) l')
  <= length (filter (fun o => marker o = None) l).
Proof.
  induction 1 as [|o o' l l' Ho Hl IH]; [done|].
  rewrite !filter_cons.
  destruct (decide (marker o' = None)) as [E|E].
  - rewrite decide_True by auto. simpl. lia.
  - destruct (decide (marker o = None)); simpl; lia.
Qed.

Lemma evolves_Forall2 x s s' :
  evolves x s s' ->
  Forall2 (fun o o' => marker o' = None -> marker o = None) (heap s) (heap s').
Proof.
  intros Hev. apply Forall2_same_length_lookup_2.
  - symmetry. apply (ev_heap _ _ _ Hev).
  - intros a o o' Ho Ho' Hnone.
    destruct (marker o) as [i|] eqn:Hm; [|done].
    assert (obj_at s a = o) as Eo by (unfold obj_at; by rewrite Ho).
    assert (obj_at s' a = o') as Eo' by (unfold obj_at; by rewrite Ho').
    pose proof (ev_marker _ _ _ Hev a i) as Hpres.
    rewrite Eo, Eo' in Hpres. rewrite Hpres in Hnone; done.
Qed.

Lemma evolves_unmarked x s s' : evolves x s s' -> unmarked s' <= unmarked s.
Proof. intros Hev. apply unmarked_le. by eapply evolves_Forall2. Qed.

Lemma unmarked_insert (l : list object) a o o' :
  l !! a = Some o -> marker o = None -> marker o' <> None ->
  length (filter (fun o => marker o = None) (<[a := o']> l))
  < length (filter (fun o => marker o = None) l).
Proof.
  intros Ha Hm Hm'. revert a Ha.
  induction l as [|o0 l IH]; intros a Ha; [done|].
  destruct a as [|a]; simpl in *.
  - injection Ha as ->. rewrite !filter_cons.
    rewrite decide_False by done. rewrite decide_True by done. simpl. lia.
  - rewrite !filter_cons. specialize (IH a Ha).
    destruct (decide (marker o0 = None)); simpl; lia.
Qed.

(** ** Sequencing runs *)

Lemma runs_seq {A B} n k x s (m : M A) (f : A -> M B) Q R :
  runs n x s (m s) Q ->
  (forall a s1, m s = Ok a s1 -> evolves x s s1 -> Q a s1 ->
     runs k x s1 (f a s1) R /\ n + unmarked s1 <= k + unmarked s) ->
  runs n x s (bind m f s) R.
Proof.
  unfold bind. destruct (m s) as [a s1|e|]; simpl; [|done..].
  intros [Hev HQ] Hf. destruct (Hf a s1 eq_refl Hev HQ) as [Hrun Hle].
  pose proof (ev_target _ _ _ Hev) as Ht.
  destruct (f a s1) as [b s2|e|]; simpl in *.
  - destruct Hrun as [Hev2 HR]. split; [by etrans|done].
  - by rewrite <- Ht.
  - intros Hidle. rewrite Ht in Hrun. specialize (Hrun Hidle). lia.
Qed.

(** The same with the depth unchanged. *)
Lemma runs_bind {A B} n x s (m : M A) (f : A -> M B) Q R :
  runs n x s (m s) Q ->
  (forall a s1, m s = Ok a s1 -> evolves x s s1 -> Q a s1 -> runs n x s1 (f a s1) R) ->
  runs n x s (bind m f s) R.
Proof.
  intros Hm Hf. eapply runs_seq; [exact Hm|].
  intros a s1 E Hev HQ. split; [by apply Hf|].
  pose proof (evolves_unmarked _ _ _ Hev). lia.
Qed.

Lemma runs_weaken {A} n x s (r : result A) (Q Q' : A -> State -> Prop) :
  runs n None s r Q -> (forall a s', Q a s' -> Q' a s') -> runs n x s r Q'.
Proof.
  destruct r; simpl; [|done..]. intros [Hev HQ] HQQ.
  split; [by apply evolves_weaken|auto].
Qed.

Lemma runs_post {A} n x s (r : result A) (Q Q' : A -> State -> Prop) :
  runs n x s r Q -> (forall a s', r = Ok a s' -> evolves x s s' -> Q a s' -> Q' a s') ->
  runs n x s r Q'.
Proof. destruct r; simpl; [|done..]. intros [Hev HQ] HQQ. split; [done|]. by apply HQQ. Qed.

Lemma runs_ret {A} n x s (a : A) (Q : A -> State -> Prop) :
  Q a s -> runs n x s (ret a s) Q.
Proof. intros HQ. split; [reflexivity|done]. Qed.

(** ** The steps of observe *)

Lemma lookup_replace_key_eq k p l : lookup_key k (replace_key k p l) = Some p.
Proof.
  induction l as [|[k' p'] l IH]; simpl.
  - by rewrite decide_True.
  - case_decide as E; simpl.
    + by rewrite decide_True.
    + by rewrite decide_False.
Qed.

Lemma lookup_replace_key_ne k k' p l :
  k <> k' -> lookup_key k' (replace_key k p l) = lookup_key k' l.
Proof.
  intros Hne. induction l as [|[k0 p0] l IH]; simpl.
  - by rewrite decide_False.
  - case_decide as E; simpl.
    + subst k0. by rewrite !decide_False by done.
    + case_decide; [done|apply IH].
Qed.

Lemma own_property_name o name :
  name <> "length" -> own_property o (KStr name) = lookup_key (KStr name) (o_props o).
Proof.
  intros Hne. unfold own_property. simpl. rewrite andb_false_r.
  rewrite (bool_decide_eq_false_2 (KStr name = KStr "length")) by congruence.
  by rewrite andb_false_r.
Qed.

Lemma marker_eq o o' :
  o_props o' = o_props o -> marker o' = marker o.
Proof.
  intros E. unfold marker. rewrite !own_property_name by done. by rewrite E.
Qed.

Lemma marker_replace_ne o k p :
  k <> KStr "__ob__" ->
  marker (mkObject (o_kind o) (o_proto o) (o_extensible o)
                   (replace_key k p (o_props o)) (o_elems o)) = marker o.
Proof.
  intros Hne. unfold marker. rewrite !own_property_name by done. simpl.
  by rewrite lookup_replace_key_ne.
Qed.

Lemma obj_at_put_obj_ge a o s : length (heap s) <= a -> put_obj a o s = s.
Proof.
  intros Hge. unfold put_obj, set_heap. rewrite list_insert_ge by done.
  apply state_eta.
Qed.

(** Replacing an object by one of the same kind, extensibility and slots
    that keeps its marker. *)
Lemma evolves_put_obj x a o' s :
  o_kind o' = o_kind (obj_at s a) ->
  o_extensible o' = o_extensible (obj_at s a) ->
  o_elems o' = o_elems (obj_at s a) ->
  (forall k, is_Some (own_property (obj_at s a) k) -> is_Some (own_property o' k)) ->
  (forall k, frozen_at o' k -> frozen_at (obj_at s a) k) ->
  (forall i, marker (obj_at s a) = Some i -> marker o' = Some i) ->
  (x = Some a \/ marker (obj_at s a) = None) ->
  evolves x s (put_obj a o' s).
Proof.
  intros Hk He Hel Hown Hfr Hm Hx.
  destruct (decide (a < length (heap s))) as [Hlt|Hge].
  2: { rewrite obj_at_put_obj_ge by lia. reflexivity. }
  assert (forall b, b <> a -> obj_at (put_obj a o' s) b = obj_at s b) as Hne.
  { intros b Hb. by apply obj_at_put_obj_ne. }
  assert (obj_at (put_obj a o' s) a = o') as Heq by by apply obj_at_put_obj.
  split; try done.
  - simpl. by rewrite length_insert.
  - intros b. destruct (decide (b = a)) as [->|Hb]; [by rewrite Heq|by rewrite Hne].
  - intros b. destruct (decide (b = a)) as [->|Hb]; [by rewrite Heq|by rewrite Hne].
  - intros b. destruct (decide (b = a)) as [->|Hb]; [by rewrite Heq|by rewrite Hne].
  - intros b k. destruct (decide (b = a)) as [->|Hb]; [rewrite Heq; apply Hown|by rewrite Hne].
  - intros b k. destruct (decide (b = a)) as [->|Hb]; [rewrite Heq; apply Hfr|by rewrite Hne].
  - intros b i. destruct (decide (b = a)) as [->|Hb]; [rewrite Heq; apply Hm|by rewrite Hne].
  - intros b Hxb Hmb. destruct (decide (b = a)) as [->|Hb]; [|by apply Hne].
    destruct Hx as [->|Hnone]; [done|]. rewrite Hnone in Hmb. by destruct Hmb.
Qed.

Lemma evolves_new_Dep x s d s' : new_Dep s = Ok d s' -> evolves x s s'.
Proof.
  intros [= _ <-]. split; try done.
  - intros d'. unfold subs_at. simpl.
    destruct (deps s !! d') as [l|] eqn:E.
    + by rewrite (lookup_app_l_Some _ _ _ _ E).
    + apply prefix_nil.
  - simpl. rewrite length_app. lia.
  - intros _. split; [by apply prefix_app_r|done].
Qed.

Lemma evolves_new_cell x v c s i s' : new_cell v c s = Ok i s' -> evolves x s s'.
Proof.
  intros [= _ <-]. split; try done.
  simpl. by apply prefix_app_r.
Qed.

Lemma evolves_new_observer_entry x a d s i s' :
  new_observer_entry a d s = Ok i s' -> evolves x s s'.
Proof.
  intros [= _ <-]. split; try done.
  - intros j Hj. unfold ob_at. simpl. by rewrite lookup_app_l.
  - simpl. rewrite length_app. lia.
Qed.

(** [ob.vmCount++] *)
Lemma evolves_vmCount x i s : evolves x s (vmCount_incr i s).
Proof.
  unfold vmCount_incr. split; try done.
  - intros j Hj. unfold ob_at. simpl.
    destruct (decide (i = j)) as [->|Hne].
    + rewrite list_lookup_insert_eq by done. done.
    + by rewrite list_lookup_insert_ne.
  - simpl. by rewrite length_insert.
Qed.

(** A step that only lets subscribers register. *)
Lemma registers_evolves x s s' :
  registers s s' -> (active (target s) = None -> s' = s) -> evolves x s s'.
Proof.
  intros [] Hidle.
  assert (forall a, obj_at s' a = obj_at s a) as Hobj.
  { intros a. unfold obj_at. by rewrite reg_heap0. }
  split; try done.
  - by rewrite reg_heap0.
  - intros a. by rewrite Hobj.
  - intros a. by rewrite Hobj.
  - intros a. by rewrite Hobj.
  - intros a k. by rewrite Hobj.
  - intros a k. by rewrite Hobj.
  - intros a i. by rewrite Hobj.
  - intros i _. unfold ob_at. by rewrite reg_observers0.
  - by rewrite reg_observers0.
  - by rewrite reg_cells0.
  - by rewrite reg_deps0.
  - intros Hi. by rewrite (Hidle Hi).
Qed.

Lemma own_property_replace_key o k p k' :
  is_Some (own_property o k') ->
  is_Some (own_property (mkObject (o_kind o) (o_proto o) (o_extensible o)
                                  (replace_key k p (o_props o)) (o_elems o)) k').
Proof.
  unfold own_property. simpl.
  destruct (bool_decide (o_kind o = KArray) && isValidArrayIndex k'); [done|].
  destruct (bool_decide (o_kind o = KArray) && bool_decide (k' = KStr "length")); [done|].
  destruct (decide (k = k')) as [->|Hne].
  - by rewrite lookup_replace_key_eq.
  - by rewrite lookup_replace_key_ne.
Qed.

Lemma frozen_at_replace_key o k p k' :
  p_configurable p = true ->
  frozen_at (mkObject (o_kind o) (o_proto o) (o_extensible o)
                      (replace_key k p (o_props o)) (o_elems o)) k' ->
  frozen_at o k'.
Proof.
  intros Hp. unfold frozen_at, own_property. simpl.
  destruct (bool_decide (o_kind o = KArray) && isValidArrayIndex k'); [done|].
  destruct (bool_decide (o_kind o = KArray) && bool_decide (k' = KStr "length")); [done|].
  destruct (decide (k = k')) as [->|Hne].
  - rewrite lookup_replace_key_eq. congruence.
  - by rewrite lookup_replace_key_ne.
Qed.

Lemma store_prop_accessor k g st e c o o' :
  store_prop k (PAccessor g st e c) o = Some o' ->
  o' = mkObject (o_kind o) (o_proto o) (o_extensible o)
                (replace_key k (PAccessor g st e c) (o_props o)) (o_elems o).
Proof.
  unfold store_prop.
  destruct (bool_decide (o_kind o = KArray) && isValidArrayIndex k).
  { by destruct k. }
  destruct (bool_decide (o_kind o = KArray) && bool_decide (k = KStr "length")); [done|].
  by intros [= <-].
Qed.

(** [def(obj, name, v)] on a name other than the marker. *)
Lemma evolves_def x a name v s s' :
  def a name v s = Ok tt s' ->
  name <> "__ob__" ->
  x = Some a \/ marker (obj_at s a) = None ->
  evolves x s s'.
Proof.
  intros [= <-] Hne Hx. apply evolves_put_obj; try done.
  - intros k. apply own_property_replace_key.
  - intros k. by apply frozen_at_replace_key.
  - intros i. rewrite marker_replace_ne; [done|congruence].
Qed.

(** [def(value, '__ob__', this)] on an object without a marker. *)
Lemma evolves_def_marker x a this s s' :
  def a "__ob__" (VObserver this) s = Ok tt s' ->
  marker (obj_at s a) = None ->
  evolves x s s' /\
  (a < length (heap s) ->
   marker (obj_at s' a) = Some this /\ marker_hidden (obj_at s' a) /\
   unmarked s' < unmarked s).
Proof.
  intros [= <-] Hm. split.
  - apply evolves_put_obj; try done.
    + intros k. apply own_property_replace_key.
    + intros k. by apply frozen_at_replace_key.
    + intros i. by rewrite Hm.
    + by right.
  - intros Hlt. rewrite obj_at_put_obj by done.
    unfold marker, marker_hidden. rewrite !own_property_name by done. simpl.
    rewrite lookup_replace_key_eq. split; [done|]. split; [done|].
    unfold unmarked, put_obj. simpl.
    destruct (heap s !! a) as [o|] eqn:Ho.
    2: { apply lookup_ge_None in Ho. lia. }
    eapply unmarked_insert; [done| |].
    + unfold obj_at in Hm. by rewrite Ho in Hm.
    + unfold marker. rewrite own_property_name by done. simpl.
      by rewrite lookup_replace_key_eq.
Qed.

Lemma evolves_protoAugment x a s s' :
  protoAugment a s = Ok tt s' ->
  x = Some a \/ marker (obj_at s a) = None ->
  evolves x s s'.
Proof.
  intros [= <-] Hx. apply evolves_put_obj; done.
Qed.

Lemma evolves_defineProperty x a k g st e s s' :
  defineProperty a k (PAccessor g st e true) s = Ok tt s' ->
  k <> KStr "__ob__" ->
  x = Some a \/ marker (obj_at s a) = None ->
  evolves x s s'.
Proof.
  unfold defineProperty. intros Hrun Hne Hx.
  destruct (match own_property (obj_at s a) k with
            | Some old => p_configurable old
            | None => o_extensible (obj_at s a)
            end); [|done].
  destruct (store_prop k _ (obj_at s a)) as [o'|] eqn:Hst; [|done].
  injection Hrun as <-. apply store_prop_accessor in Hst as ->.
  apply evolves_put_obj; try done.
  - intros k'. apply own_property_replace_key.
  - intros k'. by apply frozen_at_replace_key.
  - intros i. by rewrite marker_replace_ne.
Qed.

(** ** Reads inside observe *)

Lemma get_prop_idle_ok `{Host} fuel a k s :
  active (target s) = None ->
  is_Some (own_property (obj_at s a) k) \/ k <> KStr "__proto__" ->
  exists v, get_prop fuel (VObject a) k s = Ok v s.
Proof.
  intros Hidle Hk. unfold get_prop, get_prop_with, bind, gets.
  destruct (own_property (obj_at s a) k) as [[v ? ? ?|[g|] ? ? ?]|] eqn:Hown.
  - by eexists.
  - rewrite call_getter_idle by done. by eexists.
  - by eexists.
  - destruct Hk as [[? [=]]|Hk]. rewrite bool_decide_eq_false_2 by done. by eexists.
Qed.

Lemma runs_get_prop `{Host} fuel n x a k s :
  is_Some (own_property (obj_at s a) k) \/ k <> KStr "__proto__" ->
  runs n x s (get_prop fuel (VObject a) k s) (fun _ _ => True).
Proof.
  intros Hk. destruct (active (target s)) as [w|] eqn:Hact.
  - destruct (get_prop fuel (VObject a) k s) as [v s'| |] eqn:Hrun; simpl.
    + split; [|done]. apply registers_evolves.
      * by eapply get_prop_registers.
      * by rewrite Hact.
    + by rewrite Hact.
    + by rewrite Hact.
  - destruct (get_prop_idle_ok fuel a k s Hact Hk) as [v ->]. simpl.
    split; [reflexivity|done].
Qed.

Lemma Object_keys_enumerable o k :
  k ∈ Object_keys o -> p_enumerable <$> own_property o k = Some true.
Proof.
  unfold Object_keys.
  set (own := filter _ (remove_dups _)).
  assert (forall k, k ∈ own -> p_enumerable <$> own_property o k = Some true) as Hown.
  { intros k0 Hk0. by apply list_elem_of_filter in Hk0 as [? _]. }
  intros [Hk|Hk]%elem_of_app.
  - apply list_elem_of_fmap in Hk as (n & -> & Hn).
    rewrite merge_sort_Permutation in Hn.
    apply list_elem_of_omap in Hn as (k0 & Hk0 & Hidx).
    destruct k0; [|done]. injection Hidx as ->. by apply Hown.
  - apply list_elem_of_filter in Hk as [_ Hk]. by apply Hown.
Qed.

Lemma Object_keys_not_marker o :
  marker_hidden o -> KStr "__ob__" ∉ Object_keys o.
Proof.
  unfold marker_hidden. intros Hh Hin%Object_keys_enumerable.
  destruct (own_property o (KStr "__ob__")) as [p|]; [|done].
  simpl in Hin. congruence.
Qed.

(** ** Loops *)

Lemma runs_for_each {A} n x (l : list A) (body : A -> M unit) s :
  (forall a s1, a ∈ l -> evolves x s s1 -> runs n x s1 (body a s1) (fun _ _ => True)) ->
  runs n x s (for_each l body s) (fun _ _ => True).
Proof.
  revert s. induction l as [|a l IH]; intros s Hbody; simpl.
  - split; [reflexivity|done].
  - eapply runs_bind.
    + apply Hbody; [left|reflexivity].
    + intros [] s1 _ Hev _. apply IH. intros b s2 Hb Hev2.
      apply Hbody; [by right|by etrans].
Qed.

Lemma runs_for_loop n x (count from : nat) (body : nat -> M unit) s :
  (forall i s1, evolves x s s1 -> runs n x s1 (body i s1) (fun _ _ => True)) ->
  runs n x s (for_loop count from body s) (fun _ _ => True).
Proof.
  revert from s. induction count as [|count IH]; intros from s Hbody; simpl.
  - split; [reflexivity|done].
  - eapply runs_bind.
    + apply Hbody. reflexivity.
    + intros [] s1 _ Hev _. apply IH. intros i s2 Hev2.
      apply Hbody. by etrans.
Qed.

(** ** defineReactive, walk, observeArray, the constructor, observe *)

Lemma runs_defineProperty n a k g st e s :
  k <> KStr "__ob__" ->
  o_extensible (obj_at s a) = true ->
  definable (obj_at s a) k ->
  ~ frozen_at (obj_at s a) k ->
  runs n (Some a) s (defineProperty a k (PAccessor g st e true) s) (fun _ _ => True).
Proof.
  intros Hne Hext Hdef Hconf. unfold frozen_at in Hconf.
  destruct (defineProperty a k (PAccessor g st e true) s) as [[] s'|err|] eqn:Hrun; simpl.
  - split; [|done]. eapply evolves_defineProperty; [done..|by left].
  - exfalso. unfold defineProperty in Hrun.
    destruct (own_property (obj_at s a) k) as [p|].
    + destruct (p_configurable p); [|done]. revert Hrun. unfold store_prop.
      destruct (bool_decide (o_kind (obj_at s a) = KArray)) eqn:Hk; simpl.
      * apply bool_decide_eq_true in Hk. destruct (Hdef Hk) as [-> Hlen].
        by rewrite bool_decide_eq_false_2.
      * done.
    + rewrite Hext in Hrun. revert Hrun. unfold store_prop.
      destruct (bool_decide (o_kind (obj_at s a) = KArray)) eqn:Hk; simpl.
      * apply bool_decide_eq_true in Hk. destruct (Hdef Hk) as [-> Hlen].
        by rewrite bool_decide_eq_false_2.
      * done.
  - unfold defineProperty in Hrun. by repeat case_match.
Qed.

Lemma runs_ret_True {A} n x s (a : A) : runs n x s (ret a s) (fun _ _ => True).
Proof. by apply runs_ret. Qed.

Lemma runs_new_Dep n x s : runs n x s (new_Dep s) (fun _ _ => True).
Proof. split; [by eapply evolves_new_Dep|done]. Qed.

Lemma runs_new_cell n x v c s : runs n x s (new_cell v c s) (fun _ _ => True).
Proof. split; [by eapply evolves_new_cell|done]. Qed.

Lemma runs_defineReactive `{Host} fuel n rec obj k val cs sh s :
  observe_ok n rec ->
  k <> KStr "__ob__" ->
  o_extensible (obj_at s obj) = true ->
  definable (obj_at s obj) k ->
  (val = None -> is_Some (own_property (obj_at s obj) k) \/ k <> KStr "__proto__") ->
  runs n (Some obj) s (defineReactive_with fuel rec obj k val cs sh s) (fun _ _ => True).
Proof.
  intros Hrec Hne Hext Hdef Hval. unfold defineReactive_with.
  eapply runs_bind; [apply runs_new_Dep|].
  intros dep s1 _ Hev1 _. unfold bind at 1. unfold gets at 1.
  destruct (match own_property (obj_at s1 obj) k with
            | Some p => negb (p_configurable p)
            | None => false
            end) eqn:Hconf.
  { apply runs_ret_True. }
  assert (~ frozen_at (obj_at s1 obj) k) as Hnf.
  { unfold frozen_at. destruct (own_property (obj_at s1 obj) k) as [p|]; [|tauto].
    by destruct (p_configurable p). }
  eapply runs_bind with (Q := fun _ _ => True).
  { destruct val as [v|]; [apply runs_ret_True|].
    destruct (negb _ || _); [|apply runs_ret_True].
    apply runs_get_prop. destruct (Hval eq_refl) as [Hown|?]; [left|by right].
    by apply (ev_own _ _ _ Hev1). }
  intros v s2 _ Hev2 _.
  eapply runs_bind with (Q := fun _ _ => True).
  { destruct sh; [apply runs_ret_True|].
    eapply runs_weaken; [apply Hrec|done]. }
  intros childOb s3 _ Hev3 _.
  eapply runs_bind; [apply runs_new_cell|].
  intros cell s4 _ Hev4 _.
  assert (evolves (Some obj) s1 s4) as Hev' by (etrans; [done|by etrans]).
  assert (evolves (Some obj) s s4) as Hev by by etrans.
  apply runs_defineProperty; [done| | |].
  - by rewrite (ev_extensible _ _ _ Hev).
  - unfold definable. by rewrite (ev_kind _ _ _ Hev).
  - intros Hf. by apply Hnf, (ev_frozen _ _ _ Hev').
Qed.

Lemma runs_walk `{Host} fuel n rec obj s :
  observe_ok n rec ->
  o_kind (obj_at s obj) <> KArray ->
  o_extensible (obj_at s obj) = true ->
  marker_hidden (obj_at s obj) ->
  runs n (Some obj) s (walk_with fuel rec obj s) (fun _ _ => True).
Proof.
  intros Hrec Hkind Hext Hhid. unfold walk_with, bind at 1, gets at 1.
  apply runs_for_each. intros k s1 Hk Hev.
  apply runs_defineReactive; [done| | | |].
  - intros ->. by eapply Object_keys_not_marker.
  - by rewrite (ev_extensible _ _ _ Hev).
  - unfold definable. by rewrite (ev_kind _ _ _ Hev).
  - intros _. left. apply (ev_own _ _ _ Hev).
    apply Object_keys_enumerable in Hk.
    by destruct (own_property (obj_at s obj) k).
Qed.

Lemma runs_observeArray n x rec l (item : nat -> M value) s :
  observe_ok n rec ->
  (forall i s1, evolves x s s1 -> runs n x s1 (item i s1) (fun _ _ => True)) ->
  runs n x s (observeArray_with rec l item s) (fun _ _ => True).
Proof.
  intros Hrec Hitem. unfold observeArray_with.
  apply runs_for_loop. intros i s1 Hev.
  eapply runs_bind; [by apply Hitem|].
  intros v s2 _ Hev2 _.
  eapply runs_bind with (Q := fun _ _ => True).
  { eapply runs_weaken; [apply Hrec|done]. }
  intros ? s3 _ _ _. apply runs_ret_True.
Qed.

Lemma get_prop_idle `{Host} fuel a k s v s' :
  active (target s) = None ->
  get_prop fuel (VObject a) k s = Ok v s' ->
  s' = s.
Proof.
  intros Hidle. unfold get_prop, get_prop_with, bind, gets.
  destruct (own_property (obj_at s a) k) as [[x ? ? ?|[g|] ? ? ?]|].
  - by intros [= _ <-].
  - rewrite call_getter_idle by done. by intros [= _ <-].
  - by intros [= _ <-].
  - case_bool_decide; [done|]. by intros [= _ <-].
Qed.

(** A read inside observe: the heap is as before, and so is the whole
    state when no subscriber is active. *)
Lemma runs_read `{Host} fuel n x a k s :
  is_Some (own_property (obj_at s a) k) \/ k <> KStr "__proto__" ->
  runs n x s (get_prop fuel (VObject a) k s)
       (fun _ s' => heap s' = heap s /\ (active (target s) = None -> s' = s)).
Proof.
  intros Hk. eapply runs_post; [by apply runs_get_prop|].
  intros v s' Hrun _ _. split.
  - by apply (reg_heap s s'), (get_prop_registers fuel (VObject a) k s v s').
  - intros Hidle. by eapply get_prop_idle.
Qed.

Lemma method_name_not_marker m : method_name m <> "__ob__".
Proof. by destruct m. Qed.

Lemma runs_copyAugment n a keys s :
  runs n (Some a) s (copyAugment a keys s) (fun _ _ => True).
Proof.
  unfold copyAugment. apply runs_for_each. intros m s1 _ _.
  split; [|done]. eapply evolves_def; [done|apply method_name_not_marker|by left].
Qed.

(** After the marker is set, what is left of the constructor runs with the
    depth of the recursive calls. *)
Lemma runs_after_marker {A} n a s s3 (r : result A) (Q : A -> State -> Prop) :
  evolves (Some a) s s3 ->
  marker (obj_at s a) = None ->
  unmarked s3 < unmarked s ->
  runs n (Some a) s3 r Q ->
  runs (S n) None s r Q.
Proof.
  intros Hev Hm Hlt. pose proof (ev_target _ _ _ Hev) as Ht.
  destruct r as [b s'| |]; simpl.
  - intros [Hev' HQ]. split; [|done].
    eapply evolves_upgrade; [|done]. by etrans.
  - by rewrite Ht.
  - rewrite Ht. intros Hn Hidle. specialize (Hn Hidle). lia.
Qed.

Lemma runs_new_Observer `{Host} fuel n rec a s :
  observe_ok n rec ->
  a < length (heap s) ->
  marker (obj_at s a) = None ->
  o_extensible (obj_at s a) = true ->
  runs (S n) None s (new_Observer_with fuel rec a s)
       (fun this s' => marker (obj_at s' a) = Some this /\
                       this = length (observers s) /\
                       ob_value (ob_at s' this) = a /\
                       ob_dep (ob_at s' this) = length (deps s)).
Proof.
  intros Hrec Hlt Hm Hext. unfold new_Observer_with.
  unfold bind at 1. unfold new_Dep at 1.
  set (s1 := set_deps _ s).
  unfold bind at 1. unfold new_observer_entry at 1.
  set (s2 := set_observers _ s1).
  unfold bind at 1.
  destruct (def a "__ob__" (VObserver (length (observers s1))) s2) as [[] s3| |] eqn:Hdef;
    [|done..].
  assert (evolves (Some a) s s2) as Hev2.
  { etrans; [by apply (evolves_new_Dep _ s (uid s) s1)|].
    by apply (evolves_new_observer_entry _ a (uid s) s1 (length (observers s1)) s2). }
  assert (obj_at s2 a = obj_at s a) as Hobj2 by done.
  destruct (evolves_def_marker (Some a) a _ s2 s3 Hdef) as [Hev3 Hfacts].
  { by rewrite Hobj2. }
  destruct Hfacts as (Hm3 & Hhid3 & Hlt3); [done|].
  assert (evolves (Some a) s s3) as Hev by by etrans.
  assert (ob_at s3 (length (observers s)) = mkObserver a (length (deps s)) 0) as Hob3.
  { injection Hdef as <-. unfold ob_at. simpl. by rewrite list_lookup_middle. }
  eapply runs_after_marker; [exact Hev|done|exact Hlt3|].
  unfold bind at 1. unfold gets at 1.
  eapply runs_bind with (Q := fun _ _ => True).
  - destruct (isArray s3 (VObject a)) eqn:Harr.
    + eapply runs_bind with (Q := fun _ _ => True).
      * destruct hasProto.
        -- split; [|done]. eapply evolves_protoAugment; [done|by left].
        -- apply runs_copyAugment.
      * intros [] s4 _ Hev4 _. unfold bind at 1. unfold gets at 1.
        apply runs_observeArray; [done|]. intros i s5 Hev5.
        apply runs_get_prop. by right.
    + apply runs_walk; [done| | |done].
      * unfold isArray in Harr. by apply bool_decide_eq_false in Harr.
      * by rewrite (ev_extensible _ _ _ Hev).
  - intros [] s4 _ Hev4 _. split; [reflexivity|].
    change (length (observers s1)) with (length (observers s)) in *.
    split; [by apply (ev_marker _ _ _ Hev4)|]. split; [done|].
    destruct (ev_observers _ _ _ Hev4 (length (observers s))) as [Ev Ed].
    { injection Hdef as <-. simpl. rewrite length_app. simpl. lia. }
    rewrite Ev, Ed, Hob3. done.
Qed.

Ltac runs_ret_tac := first [ apply runs_ret | simpl; split; [reflexivity|] ].

Lemma marker_plain_read o i :
  marker o = Some i -> plain_read o (KStr "__ob__") = Some (VObserver i).
Proof.
  unfold marker, plain_read.
  destruct (own_property o (KStr "__ob__")) as [[[] ? ? ?|]|]; try done.
  by intros [= ->].
Qed.

Lemma marker_of_read o i :
  marker_plain o -> hasOwn o (KStr "__ob__") = true ->
  plain_read o (KStr "__ob__") = Some (VObserver i) -> marker o = Some i.
Proof.
  unfold marker_plain, hasOwn, plain_read, marker.
  destruct (own_property o (KStr "__ob__")) as [[x ? ? ?|]|]; try done.
  by intros _ _ [= ->].
Qed.

Lemma plain_read_marker_plain o :
  marker_plain o -> hasOwn o (KStr "__ob__") = true ->
  exists x, plain_read o (KStr "__ob__") = Some x.
Proof.
  unfold marker_plain, hasOwn, plain_read.
  destruct (own_property o (KStr "__ob__")) as [[x ? ? ?|]|]; try done.
  by eexists.
Qed.

Lemma obj_at_heap s s' a : heap s' = heap s -> obj_at s' a = obj_at s a.
Proof. unfold obj_at. by intros ->. Qed.

(** The branch of [observe] that makes a new Observer. *)
Lemma runs_observe_fresh `{Host} fuel n rec a s :
  observe_ok n rec ->
  marker (obj_at s a) = None ->
  runs (S n) None s
    ((enabled <- gets shouldObserve ;;
      if enabled && negb isServerRendering
         && (bool_decide (o_kind (obj_at s a) = KArray) || isPlainObject (obj_at s a))
         && o_extensible (obj_at s a)
      then
        isVue <- get_prop fuel (VObject a) (KStr "_isVue") ;;
        if negb (truthy isVue)
        then this <- new_Observer_with fuel rec a ;; ret (Some this)
        else ret None
      else ret None) s)
    (fun ob s' => forall i, ob = Some i -> marker (obj_at s' a) = Some i).
Proof.
  intros Hrec Hm. unfold bind at 1. unfold gets at 1.
  destruct (shouldObserve s && negb isServerRendering
            && (bool_decide (o_kind (obj_at s a) = KArray) || isPlainObject (obj_at s a)))
    eqn:Hcond; simpl; [|by runs_ret_tac].
  destruct (o_extensible (obj_at s a)) eqn:Hext; [|by runs_ret_tac].
  assert (a < length (heap s)) as Hlt.
  { destruct (decide (a < length (heap s))) as [|Hge]; [done|].
    unfold obj_at in Hext. rewrite lookup_ge_None_2 in Hext by lia. done. }
  eapply runs_bind; [apply (runs_read fuel (S n) None a (KStr "_isVue") s); by right|].
  intros isVue s1 _ Hev1 [Hheap _].
  destruct (truthy isVue); simpl; [by runs_ret_tac|].
  pose proof (obj_at_heap s s1 a Hheap) as Hobj.
  eapply runs_bind.
  - apply runs_new_Observer; [done|by rewrite Hheap|by rewrite Hobj|by rewrite Hobj].
  - intros this s2 _ _ (Hm2 & _). runs_ret_tac. by intros i [= <-].
Qed.

(** The branch of [observe] that finds an Observer: [ob = value.__ob__]. *)
Lemma runs_existing_Observer n x (ob : value) s :
  (active (target s) = None -> exists i, ob = VObserver i) ->
  runs n x s
    (match ob with
     | VObserver i => ret (Some i)
     | _ => if truthy ob then throw Unmodelled else ret None
     end s)
    (fun r s' => s' = s /\ forall i, r = Some i -> ob = VObserver i).
Proof.
  intros Hidle.
  assert (forall e, runs n x s (@throw (option nat) e s)
            (fun r s' => s' = s /\ forall i, r = Some i -> ob = VObserver i) \/
          exists i, ob = VObserver i) as Hthrow.
  { intros e. destruct (active (target s)) eqn:Ht.
    - left. simpl. by rewrite Ht.
    - right. by apply Hidle. }
  destruct ob as [| | | | | |i| |]; simpl;
    try (runs_ret_tac; split; [done|]; by intros ? [=]);
    try (destruct (Hthrow Unmodelled) as [?|[? [=]]]; done).
  - destruct b; [destruct (Hthrow Unmodelled) as [?|[? [=]]]; done|].
    runs_ret_tac. split; [done|]. by intros ? [=].
  - destruct (negb _); [destruct (Hthrow Unmodelled) as [?|[? [=]]]; done|].
    runs_ret_tac. split; [done|]. by intros ? [=].
  - destruct (negb _); [destruct (Hthrow Unmodelled) as [?|[? [=]]]; done|].
    runs_ret_tac. split; [done|]. by intros ? [=].
  - runs_ret_tac. split; [done|]. by intros ? [= <-].
Qed.

Lemma runs_observe_body `{Host} fuel n rec v root s :
  observe_ok n rec ->
  runs (S n) None s (observe_body fuel rec v root s)
    (fun r s' => forall a i, v = VObject a -> r = Some i ->
                 marker_plain (obj_at s a) -> marker (obj_at s' a) = Some i).
Proof.
  intros Hrec. destruct v as [| | | | |a| | |]; try by runs_ret_tac.
  unfold observe_body. unfold bind at 1. unfold gets at 1.
  destruct (instanceof_VNode (obj_at s a)); [by runs_ret_tac|].
  eapply runs_bind with
    (Q := fun ob s1 => forall i, ob = Some i -> marker_plain (obj_at s a) ->
                       marker (obj_at s1 a) = Some i).
  - destruct (hasOwn (obj_at s a) (KStr "__ob__")) eqn:Hown.
    + eapply runs_bind with
        (Q := fun existing s1 =>
                heap s1 = heap s /\ (active (target s) = None -> s1 = s) /\
                get_prop fuel (VObject a) (KStr "__ob__") s = Ok existing s1).
      { eapply runs_post.
        - apply (runs_read fuel (S n) None a (KStr "__ob__") s). by right.
        - intros x s1 Hrun _ [? ?]. done. }
      intros existing s1 _ Hev1 (Hheap1 & Hidle1 & Hread1).
      pose proof (obj_at_heap s s1 a Hheap1) as Hobj1.
      assert ((forall o0, existing <> VObserver o0) -> marker (obj_at s1 a) = None) as Hfresh.
      { intros Hno. rewrite Hobj1. destruct (marker (obj_at s a)) as [j|] eqn:Hj; [|done].
        rewrite (plain_read_get_prop _ _ _ _ _ (marker_plain_read _ _ Hj)) in Hread1.
        injection Hread1 as <- _. by destruct (Hno j). }
      assert (forall post,
        (forall o0, existing <> VObserver o0) ->
        (forall ob s', (forall i, ob = Some i -> marker (obj_at s' a) = Some i) -> post ob s') ->
        runs (S n) None s1
          ((enabled <- gets shouldObserve ;;
            if enabled && negb isServerRendering
               && (bool_decide (o_kind (obj_at s a) = KArray) || isPlainObject (obj_at s a))
               && o_extensible (obj_at s a)
            then
              isVue <- get_prop fuel (VObject a) (KStr "_isVue") ;;
              if negb (truthy isVue)
              then this <- new_Observer_with fuel rec a ;; ret (Some this)
              else ret None
            else ret None) s1) post) as Hbranch.
      { intros post Hno Hpost. eapply runs_post.
        - rewrite <- Hobj1. apply runs_observe_fresh; [done|by apply Hfresh].
        - intros ob s' _ _ HQ. by apply Hpost. }
      destruct existing as [| | | | | |o0| |];
        try (apply Hbranch; [done|by auto]).
      eapply runs_bind with
        (Q := fun ob s2 =>
                heap s2 = heap s1 /\
                get_prop fuel (VObject a) (KStr "__ob__") s1 = Ok ob s2).
      { eapply runs_post.
        - apply (runs_read fuel (S n) None a (KStr "__ob__") s1). by right.
        - intros x s2 Hrun _ [? ?]. done. }
      intros ob s2 _ Hev2 (Hheap2 & Hread2).
      assert (active (target s2) = None -> ob = VObserver o0) as Hsame.
      { intros Hidle. rewrite (ev_target _ _ _ Hev2), (ev_target _ _ _ Hev1) in Hidle.
        rewrite (Hidle1 Hidle) in Hread2. rewrite Hread1 in Hread2.
        by injection Hread2 as <- _. }
      assert (forall i, ob = VObserver i -> marker_plain (obj_at s a) ->
                        marker (obj_at s2 a) = Some i) as Hres.
      { intros i -> Hplain.
        rewrite (obj_at_heap s1 s2 a Hheap2), Hobj1.
        apply marker_of_read; [done..|].
        destruct (plain_read_marker_plain _ Hplain Hown) as [x Hx].
        rewrite <- Hobj1 in Hx.
        rewrite (plain_read_get_prop _ _ _ _ _ Hx) in Hread2.
        injection Hread2 as -> _. by rewrite <- Hobj1. }
      eapply runs_post.
      * apply runs_existing_Observer. intros Hidle. eexists. by apply Hsame.
      * intros r s' _ _ [-> Hr] j -> Hplain. apply Hres; [by apply Hr|done].
    + unfold bind at 1. unfold ret at 1.
      eapply runs_post.
      * apply runs_observe_fresh; [done|].
        unfold marker. unfold hasOwn in Hown.
        by destruct (own_property (obj_at s a) (KStr "__ob__")).
      * intros ob s' _ _ HQ i Hi _. by apply HQ.
  - intros ob s1 _ Hev1 HQ. destruct ob as [i|]; [|runs_ret_tac; by intros ? ? ? [=]].
    eapply runs_bind with (Q := fun _ s2 => marker_plain (obj_at s a) ->
                                            marker (obj_at s2 a) = Some i).
    + destruct root.
      * split; [apply evolves_vmCount|]. intros Hplain.
        apply (ev_marker _ _ _ (evolves_vmCount None i s1)). by apply HQ.
      * runs_ret_tac. by apply HQ.
    + intros [] s2 _ _ HQ2. runs_ret_tac. intros a' i' [= <-] [= <-]. done.
Qed.

Lemma observe_runs `{Host} n v root s :
  runs n None s (observe n v root s)
    (fun r s' => forall a i, v = VObject a -> r = Some i ->
                 marker_plain (obj_at s a) -> marker (obj_at s' a) = Some i).
Proof.
  revert v root s. induction n as [|n IH]; intros v root s.
  - simpl. lia.
  - apply runs_observe_body. intros v' root' s'.
    eapply runs_post; [apply IH|done].
Qed.

Lemma observe_observe_ok `{Host} n : observe_ok n (observe n).
Proof. intros v root s. eapply runs_post; [apply observe_runs|done]. Qed.

(** ** observe is idempotent *)

Lemma observe_S `{Host} n v root :
  observe (S n) v root = observe_body n (observe n) v root.
Proof. reflexivity. Qed.

(** C3.  When a call of [observe] on a value returns an Observer, the next
    call of [observe] on the value returns that same Observer and makes
    none: the state is left as it was (with the root count raised by one
    if the second call is for root data).  The marker [__ob__] of the
    value, if it had one before the first call, is a data property, as
    [def] makes it. *)
Theorem observe_idempotent `{Host} (fuel fuel' : nat) (a : addr) (root root' : bool)
    (ob : nat) (s s' : State) :
  marker_plain (obj_at s a) ->
  observe fuel (VObject a) root s = Ok (Some ob) s' ->
  observe (S fuel') (VObject a) root' s'
    = Ok (Some ob) (if root' then vmCount_incr ob s' else s') /\
  marker (obj_at s' a) = Some ob.
Proof.
  intros Hplain Hfirst.
  pose proof (observe_runs fuel (VObject a) root s) as Hruns.
  rewrite Hfirst in Hruns. destruct Hruns as [Hev HQ].
  specialize (HQ a ob eq_refl eq_refl Hplain).
  assert (instanceof_VNode (obj_at s' a) = false) as Hnode.
  { unfold instanceof_VNode. rewrite (ev_kind _ _ _ Hev).
    destruct fuel as [|n]; [done|]. rewrite observe_S in Hfirst.
    unfold observe_body, bind at 1, gets at 1 in Hfirst.
    unfold instanceof_VNode in Hfirst.
    by destruct (bool_decide (o_kind (obj_at s a) = KVNode)). }
  split; [|done].
  pose proof (marker_plain_read _ _ HQ) as Hread.
  assert (hasOwn (obj_at s' a) (KStr "__ob__") = true) as Hown.
  { unfold hasOwn. unfold marker in HQ.
    by destruct (own_property (obj_at s' a) (KStr "__ob__")). }
  rewrite observe_S. unfold observe_body, bind, gets. rewrite Hnode, Hown.
  rewrite !(plain_read_get_prop _ _ _ _ _ Hread). by destruct root'.
Qed.

Lemma observe_idempotent_witness :
  @observe dev_host 1 (VObject 0) true state_observed
    = Ok (Some 0) (if true then vmCount_incr 0 state_observed else state_observed) /\
  marker (obj_at state_observed 0) = Some 0.
Proof.
  apply (@observe_idempotent dev_host 3 0 0 false true 0 state_raw state_observed).
  - by vm_compute.
  - reflexivity.
Defined.

(** The second call finds the Observer the first one made. *)
Example observe_twice_example :
  @observe dev_host 3 (VObject 0) false state_raw = Ok (Some 0) state_observed /\
  @observe dev_host 3 (VObject 0) false state_observed = Ok (Some 0) state_observed /\
  length (observers state_observed) = 2.
Proof. repeat split. Qed.

(** ** set on an array *)

Lemma marker_in_heap s a i : marker (obj_at s a) = Some i -> a < length (heap s).
Proof.
  intros Hm. destruct (decide (a < length (heap s))) as [|Hge]; [done|].
  unfold obj_at in Hm. rewrite lookup_ge_None_2 in Hm by lia. done.
Qed.

Lemma obj_at_put_elems a l s :
  a < length (heap s) ->
  obj_at (put_elems a l s) a
  = mkObject (o_kind (obj_at s a)) (o_proto (obj_at s a)) (o_extensible (obj_at s a))
             (o_props (obj_at s a)) l.
Proof. intros Hlt. unfold put_elems. by rewrite obj_at_put_obj. Qed.

Lemma put_elems_put_elems a l1 l2 s :
  a < length (heap s) ->
  put_elems a l2 (put_elems a l1 s) = put_elems a l2 s.
Proof.
  intros Hlt. unfold put_elems at 1. rewrite obj_at_put_elems by done. simpl.
  unfold put_elems, put_obj, set_heap. simpl. by rewrite list_insert_insert_eq.
Qed.

Lemma own_property_elems o l name :
  name <> "length" ->
  own_property (mkObject (o_kind o) (o_proto o) (o_extensible o) (o_props o) l) (KStr name)
  = own_property o (KStr name).
Proof. intros Hne. by rewrite !own_property_name. Qed.

Lemma plain_read_elems o l name :
  name <> "length" ->
  plain_read (mkObject (o_kind o) (o_proto o) (o_extensible o) (o_props o) l) (KStr name)
  = plain_read o (KStr name).
Proof. intros Hne. unfold plain_read. by rewrite own_property_elems. Qed.

Lemma marker_elems o l :
  marker (mkObject (o_kind o) (o_proto o) (o_extensible o) (o_props o) l) = marker o.
Proof. unfold marker. by rewrite own_property_elems. Qed.

Lemma unmarked_put_elems a l s : unmarked (put_elems a l s) <= unmarked s.
Proof.
  apply unmarked_le. apply Forall2_same_length_lookup_2.
  - unfold put_elems, put_obj. simpl. by rewrite length_insert.
  - intros b o o' Ho Ho'. unfold put_elems, put_obj in Ho'. simpl in Ho'.
    destruct (decide (a = b)) as [->|Hne].
    + rewrite list_lookup_insert_eq in Ho' by by eapply lookup_lt_Some.
      injection Ho' as <-. rewrite marker_elems.
      unfold obj_at. by rewrite Ho.
    + rewrite list_lookup_insert_ne in Ho' by done. congruence.
Qed.

Lemma grown_length l i val : length l <= i -> length (grown l i val) = S i.
Proof.
  intros Hle. unfold grown. rewrite !length_app, length_replicate. simpl. lia.
Qed.

Lemma grown_lookup l i val : length l <= i -> grown l i val !! i = Some (Some val).
Proof.
  intros Hle. unfold grown. rewrite app_assoc.
  rewrite lookup_app_r; rewrite length_app, length_replicate; [|lia].
  replace (i - (length l + (i - length l))) with 0 by lia. done.
Qed.

(** Up to the call of [observeArray], [set] on a slot past the end of an
    observed array is fixed: the array is grown and the value put. *)
Lemma set_array_steps `{Host} fuel a i val ob s :
  o_kind (obj_at s a) = KArray ->
  observed s a ob ->
  augmented s a ->
  isValidArrayIndex (KIdx i) = true ->
  length (o_elems (obj_at s a)) <= i ->
  let s1 := put_elems a (grown (o_elems (obj_at s a)) i val) s in
  set fuel (VObject a) (KIdx i) val s =
  match observeArray fuel 1 (fun j => ret (nth j [val] VUndefined)) s1 with
  | Ok _ s2 =>
      Ok val (emit_all (EUpdate <$> delivery (subs_at s2 (ob_dep (ob_at s2 ob)))) s2)
  | Throw e => Throw e
  | OutOfFuel => OutOfFuel
  end.
Proof.
  intros Hkind (Hm & Hob & Hval & Hdep & Hext) Haug Hvalid Hlen s1.
  pose proof (marker_in_heap _ _ _ Hm) as Hlt.
  unfold set. unfold bind at 1. simpl (negb production && _). rewrite andb_false_r.
  unfold ret at 1. unfold bind at 1. unfold gets at 1.
  assert (isArray s (VObject a) = true) as Harr.
  { unfold isArray. by apply bool_decide_eq_true_2. }
  rewrite Harr, Hvalid. simpl (true && true).
  cbv iota beta.
  unfold bind at 1. unfold gets at 1. simpl (array_length s (VObject a)).
  rewrite Nat.max_r by done.
  unfold bind at 1. unfold set_length at 1, modify at 1.
  rewrite firstn_all2 by done.
  set (l := o_elems (obj_at s a)) in *.
  set (s0 := put_elems a (l ++ replicate (i - length l) None) s).
  assert (obj_at s0 a = mkObject KArray (o_proto (obj_at s a)) true (o_props (obj_at s a))
                                 (l ++ replicate (i - length l) None)) as Hobj0.
  { unfold s0. rewrite obj_at_put_elems by done. by rewrite Hkind, Hext. }
  unfold bind at 1. unfold call_splice at 1.
  unfold bind at 1.
  assert (plain_read (obj_at s0 a) (KStr "splice") = Some (VMutator Splice)) as Haug0.
  { unfold s0. rewrite obj_at_put_elems by done. by rewrite plain_read_elems. }
  rewrite (plain_read_get_prop _ _ _ _ _ Haug0).
  unfold mutator_splice. unfold bind at 1.
  assert (Array_splice a i 1 [val] s0 = Ok [] s1) as Hsp.
  { unfold Array_splice. rewrite Hobj0. simpl.
    rewrite length_app, length_replicate.
    replace (length l + (i - length l)) with i by lia.
    rewrite Nat.min_id, Nat.sub_diag. simpl.
    assert (length (l ++ replicate (i - length l) None) = i) as HL.
    { rewrite length_app, length_replicate. lia. }
    rewrite Nat.add_0_r.
    rewrite (take_ge (l ++ replicate (i - length l) None) i) by (by rewrite HL).
    rewrite (drop_ge (l ++ replicate (i - length l) None) i) by (by rewrite HL). simpl.
    f_equal. unfold s1, s0. rewrite put_elems_put_elems by done.
    unfold grown. by rewrite <- app_assoc. }
  rewrite Hsp.
  assert (obj_at s1 a = mkObject KArray (o_proto (obj_at s a)) true (o_props (obj_at s a))
                                 (grown l i val)) as Hobj1.
  { unfold s1. rewrite obj_at_put_elems by done. by rewrite Hkind, Hext. }
  assert (plain_read (obj_at s1 a) (KStr "__ob__") = Some (VObserver ob)) as Hread.
  { unfold s1. rewrite obj_at_put_elems by done. rewrite plain_read_elems by done.
    by apply marker_plain_read. }
  unfold bind at 1. rewrite (plain_read_get_prop _ _ _ _ _ Hread).
  unfold bind at 1. unfold observer_of, ret at 1.
  unfold bind at 1. change (length [val]) with 1.
  destruct (observeArray fuel 1 _ s1) as [[] s2| |]; [|done..].
  unfold bind at 1. unfold gets at 1.
  unfold bind at 1. rewrite notify_eq. reflexivity.
Qed.

Lemma prefix_lookup_default {A} (l1 l2 : list (list A)) d :
  l1 `prefix_of` l2 -> d < length l1 -> default [] (l2 !! d) = default [] (l1 !! d).
Proof.
  intros [k ->] Hlt. by rewrite lookup_app_l.
Qed.

(** C1.  [set(arr, i, x)] on an observed array, with [i] a valid index at
    or past the length.  Whenever the call returns, it returns [x], the
    array has length [i + 1] and holds [x] at [i], and [update] has been
    called on every subscriber of the collection Dep of the array: once
    on each of those registered at the call and of any that registered
    while [x] was observed, and nothing else was sent.  With no subscriber
    active and fuel above the number of objects without an Observer the
    call does return, and the calls of [update] are one for each
    subscriber registered at the call. *)
Theorem set_array_grows `{Host} (fuel : nat) (a : addr) (i : nat) (val : value)
    (ob : nat) (s : State) :
  o_kind (obj_at s a) = KArray ->
  observed s a ob ->
  augmented s a ->
  isValidArrayIndex (KIdx i) = true ->
  length (o_elems (obj_at s a)) <= i ->
  (forall r s',
     set fuel (VObject a) (KIdx i) val s = Ok r s' ->
     r = val /\
     length (o_elems (obj_at s' a)) = S i /\
     o_elems (obj_at s' a) !! i = Some (Some val) /\
     (forall w, w ∈ subs_at s (ob_dep (ob_at s ob)) -> notified (trace s) (trace s') w) /\
     exists subs us,
       subs_at s (ob_dep (ob_at s ob)) `prefix_of` subs /\
       us ≡ₚ subs /\
       trace s' = trace s ++ (EUpdate <$> us)) /\
  (active (target s) = None ->
   unmarked s < fuel ->
   exists s' us,
     set fuel (VObject a) (KIdx i) val s = Ok val s' /\
     us ≡ₚ subs_at s (ob_dep (ob_at s ob)) /\
     trace s' = trace s ++ (EUpdate <$> us)).
Proof.
  intros Hkind Hobs Haug Hvalid Hlen.
  rewrite (set_array_steps fuel a i val ob s Hkind Hobs Haug Hvalid Hlen).
  destruct Hobs as (Hm & Hob & Hval & Hdep & Hext).
  pose proof (marker_in_heap _ _ _ Hm) as Hlt.
  set (s1 := put_elems a (grown (o_elems (obj_at s a)) i val) s).
  assert (runs fuel None s1
            (observeArray fuel 1 (fun j => ret (nth j [val] VUndefined)) s1)
            (fun _ _ => True)) as Hruns.
  { apply runs_observeArray; [apply observe_observe_ok|].
    intros j s2 _. by apply runs_ret. }
  assert (o_elems (obj_at s1 a) = grown (o_elems (obj_at s a)) i val) as Hel1.
  { unfold s1. by rewrite obj_at_put_elems. }
  destruct (observeArray fuel 1 _ s1) as [[] s2|e|]; simpl in Hruns.
  - destruct Hruns as [Hev _].
    destruct (ev_observers _ _ _ Hev ob Hob) as [_ Hd].
    change (ob_dep (ob_at s1 ob)) with (ob_dep (ob_at s ob)) in Hd.
    rewrite Hd. set (d := ob_dep (ob_at s ob)) in *.
    pose proof (ev_trace _ _ _ Hev) as Htr. change (trace s1) with (trace s) in Htr.
    split.
    + intros r s' [= <- <-].
      change (obj_at (emit_all _ s2) a) with (obj_at s2 a).
      rewrite (ev_elems _ _ _ Hev), Hel1.
      split; [done|]. split; [by apply grown_length|]. split; [by apply grown_lookup|].
      split.
      { intros w Hw. simpl. rewrite Htr.
        apply (notified_delivery (trace s) w (subs_at s d) _ []); [done|].
        apply (ev_subs _ _ _ Hev d). }
      exists (subs_at s2 d), (delivery (subs_at s2 d)).
      split; [apply (ev_subs _ _ _ Hev d)|]. split; [apply delivery_perm|].
      simpl. by rewrite Htr.
    + intros Hidle _. eexists. exists (delivery (subs_at s2 d)).
      split; [reflexivity|]. split; [|simpl; by rewrite Htr].
      rewrite delivery_perm.
      destruct (ev_idle _ _ _ Hev Hidle) as [Hpre _].
      unfold subs_at. by rewrite (prefix_lookup_default _ _ d Hpre Hdep).
  - split; [done|]. intros Hidle _. by destruct Hruns.
  - split; [done|]. intros Hidle Hfuel. specialize (Hruns Hidle).
    pose proof (unmarked_put_elems a (grown (o_elems (obj_at s a)) i val) s).
    fold s1 in H0. lia.
Qed.

Lemma set_array_grows_witness :
  (forall r s',
     @set dev_host 1 (VObject 1) (KIdx 5) (VString "new") state_array_subs = Ok r s' ->
     r = VString "new" /\
     length (o_elems (obj_at s' 1)) = 6 /\
     o_elems (obj_at s' 1) !! 5 = Some (Some (VString "new")) /\
     (forall w, w ∈ subs_at state_array_subs (ob_dep (ob_at state_array_subs 1)) ->
                notified (trace state_array_subs) (trace s') w) /\
     exists subs us,
       subs_at state_array_subs (ob_dep (ob_at state_array_subs 1)) `prefix_of` subs /\
       us ≡ₚ subs /\
       trace s' = trace state_array_subs ++ (EUpdate <$> us)) /\
  (active (target state_array_subs) = None ->
   unmarked state_array_subs < 1 ->
   exists s' us,
     @set dev_host 1 (VObject 1) (KIdx 5) (VString "new") state_array_subs
       = Ok (VString "new") s' /\
     us ≡ₚ subs_at state_array_subs (ob_dep (ob_at state_array_subs 1)) /\
     trace s' = trace state_array_subs ++ (EUpdate <$> us)).
Proof.
  apply (@set_array_grows dev_host 1 1 5 (VString "new") 1 state_array_subs).
  - reflexivity.
  - repeat split; vm_compute; lia.
  - reflexivity.
  - reflexivity.
  - vm_compute. lia.
Defined.

(** The array [["x", <hole>]] with subscribers 2 and 1: after
    [set(arr, 5, "new")] it has six slots, the last holds "new", and the
    subscribers were called in the order 1, 2. *)
Example set_array_example :
  exists s',
    @set dev_host 1 (VObject 1) (KIdx 5) (VString "new") state_array_subs
      = Ok (VString "new") s' /\
    o_elems (obj_at s' 1)
      = [Some (VString "x"); None; None; None; None; Some (VString "new")] /\
    trace s' = [EUpdate w1; EUpdate w2].
Proof. eexists. split; [reflexivity|]. split; reflexivity. Qed.

(** ** Writing a reactive property *)

Lemma cell_at_put_cell c v s : c < length (cells s) -> cell_at (put_cell c v s) c = v.
Proof. intros Hlt. unfold cell_at, put_cell. simpl. by rewrite list_lookup_insert_eq. Qed.

Lemma unmarked_heap s s' : heap s' = heap s -> unmarked s' = unmarked s.
Proof. unfold unmarked. by intros ->. Qed.

(** Writing a value that is not the current one to a property installed
    by [defineReactive] with no pre-defined accessor: up to the call of
    [observe] on the new value the setter is fixed. *)
Lemma write_steps `{Host} fuel a k cell dep sh y s :
  let c := Closure cell a dep None None sh None in
  installed s a k c ->
  same_value y (c_val (cell_at s cell)) = false ->
  let s1 := put_cell cell (mkCell y (c_childOb (cell_at s cell)))
              (emit (EConsoleLog y) s) in
  put_prop fuel (VObject a) k y s =
  match (if sh then ret None else observe fuel y false) s1 with
  | Ok childOb s2 =>
      let s3 := put_cell cell (mkCell (c_val (cell_at s2 cell)) childOb) s2 in
      Ok tt (emit_all (EUpdate <$> delivery (subs_at s3 dep)) s3)
  | Throw e => Throw e
  | OutOfFuel => OutOfFuel
  end.
Proof.
  intros c (Hown & _ & _ & _) Hsame s1.
  unfold put_prop. unfold bind at 1. unfold gets at 1. rewrite Hown.
  simpl. unfold bind at 1. unfold modify at 1.
  unfold bind at 1. unfold gets at 1.
  change (cell_at (emit (EConsoleLog y) s) cell) with (cell_at s cell).
  rewrite Hsame.
  unfold bind at 1. unfold ret at 1. simpl.
  unfold bind at 1. unfold modify at 1.
  change (cell_at (emit (EConsoleLog y) s) cell) with (cell_at s cell). fold s1.
  unfold bind at 1.
  destruct ((if sh then ret None else observe fuel y false) s1) as [childOb s2| |];
    [|done..].
  unfold bind at 1. unfold modify at 1. by rewrite notify_eq.
Qed.

(** A write of a new value to such a property notifies the subscribers of
    its Dep and leaves the value in the property. *)
Lemma write_notifies `{Host} fuel a k cell dep sh y s :
  let c := Closure cell a dep None None sh None in
  installed s a k c ->
  same_value y (c_val (cell_at s cell)) = false ->
  (forall s',
     put_prop fuel (VObject a) k y s = Ok tt s' ->
     (forall w, w ∈ subs_at s dep -> notified (trace s) (trace s') w) /\
     c_val (cell_at s' cell) = y) /\
  (active (target s) = None -> unmarked s < fuel ->
   exists s', put_prop fuel (VObject a) k y s = Ok tt s').
Proof.
  intros c Hinst Hsame.
  rewrite (write_steps fuel a k cell dep sh y s Hinst Hsame).
  destruct Hinst as (Hown & _ & Hdep & Hcell). simpl in Hdep, Hcell.
  set (s1 := put_cell cell _ (emit (EConsoleLog y) s)).
  assert (runs fuel None s1 ((if sh then ret None else observe fuel y false) s1)
            (fun _ _ => True)) as Hruns.
  { destruct sh; [by apply runs_ret|apply observe_observe_ok]. }
  assert (length (cells s1) = length (cells s)) as Hlen1.
  { unfold s1, put_cell. simpl. by rewrite length_insert. }
  destruct ((if sh then ret None else observe fuel y false) s1) as [childOb s2|e|];
    simpl in Hruns.
  - destruct Hruns as [Hev _].
    assert (cell < length (cells s2)) as Hcell2.
    { pose proof (prefix_length _ _ (ev_cells _ _ _ Hev)). lia. }
    assert (c_val (cell_at s2 cell) = y) as Hval2.
    { unfold cell_at.
      rewrite (prefix_lookup_Some (cells s1) (cells s2) cell
                 (mkCell y (c_childOb (cell_at s cell))));
        [done| |apply (ev_cells _ _ _ Hev)].
      unfold s1, put_cell. simpl. by rewrite list_lookup_insert_eq. }
    split.
    + intros s' [= <-]. split.
      * intros w Hw. simpl.
        rewrite (ev_trace _ _ _ Hev). simpl. rewrite <- app_assoc.
        apply (notified_delivery (trace s) w (subs_at s dep)); [done|].
        apply (ev_subs _ _ _ Hev dep).
      * change (cell_at (emit_all _ ?x) cell) with (cell_at x cell).
        rewrite cell_at_put_cell by done. simpl. done.
    + intros _ _. by eexists.
  - split; [done|]. intros Hidle _. by destruct Hruns.
  - split; [done|]. intros Hidle Hfuel. specialize (Hruns Hidle).
    rewrite (unmarked_heap s s1) in Hruns by done. lia.
Qed.

(** ** set on an observed object *)

(** Up to the call of [observe] on the value, [set] with a new key on an
    observed object that is no root is fixed. *)
Lemma set_new_steps `{Host} fuel a k x ob isVue s :
  o_kind (obj_at s a) = KPlain ->
  observed s a ob ->
  vmCount (ob_at s ob) = 0 ->
  plain_read (obj_at s a) (KStr "_isVue") = Some isVue ->
  truthy isVue = false ->
  has_property (obj_at s a) k = false ->
  set fuel (VObject a) k x s =
  match observe fuel x false (set_deps (deps s ++ [[]]) s) with
  | Ok childOb s2 =>
      let c := Closure (length (cells s2)) a (uid s) None None false None in
      match defineProperty a k
              (PAccessor (Some (GReactive c)) (Some (SReactive c)) true true)
              (set_cells (cells s2 ++ [mkCell x childOb]) s2) with
      | Ok _ s4 =>
          Ok x (emit_all (EUpdate <$> delivery (subs_at s4 (ob_dep (ob_at s4 ob)))) s4)
      | Throw e => Throw e
      | OutOfFuel => OutOfFuel
      end
  | Throw e => Throw e
  | OutOfFuel => OutOfFuel
  end.
Proof.
  intros Hkind (Hm & Hob & Hval & Hdep & Hext) Hcount HisVue Hv Hnot.
  assert (isArray s (VObject a) = false) as Harr.
  { unfold isArray. apply bool_decide_eq_false_2. by rewrite Hkind. }
  pose proof (marker_plain_read _ _ Hm) as Hread.
  assert (hasOwn (obj_at s a) k = false) as Hown.
  { unfold has_property in Hnot. by apply orb_false_iff in Hnot as [? _]. }
  unfold set. unfold bind at 1. simpl (negb production && _). rewrite andb_false_r.
  unfold ret at 1. unfold bind at 1. unfold gets at 1. rewrite Harr.
  simpl (false && _). cbv iota.
  unfold bind at 1. unfold key_in, gets at 1. rewrite Hnot.
  simpl (false && _). cbv iota.
  unfold bind at 1. rewrite (plain_read_get_prop _ _ _ _ _ Hread).
  unfold bind at 1. rewrite (plain_read_get_prop _ _ _ _ _ HisVue).
  unfold bind at 1. rewrite Hv. rewrite ob_vmCount_Observer, Hcount.
  simpl (negb (Nat.eqb 0 0)). cbv iota. simpl (negb (truthy (VObserver ob))). cbv iota.
  unfold bind at 1. unfold observer_of, ret at 1.
  unfold bind at 1. unfold gets at 1. rewrite Hval.
  unfold bind at 1. unfold defineReactive, defineReactive_with.
  unfold bind at 1. unfold new_Dep at 1.
  unfold bind at 1. unfold gets at 1.
  change (obj_at (set_deps (deps s ++ [[]]) s) a) with (obj_at s a).
  unfold hasOwn in Hown.
  destruct (own_property (obj_at s a) k) as [p|] eqn:Hp; [done|].
  simpl (match None with Some p => negb (p_configurable p) | None => false end).
  cbv iota. simpl (None ≫= p_get). simpl (None ≫= p_set).
  unfold bind at 1. unfold ret at 1.
  unfold bind at 1.
  destruct (observe fuel x false (set_deps (deps s ++ [[]]) s)) as [childOb s2| |];
    [|done..].
  unfold bind at 1. unfold new_cell at 1.
  unfold bind at 1.
  destruct (defineProperty a k _ _) as [[] s4| |]; [|done..].
  unfold bind at 1. unfold gets at 1.
  by rewrite notify_eq.
Qed.

(** C8.  [set(obj, key, x)] on an observed plain object that is no root,
    with a key the object does not have.  Whenever the call returns, it
    returns [x], [key] is a property installed by [defineReactive] that
    holds [x], and [update] has been called on every subscriber of the
    collection Dep of the Observer; from then on a write of a value other
    than [x] to the property calls [update] on every subscriber of the Dep
    of the property.  With no subscriber active and fuel above the number
    of objects without an Observer the call does return. *)
Theorem set_new_property_tracked `{Host} (fuel : nat) (a : addr) (k : key)
    (x : value) (ob : nat) (isVue : value) (s : State) :
  o_kind (obj_at s a) = KPlain ->
  observed s a ob ->
  vmCount (ob_at s ob) = 0 ->
  plain_read (obj_at s a) (KStr "_isVue") = Some isVue ->
  truthy isVue = false ->
  has_property (obj_at s a) k = false ->
  (forall r s',
     set fuel (VObject a) k x s = Ok r s' ->
     r = x /\
     (forall w, w ∈ subs_at s (ob_dep (ob_at s ob)) -> notified (trace s) (trace s') w) /\
     exists c,
       installed s' a k c /\
       c_val (cell_at s' (cl_cell c)) = x /\
       write_tracked a k c x) /\
  (active (target s) = None ->
   unmarked s < fuel ->
   exists s', set fuel (VObject a) k x s = Ok x s').
Proof.
  intros Hkind Hobs Hcount HisVue Hv Hnot.
  rewrite (set_new_steps fuel a k x ob isVue s Hkind Hobs Hcount HisVue Hv Hnot).
  destruct Hobs as (Hm & Hob & Hval & Hdep & Hext).
  pose proof (marker_in_heap _ _ _ Hm) as Hlt.
  set (s1 := set_deps (deps s ++ [[]]) s).
  pose proof (observe_observe_ok fuel x false s1) as Hruns.
  assert (own_property (obj_at s a) k = None) as Hp.
  { unfold has_property, hasOwn in Hnot.
    by destruct (own_property (obj_at s a) k). }
  destruct (observe fuel x false s1) as [childOb s2|e|]; simpl in Hruns.
  - destruct Hruns as [Hev _].
    assert (obj_at s2 a = obj_at s a) as Hobj2.
    { change (obj_at s a) with (obj_at s1 a).
      apply (ev_marked _ _ _ Hev); [done|]. change (obj_at s1 a) with (obj_at s a).
      by rewrite Hm. }
    cbv zeta.
    set (c := Closure (length (cells s2)) a (uid s) None None false None).
    set (s3 := set_cells (cells s2 ++ [mkCell x childOb]) s2).
    set (o' := mkObject (o_kind (obj_at s a)) (o_proto (obj_at s a))
                 (o_extensible (obj_at s a))
                 (replace_key k (PAccessor (Some (GReactive c)) (Some (SReactive c))
                                   true true) (o_props (obj_at s a)))
                 (o_elems (obj_at s a))).
    assert (defineProperty a k
              (PAccessor (Some (GReactive c)) (Some (SReactive c)) true true) s3
            = Ok tt (put_obj a o' s3)) as Hdef.
    { unfold defineProperty. change (obj_at s3 a) with (obj_at s2 a).
      rewrite Hobj2, Hp, Hext. unfold store_prop, o'. rewrite Hkind. by simpl. }
    rewrite Hdef. set (s4 := put_obj a o' s3).
    destruct (ev_observers _ _ _ Hev ob Hob) as [_ Hd].
    change (ob_at s4 ob) with (ob_at s2 ob). rewrite Hd.
    change (ob_dep (ob_at s1 ob)) with (ob_dep (ob_at s ob)).
    set (d := ob_dep (ob_at s ob)) in *.
    split; [|intros _ _; by eexists].
    intros r s' [= <- <-]. split; [done|]. split.
    + intros w Hw. simpl. rewrite (ev_trace _ _ _ Hev). simpl.
      apply (notified_delivery (trace s) w (subs_at s d) _ []); [done|].
      change (subs_at s4 d) with (subs_at s2 d).
      etrans; [|apply (ev_subs _ _ _ Hev d)].
      unfold subs_at, s1. simpl.
      by rewrite (lookup_app_l (deps s) [[]] d Hdep).
    + exists c. split; [|split].
      * split; [|split; [done|split]].
        -- change (obj_at (emit_all _ s4) a) with (obj_at s4 a).
           unfold s4. rewrite obj_at_put_obj.
           2: { simpl. rewrite (ev_heap _ _ _ Hev). done. }
           unfold o'. rewrite own_property_not_array by (simpl; by rewrite Hkind).
           simpl. by rewrite lookup_replace_key_eq.
        -- simpl. pose proof (ev_deps_len _ _ _ Hev) as Hl.
           unfold s1 in Hl. simpl in Hl. rewrite length_app in Hl. simpl in Hl.
           unfold uid. lia.
        -- simpl. rewrite length_app. simpl. lia.
      * simpl. unfold cell_at. simpl. by rewrite list_lookup_middle.
      * intros fuel' y s0 Hinst Hx Hsame.
        apply (write_notifies fuel' a k (length (cells s2)) (uid s) false y s0 Hinst).
        simpl in Hx. by rewrite Hx.
  - split; [done|]. intros Hidle _. by destruct Hruns.
  - split; [done|]. intros Hidle Hfuel. specialize (Hruns Hidle).
    rewrite (unmarked_heap s s1) in Hruns by done. lia.
Qed.

Lemma set_new_property_tracked_witness :
  (forall r s',
     @set dev_host 1 (VObject 0) (KStr "c") (VString "new") state_observed_subs = Ok r s' ->
     r = VString "new" /\
     (forall w, w ∈ subs_at state_observed_subs (ob_dep (ob_at state_observed_subs 0)) ->
                notified (trace state_observed_subs) (trace s') w) /\
     exists c,
       installed s' 0 (KStr "c") c /\
       c_val (cell_at s' (cl_cell c)) = VString "new" /\
       @write_tracked dev_host 0 (KStr "c") c (VString "new")) /\
  (active (target state_observed_subs) = None ->
   unmarked state_observed_subs < 1 ->
   exists s',
     @set dev_host 1 (VObject 0) (KStr "c") (VString "new") state_observed_subs
       = Ok (VString "new") s').
Proof.
  apply (@set_new_property_tracked dev_host 1 0 (KStr "c") (VString "new") 0
           VUndefined state_observed_subs).
  - reflexivity.
  - repeat split; vm_compute; lia.
  - reflexivity.
  - reflexivity.
  - reflexivity.
  - reflexivity.
Defined.

(** On the observed [{a, b}] with subscribers 2 and 1 on the Dep of its
    Observer, [set(obj, 'c', 'new')] returns ['new'] and calls [update] on
    1 and then on 2. *)
Example set_new_property_example :
  exists s',
    @set dev_host 1 (VObject 0) (KStr "c") (VString "new") state_observed_subs
      = Ok (VString "new") s' /\
    trace s' = trace state_observed_subs ++ [EUpdate w1; EUpdate w2] /\
    c_val (cell_at s' 2) = VString "new".
Proof. eexists. split; [vm_compute; reflexivity|]. split; reflexivity. Qed.

(* ===================================================================== *)
(** ** Dep: subscribers, delivery and the stack, in every build           *)
(* ===================================================================== *)


Lemma subs_at_insert d l s :
  d < length (deps s) -> subs_at (set_deps (<[d := l]> (deps s)) s) d = l.
Proof. intros Hlt. unfold subs_at. simpl. by rewrite list_lookup_insert_eq. Qed.




Lemma updates_fmap (l : list Watcher) : updates (EUpdate <$> l) = l.
Proof. induction l as [|w l IH]; [done|]. rewrite fmap_cons. simpl. by rewrite IH. Qed.

(** X1.  [notify], whatever the build: [update] is called once for every entry
    of [subs], and nothing but the events changes; when the guard of the
    sort is off (a production build, or config.async on) the calls are made
    in the order of [subs]. *)
Theorem notify_once_each `{Host} (d : nat) (s : State) :
  exists us,
    notify d s = Ok tt (emit_all (EUpdate <$> us) s) /\
    us ≡ₚ subs_at s d /\
    updates (trace (emit_all (EUpdate <$> us) s)) = updates (trace s) ++ us /\
    (production = true \/ config_async = true -> us = subs_at s d).
Proof.
  exists (delivery (subs_at s d)). split; [apply notify_eq|].
  split; [|split].
  - unfold delivery. destruct sync_mode; [apply sort_by_id_perm|done].
  - simpl. by rewrite updates_app, updates_fmap.
  - unfold delivery, sync_mode. by intros [->| ->]; rewrite ?andb_false_r.
Qed.

(** X2.  [addSub] does not look for the subscriber in [subs]: one added twice is
    there twice, and [notify] calls its [update] twice: the calls of
    [update] it makes are one for every entry of [subs], the two new ones
    included, and nothing else is sent. *)
Theorem addSub_keeps_duplicates `{Host} (d : nat) (w : Watcher) (s : State) :
  d < length (deps s) ->
  exists s',
    (addSub d w ;;; addSub d w ;;; notify d) s = Ok tt s' /\
    subs_at s' d = subs_at s d ++ [w; w] /\
    exists us,
      us ≡ₚ subs_at s d ++ [w; w] /\
      trace s' = trace s ++ (EUpdate <$> us).
Proof.
  intros Hlt. unfold bind at 1. unfold addSub at 1, modify at 1.
  set (s1 := set_deps (<[d := subs_at s d ++ [w]]> (deps s)) s).
  assert (subs_at s1 d = subs_at s d ++ [w]) as H1 by by apply subs_at_insert.
  unfold bind at 1. unfold addSub at 1, modify at 1. rewrite H1.
  set (s2 := set_deps (<[d := (subs_at s d ++ [w]) ++ [w]]> (deps s1)) s1).
  assert (subs_at s2 d = subs_at s d ++ [w; w]) as H2.
  { unfold s2. rewrite subs_at_insert.
    - by rewrite <- app_assoc.
    - unfold s1. simpl. by rewrite length_insert. }
  rewrite notify_eq, H2. eexists. split; [reflexivity|]. split; [done|].
  exists (delivery (subs_at s d ++ [w; w])). split; [apply delivery_perm|done].
Qed.

Lemma addSub_keeps_duplicates_witness :
  exists s',
    (addSub 0 w1 ;;; addSub 0 w1 ;;; @notify dev_host 0) state_one_dep = Ok tt s' /\
    subs_at s' 0 = subs_at state_one_dep 0 ++ [w1; w1] /\
    exists us,
      us ≡ₚ subs_at state_one_dep 0 ++ [w1; w1] /\
      trace s' = trace state_one_dep ++ (EUpdate <$> us).
Proof. apply (@addSub_keeps_duplicates dev_host 0 w1 state_one_dep). simpl. lia. Defined.



(** X4.  Any sequence of calls of [pushTarget] and [popTarget], balanced or not,
    runs to its end and touches the pointer and the stack only; after it
    the pointer is again the top of the stack, and names no subscriber if
    the stack is empty. *)
Theorem run_ops_stack_inv (ops : list stackOp) (s : State) :
  stack_inv s ->
  exists s',
    run_ops ops s = Ok tt s' /\
    stack_inv s' /\
    s' = set_target (target s') (targetStack s') s.
Proof.
  revert s. induction ops as [|o ops IH]; intros s Hinv.
  - exists s. split; [done|]. split; [done|]. unfold set_target. by rewrite state_eta.
  - unfold run_ops. simpl. unfold bind.
    assert (exists s1, run_op o s = Ok tt s1 /\ stack_inv s1 /\
                       s1 = set_target (target s1) (targetStack s1) s) as (s1 & -> & Hinv1 & Hs1).
    { destruct o as [t|]; simpl.
      - eexists. split; [reflexivity|]. split; [by eapply stack_inv_pushTarget|done].
      - eexists. split; [reflexivity|]. split; [by eapply stack_inv_popTarget|done]. }
    destruct (IH s1 Hinv1) as (s' & Hrun & Hinv' & Hs'). exists s'.
    split; [done|]. split; [done|]. rewrite Hs' at 1. by rewrite Hs1.
Qed.

Lemma run_ops_stack_inv_witness :
  exists s',
    run_ops [OpPop; OpPop; OpPush (TWatcher w2); OpPop; OpPush TNull] state_in_w1 = Ok tt s' /\
    stack_inv s' /\
    s' = set_target (target s') (targetStack s') state_in_w1.
Proof.
  apply (run_ops_stack_inv [OpPop; OpPop; OpPush (TWatcher w2); OpPop; OpPush TNull]
           state_in_w1).
  reflexivity.
Defined.

(** X5.  A read between [pushTarget(null)] and the [popTarget()] that closes it
    registers nothing, also inside the evaluation of a subscriber: the
    value comes back and the state is the one before the push. *)
Theorem read_under_null_target `{Host} (fuel : nat) (a : addr) (k : key)
    (c : closure) (s : State) :
  installed s a k c ->
  stack_inv s ->
  targetStack s <> [] ->
  (pushTarget TNull ;;; v <- get_prop fuel (VObject a) k ;; popTarget ;;; ret v) s
  = Ok (current_value c (heap s) (cells s)) s.
Proof.
  intros Hinst Hinv Hne.
  unfold bind at 1. unfold pushTarget at 1, modify at 1.
  set (s1 := set_target TNull (TNull :: targetStack s) s).
  assert (installed s1 a k c) as Hinst1 by done.
  unfold bind at 1. rewrite (get_prop_installed fuel a k c s1 Hinst1).
  rewrite reactiveGetter_idle by done.
  unfold bind at 1. unfold popTarget, modify. simpl. unfold ret. f_equal.
  unfold stack_inv in Hinv. destruct (targetStack s) as [|t l] eqn:Hst; [done|].
  simpl. unfold set_target. simpl. rewrite <- Hst, <- Hinv. apply state_eta.
Qed.

Lemma read_under_null_target_witness :
  (pushTarget TNull ;;;
   v <- @get_prop dev_host 1 (VObject 0) (KStr "a") ;; popTarget ;;; ret v) state_observed_w1
  = Ok (@current_value dev_host closure_a (heap state_observed_w1) (cells state_observed_w1))
       state_observed_w1.
Proof.
  apply (@read_under_null_target dev_host 1 0 (KStr "a") closure_a state_observed_w1).
  - repeat split; vm_compute; lia.
  - reflexivity.
  - discriminate.
Defined.

(* ===================================================================== *)
(** ** observe: the values it leaves alone                                *)
(* ===================================================================== *)

(** X6.  [observe] on what is no object (undefined, null, a boolean, a number,
    a string) and on a VNode returns [undefined] and changes nothing,
    whatever [asRootData] is. *)
Theorem observe_not_an_object `{Host} (fuel : nat) (v : value) (root : bool) (s : State) :
  isObject v = false \/ (exists a, v = VObject a /\ o_kind (obj_at s a) = KVNode) ->
  observe (S fuel) v root s = Ok None s.
Proof.
  intros [Hv|(a & -> & Hk)].
  - by destruct v.
  - rewrite observe_S. unfold observe_body. unfold bind at 1. unfold gets at 1.
    unfold instanceof_VNode. by rewrite Hk.
Qed.

Lemma observe_not_an_object_witness :
  @observe dev_host 1 (VString "text") true state_raw = Ok None state_raw.
Proof. apply (@observe_not_an_object dev_host 0 (VString "text") true state_raw). by left. Defined.

(** X7.  [observe] on an object without [__ob__] makes no Observer, returns
    [undefined] and changes nothing when observation is switched off
    ([toggleObserving(false)]), on the server, when the object is neither
    an array nor a plain object, when it is not extensible (frozen, sealed),
    or when its [_isVue] is truthy. *)
Theorem observe_not_observable `{Host} (fuel : nat) (a : addr) (root : bool) (s : State) :
  hasOwn (obj_at s a) (KStr "__ob__") = false ->
  (shouldObserve s = false \/
   isServerRendering = true \/
   o_kind (obj_at s a) = KOther \/
   o_extensible (obj_at s a) = false \/
   exists isVue, plain_read (obj_at s a) (KStr "_isVue") = Some isVue /\ truthy isVue = true) ->
  observe (S fuel) (VObject a) root s = Ok None s.
Proof.
  intros Hown Hwhy. rewrite observe_S. unfold observe_body.
  unfold bind at 1. unfold gets at 1.
  destruct (instanceof_VNode (obj_at s a)) eqn:Hvn; [done|].
  rewrite Hown. unfold bind at 1. unfold bind at 1. unfold ret at 1.
  unfold bind at 1. unfold gets at 1.
  destruct (shouldObserve s && negb isServerRendering
            && (bool_decide (o_kind (obj_at s a) = KArray) || isPlainObject (obj_at s a))
            && o_extensible (obj_at s a)) eqn:Hguard; [|done].
  apply andb_prop in Hguard as [Hguard Hext].
  apply andb_prop in Hguard as [Hguard Hkind].
  apply andb_prop in Hguard as [Hen Hssr].
  destruct Hwhy as [Hoff|[Hserver|[Hother|[Hfrozen|(isVue & Hread & Htrue)]]]].
  - congruence.
  - rewrite Hserver in Hssr. done.
  - unfold isPlainObject in Hkind. rewrite Hother in Hkind. done.
  - congruence.
  - unfold bind at 1. rewrite (plain_read_get_prop _ _ _ _ _ Hread). by rewrite Htrue.
Qed.

Lemma observe_not_observable_witness :
  @observe dev_host 1 (VObject 0) false
    (mkState [plain_obj; arr_obj] [] [] [] TNull [] false ∅ [])
  = Ok None (mkState [plain_obj; arr_obj] [] [] [] TNull [] false ∅ []).
Proof.
  apply (@observe_not_observable dev_host 0 0 false
           (mkState [plain_obj; arr_obj] [] [] [] TNull [] false ∅ [])).
  - reflexivity.
  - by left.
Defined.

(* ===================================================================== *)
(** ** observe: Observers are added, root counts stay                     *)
(* ===================================================================== *)

#[global] Instance observers_grow_preorder : PreOrder observers_grow.
Proof.
  split.
  - intros s. unfold observers_grow. reflexivity.
  - intros s1 s2 s3. unfold observers_grow. intros H1 H2. by etrans.
Qed.

Lemma og_same s s' : observers s' = observers s -> observers_grow s s'.
Proof. unfold observers_grow. by intros ->. Qed.

Lemma og_ret {A} (a : A) : preserves observers_grow (ret a).
Proof. apply preserves_ret, _. Qed.

Lemma og_gets {A} (f : State -> A) : preserves observers_grow (gets f).
Proof. apply preserves_gets, _. Qed.

Lemma og_throw {A} e : preserves observers_grow (@throw A e).
Proof. apply preserves_throw. Qed.

Lemma og_bind {A B} (m : M A) (f : A -> M B) :
  preserves observers_grow m -> (forall a, preserves observers_grow (f a)) ->
  preserves observers_grow (bind m f).
Proof. apply preserves_bind, _. Qed.

Lemma og_for_loop n from body :
  (forall i, preserves observers_grow (body i)) ->
  preserves observers_grow (for_loop n from body).
Proof. apply preserves_for_loop, _. Qed.

Lemma og_for_each {A} (l : list A) body :
  (forall x, x ∈ l -> preserves observers_grow (body x)) ->
  preserves observers_grow (for_each l body).
Proof. apply preserves_for_each, _. Qed.

Lemma og_get_prop `{Host} fuel v k : preserves observers_grow (get_prop fuel v k).
Proof.
  intros s x s' Hrun. apply og_same.
  by apply (reg_observers s s'), (get_prop_registers fuel v k s x s').
Qed.

Lemma og_def a name v : preserves observers_grow (def a name v).
Proof. intros s x s'. unfold def, modify. intros [= _ <-]. by apply og_same. Qed.

Lemma og_defineProperty a k p : preserves observers_grow (defineProperty a k p).
Proof.
  intros s x s'. unfold defineProperty.
  destruct (match own_property (obj_at s a) k with
            | Some old => p_configurable old
            | None => o_extensible (obj_at s a)
            end); [|done].
  destruct (store_prop k p (obj_at s a)); [|done].
  intros [= _ <-]. by apply og_same.
Qed.

Section observers_grow.
Context `{Host}.
Variable fuel : nat.
Variable rec : value -> bool -> M (option nat).
Hypothesis Hrec : forall v, preserves observers_grow (rec v false).

Lemma og_defineReactive a k val cs sh :
  preserves observers_grow (defineReactive_with fuel rec a k val cs sh).
Proof.
  unfold defineReactive_with.
  apply og_bind; [intros s d s' [= _ <-]; by apply og_same|]. intros dep.
  apply og_bind; [apply og_gets|]. intros property.
  destruct (match property with Some p => negb (p_configurable p) | None => false end);
    [apply og_ret|].
  apply og_bind.
  { destruct val; [apply og_ret|].
    destruct (negb _ || _); [apply og_get_prop|apply og_ret]. }
  intros v. apply og_bind.
  { destruct sh; [apply og_ret|apply Hrec]. }
  intros childOb. apply og_bind.
  { intros s c s' [= _ <-]. by apply og_same. }
  intros cell. apply og_defineProperty.
Qed.

Lemma og_walk a : preserves observers_grow (walk_with fuel rec a).
Proof.
  unfold walk_with. apply og_bind; [apply og_gets|]. intros keys.
  apply og_for_each. intros k _. apply og_defineReactive.
Qed.

Lemma og_observeArray l item :
  (forall i, preserves observers_grow (item i)) ->
  preserves observers_grow (observeArray_with rec l item).
Proof.
  intros Hitem. unfold observeArray_with. apply og_for_loop. intros i.
  apply og_bind; [apply Hitem|]. intros v.
  apply og_bind; [apply Hrec|]. intros _. apply og_ret.
Qed.

(** What the constructor does once the marker is set. *)
Lemma og_Observer_rest a (is_arr : bool) :
  preserves observers_grow (Observer_rest fuel rec a is_arr).
Proof.
  unfold Observer_rest. destruct is_arr; [|apply og_walk].
  apply og_bind.
  { destruct hasProto.
    - intros s x s'. unfold protoAugment, modify. intros [= _ <-]. by apply og_same.
    - unfold copyAugment. apply og_for_each. intros m _. apply og_def. }
  intros _. apply og_bind; [apply og_gets|]. intros l.
  apply og_observeArray. intros i. apply og_get_prop.
Qed.

Lemma og_new_Observer a : preserves observers_grow (new_Observer_with fuel rec a).
Proof.
  unfold new_Observer_with.
  apply og_bind; [intros s d s' [= _ <-]; by apply og_same|]. intros dep.
  apply og_bind.
  { intros s d s' [= _ <-]. unfold observers_grow. simpl. by apply prefix_app_r. }
  intros this. apply og_bind; [apply og_def|]. intros _.
  apply og_bind; [apply og_gets|]. intros is_arr.
  apply og_bind; [apply (og_Observer_rest a is_arr)|]. intros _. apply og_ret.
Qed.

Lemma og_observe_body v : preserves observers_grow (observe_body fuel rec v false).
Proof.
  unfold observe_body. destruct v as [| | | | |a| | |]; try apply og_ret.
  apply og_bind; [apply og_gets|]. intros o.
  destruct (instanceof_VNode o); [apply og_ret|].
  apply og_bind.
  2: { intros [i|]; [|apply og_ret].
       apply og_bind; [apply og_ret|]. intros _. apply og_ret. }
  apply og_bind.
  { destruct (hasOwn o (KStr "__ob__")); [apply og_get_prop|apply og_ret]. }
  intros existing.
  assert (preserves observers_grow
            (enabled <- gets shouldObserve ;;
             if enabled && negb isServerRendering
                && (bool_decide (o_kind o = KArray) || isPlainObject o)
                && o_extensible o
             then
               isVue <- get_prop fuel (VObject a) (KStr "_isVue") ;;
               if negb (truthy isVue)
               then this <- new_Observer_with fuel rec a ;; ret (Some this)
               else ret None
             else ret None)) as Hfresh.
  { apply og_bind; [apply og_gets|]. intros enabled.
    destruct (_ && _); [|apply og_ret].
    apply og_bind; [apply og_get_prop|]. intros isVue.
    destruct (negb (truthy isVue)); [|apply og_ret].
    apply og_bind; [apply og_new_Observer|]. intros this. apply og_ret. }
  destruct existing; try exact Hfresh.
  apply og_bind; [apply og_get_prop|]. intros ob.
  destruct ob; try apply og_ret; destruct (truthy _); first [apply og_throw|apply og_ret].
Qed.

End observers_grow.

Lemma og_observe `{Host} n v : preserves observers_grow (observe n v false).
Proof.
  revert v. induction n as [|n IH]; intros v; [by intros s x s'|].
  rewrite observe_S. by apply og_observe_body.
Qed.

(* ===================================================================== *)
(** ** observe on an object that has no Observer yet                      *)
(* ===================================================================== *)

Lemma new_Observer_steps `{Host} fuel rec a s :
  new_Observer_with fuel rec a s =
  (Observer_rest fuel rec a (isArray (marked_state a s) (VObject a)) ;;;
   ret (length (observers s))) (marked_state a s).
Proof. reflexivity. Qed.

Lemma observe_fresh_steps `{Host} n a root s :
  observable s a ->
  observe (S n) (VObject a) root s =
  match new_Observer_with n (observe n) a s with
  | Ok this s' => Ok (Some this) (if root then vmCount_incr this s' else s')
  | Throw e => Throw e
  | OutOfFuel => OutOfFuel
  end.
Proof.
  intros (Hlt & Hkind & Hown & Hext & Hon & Hssr & isVue & Hread & Hfalsy).
  rewrite observe_S. unfold observe_body.
  unfold bind at 1. unfold gets at 1.
  assert (instanceof_VNode (obj_at s a) = false) as ->.
  { unfold instanceof_VNode. apply bool_decide_eq_false. by destruct Hkind as [-> | ->]. }
  rewrite Hown. unfold bind at 1. unfold bind at 1. unfold ret at 1.
  unfold bind at 1. unfold gets at 1. rewrite Hon, Hssr, Hext.
  assert (bool_decide (o_kind (obj_at s a) = KArray) || isPlainObject (obj_at s a) = true) as ->.
  { unfold isPlainObject. by destruct Hkind as [-> | ->]. }
  simpl (true && negb false && true && true). cbv iota.
  unfold bind at 1. rewrite (plain_read_get_prop _ _ _ _ _ Hread). rewrite Hfalsy.
  simpl (negb false). cbv iota.
  unfold bind at 1.
  destruct (new_Observer_with n (observe n) a s) as [this s'| |]; [|done..].
  unfold ret at 1. unfold bind at 1. by destruct root.
Qed.

Lemma marked_state_obj a s :
  a < length (heap s) ->
  obj_at (marked_state a s) a = with_marker (length (observers s)) (obj_at s a).
Proof. intros Hlt. unfold marked_state. by rewrite obj_at_put_obj. Qed.

Lemma marked_state_other a b s : a <> b -> obj_at (marked_state a s) b = obj_at s b.
Proof. intros Hne. unfold marked_state. by rewrite obj_at_put_obj_ne. Qed.

Lemma hasOwn_marker o : hasOwn o (KStr "__ob__") = false -> marker o = None.
Proof. unfold hasOwn, marker. by destruct (own_property o (KStr "__ob__")). Qed.

(** Setting the marker: the object is marked, and one object less is
    left to mark. *)
Lemma marked_state_facts a s :
  a < length (heap s) ->
  marker (obj_at s a) = None ->
  evolves (Some a) s (marked_state a s) /\
  marker (obj_at (marked_state a s) a) = Some (length (observers s)) /\
  marker_hidden (obj_at (marked_state a s) a) /\
  unmarked (marked_state a s) < unmarked s.
Proof.
  intros Hlt Hm.
  set (s1 := set_deps (deps s ++ [[]]) s).
  set (s2 := set_observers (observers s ++ [mkObserver a (length (deps s)) 0]) s1).
  assert (def a "__ob__" (VObserver (length (observers s))) s2 = Ok tt (marked_state a s))
    as Hdef by reflexivity.
  assert (evolves (Some a) s s2) as Hev2.
  { etrans; [by apply (evolves_new_Dep _ s (uid s) s1)|].
    by apply (evolves_new_observer_entry _ a (uid s) s1 (length (observers s1)) s2). }
  destruct (evolves_def_marker (Some a) a _ s2 _ Hdef) as [Hev3 Hfacts]; [done|].
  destruct Hfacts as (Hm3 & Hhid3 & Hlt3); [done|].
  split; [by etrans|]. split; [done|]. split; [done|]. exact Hlt3.
Qed.

Lemma runs_Observer_rest `{Host} fuel n rec a s :
  observe_ok n rec ->
  o_extensible (obj_at s a) = true ->
  marker_hidden (obj_at s a) ->
  runs n (Some a) s (Observer_rest fuel rec a (isArray s (VObject a)) s) (fun _ _ => True).
Proof.
  intros Hrec Hext Hhid. unfold Observer_rest.
  destruct (isArray s (VObject a)) eqn:Harr.
  - eapply runs_bind with (Q := fun _ _ => True).
    + destruct hasProto.
      * split; [|done]. eapply evolves_protoAugment; [done|by left].
      * apply runs_copyAugment.
    + intros [] s4 _ Hev4 _. unfold bind at 1. unfold gets at 1.
      apply runs_observeArray; [done|]. intros i s5 Hev5.
      apply runs_get_prop. by right.
  - apply runs_walk; [done| |done|done].
    unfold isArray in Harr. by apply bool_decide_eq_false in Harr.
Qed.

Lemma observable_unmarked `{Host} s a : observable s a -> marker (obj_at s a) = None.
Proof. intros (_ & _ & Hown & _). by apply hasOwn_marker. Qed.

(** [observe] on an observable object, with no subscriber active and
    enough depth: the constructor runs to its end. *)
Lemma observe_fresh_ok `{Host} n a root s :
  observable s a ->
  active (target s) = None ->
  unmarked s <= n ->
  exists s1,
    Observer_rest n (observe n) a (isArray s (VObject a)) (marked_state a s) = Ok tt s1 /\
    observe (S n) (VObject a) root s
    = Ok (Some (length (observers s)))
         (if root then vmCount_incr (length (observers s)) s1 else s1) /\
    evolves (Some a) (marked_state a s) s1 /\
    observers_grow (marked_state a s) s1.
Proof.
  intros Hobs Hidle Hfuel.
  pose proof (observable_unmarked s a Hobs) as Hm.
  rewrite (observe_fresh_steps n a root s Hobs), new_Observer_steps.
  destruct Hobs as (Hlt & Hkind & Hown & Hext & _).
  destruct (marked_state_facts a s Hlt Hm) as (Hev & Hm3 & Hhid & Hless).
  set (s3 := marked_state a s) in *.
  assert (isArray s3 (VObject a) = isArray s (VObject a)) as Harr.
  { unfold isArray. by rewrite (ev_kind _ _ _ Hev). }
  pose proof (runs_Observer_rest n n (observe n) a s3 (observe_observe_ok n)) as Hruns.
  rewrite (ev_extensible _ _ _ Hev) in Hruns. specialize (Hruns Hext Hhid).
  rewrite Harr in *.
  pose proof (og_Observer_rest n (observe n) (og_observe n) a (isArray s (VObject a)) s3)
    as Hog.
  unfold bind.
  destruct (Observer_rest n (observe n) a (isArray s (VObject a)) s3) as [[] s1|e|];
    simpl in Hruns.
  - exists s1. destruct Hruns as [Hev1 _]. split; [done|]. split; [done|].
    split; [done|]. by eapply Hog.
  - exfalso. apply Hruns. exact Hidle.
  - exfalso. specialize (Hruns Hidle). lia.
Qed.

Lemma ob_at_grow s s' i :
  observers_grow s s' -> i < length (observers s) -> ob_at s' i = ob_at s i.
Proof. intros Hog Hlt. unfold ob_at. by rewrite <- (prefix_lookup_lt _ _ i Hlt Hog). Qed.

Lemma ob_at_vmCount_incr i s :
  i < length (observers s) ->
  ob_at (vmCount_incr i s) i
  = mkObserver (ob_value (ob_at s i)) (ob_dep (ob_at s i)) (S (vmCount (ob_at s i))).
Proof. intros Hlt. unfold ob_at at 1, vmCount_incr. simpl. by rewrite list_lookup_insert_eq. Qed.

Lemma ob_at_vmCount_incr_ne i j s : i <> j -> ob_at (vmCount_incr i s) j = ob_at s j.
Proof. intros Hne. unfold ob_at, vmCount_incr. simpl. by rewrite list_lookup_insert_ne. Qed.

Lemma marked_state_ob_at a s :
  ob_at (marked_state a s) (length (observers s)) = mkObserver a (length (deps s)) 0.
Proof. unfold ob_at, marked_state. simpl. by rewrite list_lookup_middle. Qed.

(** X9.  [observe] on an observable object that has no Observer, with no
    subscriber active: it makes one, the next in the table, returns it and
    leaves the object marked with it.  The new Observer refers to the
    object, counts one root if the call was for root data and none if not,
    and its Dep is new and has no subscriber.  No event is sent, the
    Observers there were keep their fields, and no other object that had an
    Observer is touched. *)
Theorem observe_makes_Observer `{Host} (fuel : nat) (a : addr) (root : bool) (s : State) :
  observable s a ->
  active (target s) = None ->
  unmarked s <= fuel ->
  exists s',
    observe (S fuel) (VObject a) root s = Ok (Some (length (observers s))) s' /\
    observed s' a (length (observers s)) /\
    vmCount (ob_at s' (length (observers s))) = (if root then 1 else 0) /\
    ob_dep (ob_at s' (length (observers s))) = uid s /\
    subs_at s' (uid s) = [] /\
    trace s' = trace s /\
    (forall i, i < length (observers s) -> ob_at s' i = ob_at s i) /\
    (forall b, b <> a -> is_Some (marker (obj_at s b)) -> obj_at s' b = obj_at s b).
Proof.
  intros Hobs Hidle Hfuel.
  destruct (observe_fresh_ok fuel a root s Hobs Hidle Hfuel) as (s1 & _ & Hrun & Hev & Hog).
  pose proof (observable_unmarked s a Hobs) as Hm.
  destruct Hobs as (Hlt & Hkind & Hown & Hext & _).
  destruct (marked_state_facts a s Hlt Hm) as (Hev3 & Hm3 & Hhid & Hless).
  set (ob := length (observers s)) in *.
  set (s3 := marked_state a s) in *.
  assert (ob < length (observers s3)) as Hob3.
  { unfold s3, marked_state. simpl. rewrite length_app. simpl. unfold ob. lia. }
  assert (ob < length (observers s1)) as Hob1.
  { pose proof (prefix_length _ _ Hog). lia. }
  assert (ob_at s1 ob = mkObserver a (length (deps s)) 0) as Hentry.
  { rewrite (ob_at_grow s3 s1 ob Hog Hob3). apply marked_state_ob_at. }
  assert (marker (obj_at s1 a) = Some ob) as Hm1 by by apply (ev_marker _ _ _ Hev).
  assert (o_extensible (obj_at s1 a) = true) as Hext1.
  { by rewrite (ev_extensible _ _ _ Hev), (ev_extensible _ _ _ Hev3). }
  assert (uid s < length (deps s1)) as Hdep1.
  { pose proof (ev_deps_len _ _ _ Hev) as Hl. unfold s3, marked_state in Hl. simpl in Hl.
    rewrite length_app in Hl. simpl in Hl. unfold uid. lia. }
  assert (subs_at s1 (uid s) = []) as Hsubs.
  { destruct (ev_idle _ _ _ Hev) as [Hpre _]; [done|].
    unfold subs_at.
    rewrite (prefix_lookup_Some (deps s3) (deps s1) (uid s) []); [done| |done].
    unfold s3, marked_state. simpl. by rewrite list_lookup_middle. }
  assert (forall i, i < length (observers s) -> ob_at s1 i = ob_at s i) as Hold.
  { intros i Hi. rewrite (ob_at_grow s3 s1 i Hog).
    - unfold ob_at, s3, marked_state. simpl. by rewrite lookup_app_l.
    - lia. }
  assert (forall b, b <> a -> is_Some (marker (obj_at s b)) -> obj_at s1 b = obj_at s b)
    as Hothers.
  { intros b Hne Hmb. rewrite (ev_marked _ _ _ Hev b).
    - by apply marked_state_other.
    - congruence.
    - unfold s3. by rewrite marked_state_other. }
  eexists. split; [exact Hrun|].
  destruct root.
  - pose proof (ob_at_vmCount_incr ob s1 Hob1) as Hinc. rewrite Hentry in Hinc. simpl in Hinc.
    split; [|split; [|split; [|split; [|split; [|split]]]]].
    + split; [done|]. split; [unfold vmCount_incr; simpl; by rewrite length_insert|].
      split; [by rewrite Hinc|]. split; [by rewrite Hinc|done].
    + by rewrite Hinc.
    + by rewrite Hinc.
    + done.
    + simpl. by rewrite (ev_trace _ _ _ Hev).
    + intros i Hi. rewrite ob_at_vmCount_incr_ne by (unfold ob; lia). by apply Hold.
    + done.
  - split; [|split; [|split; [|split; [|split; [|split]]]]].
    + split; [done|]. split; [done|]. split; [by rewrite Hentry|].
      split; [by rewrite Hentry|done].
    + by rewrite Hentry.
    + by rewrite Hentry.
    + done.
    + simpl. by rewrite (ev_trace _ _ _ Hev).
    + done.
    + done.
Qed.

Lemma observe_makes_Observer_witness :
  exists s',
    @observe dev_host 3 (VObject 0) true state_raw = Ok (Some (length (observers state_raw))) s' /\
    observed s' 0 (length (observers state_raw)) /\
    vmCount (ob_at s' (length (observers state_raw))) = (if true then 1 else 0) /\
    ob_dep (ob_at s' (length (observers state_raw))) = uid state_raw /\
    subs_at s' (uid state_raw) = [] /\
    trace s' = trace state_raw /\
    (forall i, i < length (observers state_raw) -> ob_at s' i = ob_at state_raw i) /\
    (forall b, b <> 0 -> is_Some (marker (obj_at state_raw b)) ->
               obj_at s' b = obj_at state_raw b).
Proof.
  apply (@observe_makes_Observer dev_host 2 0 true state_raw).
  - unfold observable. split; [simpl; lia|]. split; [by left|].
    repeat split; try reflexivity. by exists VUndefined.
  - reflexivity.
  - vm_compute. lia.
Defined.

(* ===================================================================== *)
(** ** observe on an array                                                *)
(* ===================================================================== *)

Lemma method_name_inj m m' : method_name m = method_name m' -> m = m'.
Proof. by destruct m, m'. Qed.

Lemma def_obj a name v s :
  a < length (heap s) ->
  exists s',
    def a name v s = Ok tt s' /\
    length (heap s') = length (heap s) /\
    obj_at s' a
    = mkObject (o_kind (obj_at s a)) (o_proto (obj_at s a)) (o_extensible (obj_at s a))
               (replace_key (KStr name) (PData v true false true) (o_props (obj_at s a)))
               (o_elems (obj_at s a)).
Proof.
  intros Hlt. eexists. split; [reflexivity|]. split.
  - unfold put_obj. simpl. by rewrite length_insert.
  - by rewrite obj_at_put_obj.
Qed.

(** [copyAugment]: every name of [keys] becomes an own property that holds
    the wrapped method; no other property changes. *)
Lemma copyAugment_obj a keys s :
  a < length (heap s) ->
  exists s',
    copyAugment a keys s = Ok tt s' /\
    length (heap s') = length (heap s) /\
    (forall m, m ∈ keys ->
       lookup_key (KStr (method_name m)) (o_props (obj_at s' a))
       = Some (PData (VMutator m) true false true)) /\
    (forall k, (forall m, m ∈ keys -> KStr (method_name m) <> k) ->
       lookup_key k (o_props (obj_at s' a)) = lookup_key k (o_props (obj_at s a))).
Proof.
  revert s. induction keys as [|m0 keys IH]; intros s Hlt.
  - exists s. split; [done|]. split; [done|]. split; [by intros m ?%elem_of_nil|done].
  - unfold copyAugment. simpl. unfold bind.
    destruct (def_obj a (method_name m0) (VMutator m0) s Hlt) as (s1 & -> & Hlen1 & Hobj1).
    destruct (IH s1) as (s' & Hrun & Hlen & Hin & Hout); [lia|].
    exists s'. split; [exact Hrun|]. split; [lia|].
    assert (forall k, (forall m, m ∈ m0 :: keys -> KStr (method_name m) <> k) ->
              lookup_key k (o_props (obj_at s' a)) = lookup_key k (o_props (obj_at s a)))
      as Hout'.
    { intros k Hk. rewrite Hout.
      - rewrite Hobj1. simpl. apply lookup_replace_key_ne. apply Hk. left.
      - intros m Hm. apply Hk. by right. }
    split; [|exact Hout'].
    intros m Hm. destruct (decide (m ∈ keys)) as [Hk|Hk]; [by apply Hin|].
    apply elem_of_cons in Hm as [->|Hm]; [|done].
    rewrite Hout.
    + rewrite Hobj1. simpl. apply lookup_replace_key_eq.
    + intros m Hm [= Heq]. apply method_name_inj in Heq. congruence.
Qed.

(** The constructor on an array, once the marker is set: the methods are
    put in place and the items observed, and observing the items leaves
    the array as it is. *)
Lemma Observer_rest_array `{Host} n a s3 s1 ob :
  marker (obj_at s3 a) = Some ob ->
  Observer_rest n (observe n) a true s3 = Ok tt s1 ->
  exists s4,
    (if hasProto then protoAugment a else copyAugment a methodsToPatch) s3 = Ok tt s4 /\
    evolves (Some a) s3 s4 /\
    obj_at s1 a = obj_at s4 a.
Proof.
  intros Hm Hrest. unfold Observer_rest in Hrest. unfold bind at 1 in Hrest.
  assert (runs n (Some a) s3
            ((if hasProto then protoAugment a else copyAugment a methodsToPatch) s3)
            (fun _ _ => True)) as Haug.
  { destruct hasProto.
    - split; [|done]. eapply evolves_protoAugment; [done|by left].
    - apply runs_copyAugment. }
  destruct ((if hasProto then protoAugment a else copyAugment a methodsToPatch) s3)
    as [[] s4| |]; [|done..].
  destruct Haug as [Hev4 _].
  exists s4. split; [done|]. split; [done|].
  unfold bind at 1 in Hrest. unfold gets at 1 in Hrest.
  pose proof (runs_observeArray n None (observe n) (array_length s4 (VObject a))
                (fun i => get_prop n (VObject a) (KIdx i)) s4 (observe_observe_ok n)) as Hruns.
  rewrite Hrest in Hruns. destruct Hruns as [Hev1 _].
  { intros i s5 _. apply runs_get_prop. by right. }
  apply (ev_marked _ _ _ Hev1); [done|].
  by rewrite (ev_marker _ _ _ Hev4 a ob Hm).
Qed.

(** X10.  [observe] on an observable array: no slot of the array is redefined,
    the slots and the length stay as they are, and the array gets the
    wrapped methods, so that [splice] read on it is the function of
    [arrayMethods]; with [__proto__] at hand nothing of the array changes
    but its prototype and the marker. *)
Theorem observe_array `{Host} (fuel : nat) (a : addr) (root : bool) (s : State) :
  observable s a ->
  o_kind (obj_at s a) = KArray ->
  own_property (obj_at s a) (KStr "splice") = None ->
  active (target s) = None ->
  unmarked s <= fuel ->
  exists s',
    observe (S fuel) (VObject a) root s = Ok (Some (length (observers s))) s' /\
    augmented s' a /\
    o_kind (obj_at s' a) = KArray /\
    o_elems (obj_at s' a) = o_elems (obj_at s a) /\
    (forall i, isValidArrayIndex (KIdx i) = true ->
       own_property (obj_at s' a) (KIdx i) = own_property (obj_at s a) (KIdx i)) /\
    (hasProto = true ->
     obj_at s' a
     = mkObject KArray ProtoArrayMethods true
         (replace_key (KStr "__ob__") (PData (VObserver (length (observers s))) true false true)
            (o_props (obj_at s a)))
         (o_elems (obj_at s a))).
Proof.
  intros Hobs Hkind Hsplice Hidle Hfuel.
  destruct (observe_fresh_ok fuel a root s Hobs Hidle Hfuel) as (s1 & Hrest & Hrun & Hev & Hog).
  pose proof (observable_unmarked s a Hobs) as Hm.
  destruct Hobs as (Hlt & _ & Hown & Hext & _).
  destruct (marked_state_facts a s Hlt Hm) as (Hev3 & Hm3 & Hhid & Hless).
  assert (isArray s (VObject a) = true) as Harr.
  { unfold isArray. by apply bool_decide_eq_true_2. }
  rewrite Harr in Hrest.
  destruct (Observer_rest_array fuel a _ s1 _ Hm3 Hrest) as (s4 & Haug & Hev4 & Hobj1).
  pose proof (marked_state_obj a s Hlt) as Hobj3.
  set (ob := length (observers s)) in *.
  set (s3 := marked_state a s) in *.
  assert (a < length (heap s3)) as Hlt3 by by rewrite (ev_heap _ _ _ Hev3).
  assert (lookup_key (KStr "splice") (o_props (obj_at s3 a)) = None) as Hsp3.
  { rewrite Hobj3. simpl. rewrite lookup_replace_key_ne by done.
    by rewrite <- own_property_name. }
  set (s' := if root then vmCount_incr ob s1 else s1) in *.
  assert (obj_at s' a = obj_at s4 a) as Hobj'.
  { rewrite <- Hobj1. unfold s'. by destruct root. }
  assert (o_kind (obj_at s4 a) = KArray) as Hkind4.
  { by rewrite (ev_kind _ _ _ Hev4), (ev_kind _ _ _ Hev3). }
  assert (o_elems (obj_at s4 a) = o_elems (obj_at s a)) as Hel4.
  { by rewrite (ev_elems _ _ _ Hev4), (ev_elems _ _ _ Hev3). }
  exists s'. split; [exact Hrun|]. rewrite Hobj'.
  split; [|split; [done|split; [done|split]]].
  - unfold augmented. rewrite Hobj'. unfold plain_read.
    rewrite own_property_name by done.
    destruct hasProto.
    + injection Haug as <-. rewrite obj_at_put_obj by done. simpl. by rewrite Hsp3.
    + destruct (copyAugment_obj a methodsToPatch s3 Hlt3) as (s4' & Hrun4 & _ & Hin & _).
      rewrite Haug in Hrun4. injection Hrun4 as <-.
      assert (Splice ∈ methodsToPatch) as Hmem by (unfold methodsToPatch; set_solver).
      pose proof (Hin Splice Hmem) as Hsp. simpl in Hsp. by rewrite Hsp.
  - intros i Hi. unfold own_property. by rewrite Hkind4, Hkind, Hi, Hel4.
  - intros Hproto. rewrite Hproto in Haug. injection Haug as <-.
    rewrite obj_at_put_obj by done. rewrite Hobj3. simpl. by rewrite Hkind, Hext.
Qed.

Lemma observe_array_witness :
  exists s',
    @observe dev_host 3 (VObject 1) false state_raw = Ok (Some (length (observers state_raw))) s' /\
    augmented s' 1 /\
    o_kind (obj_at s' 1) = KArray /\
    o_elems (obj_at s' 1) = o_elems (obj_at state_raw 1) /\
    (forall i, isValidArrayIndex (KIdx i) = true ->
       own_property (obj_at s' 1) (KIdx i) = own_property (obj_at state_raw 1) (KIdx i)) /\
    (@hasProto dev_host = true ->
     obj_at s' 1
     = mkObject KArray ProtoArrayMethods true
         (replace_key (KStr "__ob__")
            (PData (VObserver (length (observers state_raw))) true false true)
            (o_props (obj_at state_raw 1)))
         (o_elems (obj_at state_raw 1))).
Proof.
  apply (@observe_array dev_host 2 1 false state_raw).
  - unfold observable. split; [simpl; lia|]. split; [by right|].
    repeat split; try reflexivity. by exists VUndefined.
  - reflexivity.
  - reflexivity.
  - reflexivity.
  - vm_compute. lia.
Defined.

(* ===================================================================== *)
(** ** observe on a plain object: walk                                    *)
(* ===================================================================== *)

Lemma lookup_key_elem k p l : lookup_key k l = Some p -> k ∈ l.*1.
Proof.
  induction l as [|[k' p'] l IH]; [done|]. simpl.
  destruct (decide (k = k')) as [->|Hne]; [intros _; left|].
  intros Hl. right. by apply IH.
Qed.

#[global] Instance KIdx_inj : Inj (=) (=) KIdx.
Proof. by intros x y [= ->]. Qed.

Lemma NoDup_index_keys (l : list key) : NoDup l -> NoDup (omap is_index_key l).
Proof.
  induction 1 as [|k l Hk Hl IH]; simpl; [constructor|].
  destruct k as [n|]; simpl; [|done]. constructor; [|done].
  intros Hin. apply list_elem_of_omap in Hin as (k0 & Hk0 & Heq).
  destruct k0; [|done]. injection Heq as ->. done.
Qed.

(** [Object.keys] lists no key twice. *)
Lemma Object_keys_NoDup o : NoDup (Object_keys o).
Proof.
  unfold Object_keys.
  set (own := filter _ (remove_dups _)).
  assert (NoDup own) as Hown by apply NoDup_filter, NoDup_remove_dups.
  apply NoDup_app. split; [|split].
  - apply NoDup_fmap_2; [apply _|]. rewrite merge_sort_Permutation.
    by apply NoDup_index_keys.
  - intros k Hk Hk'. apply list_elem_of_fmap in Hk as (n & -> & _).
    by apply list_elem_of_filter in Hk' as [? _].
  - by apply NoDup_filter.
Qed.

(** [Object.keys] lists every own enumerable property. *)
Lemma Object_keys_complete o k :
  o_kind o <> KArray ->
  p_enumerable <$> own_property o k = Some true ->
  k ∈ Object_keys o.
Proof.
  intros Hkind Hen. unfold Object_keys.
  set (own := filter _ (remove_dups _)).
  assert (k ∈ own) as Hown.
  { apply list_elem_of_filter. split; [done|].
    apply elem_of_remove_dups, elem_of_app. right.
    rewrite own_property_not_array in Hen by done.
    destruct (lookup_key k (o_props o)) as [p|] eqn:Hp; [|done].
    by eapply lookup_key_elem. }
  apply elem_of_app. destruct k as [n|name].
  - left. apply list_elem_of_fmap. exists n. split; [done|].
    rewrite merge_sort_Permutation. apply list_elem_of_omap. by exists (KIdx n).
  - right. apply list_elem_of_filter. by split.
Qed.

(** An activation of [defineReactive] on an object that carries its marker,
    after the test of configurability: the value read, the call of
    [observe] on it and the new accessor are all there is. *)
Lemma defineReactive_tail `{Host} n rec a k dep g st (V : M value) ob s1 s' :
  observe_ok n rec ->
  marker (obj_at s1 a) = Some ob ->
  o_kind (obj_at s1 a) <> KArray ->
  (forall v s, V s1 = Ok v s -> s = s1) ->
  (v <- V ;;
   childOb <- rec v false ;;
   cell <- new_cell v childOb ;;
   let c := Closure cell a dep g st false None in
   defineProperty a k (PAccessor (Some (GReactive c)) (Some (SReactive c)) true true)) s1
  = Ok tt s' ->
  exists v childOb s2,
    V s1 = Ok v s1 /\
    rec v false s1 = Ok childOb s2 /\
    evolves None s1 s2 /\
    let c := Closure (length (cells s2)) a dep g st false None in
    let o := obj_at s1 a in
    s' = put_obj a
           (mkObject (o_kind o) (o_proto o) (o_extensible o)
              (replace_key k (PAccessor (Some (GReactive c)) (Some (SReactive c)) true true)
                 (o_props o))
              (o_elems o))
           (set_cells (cells s2 ++ [mkCell v childOb]) s2).
Proof.
  intros Hrec Hm Hkind HV Hrun.
  unfold bind at 1 in Hrun.
  destruct (V s1) as [v s1'| |] eqn:Hv; [|done..].
  pose proof (HV v s1' eq_refl) as ->.
  unfold bind at 1 in Hrun.
  pose proof (Hrec v false s1) as Hruns.
  destruct (rec v false s1) as [childOb s2| |] eqn:Hchild; [|done..].
  destruct Hruns as [Hev _].
  unfold bind at 1 in Hrun. unfold new_cell at 1 in Hrun.
  assert (obj_at s2 a = obj_at s1 a) as Hobj2.
  { apply (ev_marked _ _ _ Hev); [done|]. by rewrite Hm. }
  cbv zeta in Hrun. unfold defineProperty in Hrun.
  change (obj_at (set_cells (cells s2 ++ [mkCell v childOb]) s2) a) with (obj_at s2 a) in Hrun.
  rewrite Hobj2 in Hrun.
  destruct (match own_property (obj_at s1 a) k with
            | Some old => p_configurable old
            | None => o_extensible (obj_at s1 a)
            end); [|done].
  destruct (store_prop k _ (obj_at s1 a)) as [o'|] eqn:Hstore; [|done].
  apply store_prop_accessor in Hstore as ->. injection Hrun as <-.
  by exists v, childOb, s2.
Qed.

(** One call [defineReactive(obj, key)] of [walk] on an object that carries
    its marker, with no subscriber active: no other property of the object
    changes; a configurable data property becomes the accessor pair of the
    activation, which holds the value the property had; a property that is
    not configurable stays, and the object with it. *)
Lemma defineReactive_frame `{Host} fuel n rec a k ob s s' :
  observe_ok n rec ->
  active (target s) = None ->
  marker (obj_at s a) = Some ob ->
  o_kind (obj_at s a) <> KArray ->
  defineReactive_with fuel rec a k None None false s = Ok tt s' ->
  (forall k', k' <> k -> own_property (obj_at s' a) k' = own_property (obj_at s a) k') /\
  (forall v w e, own_property (obj_at s a) k = Some (PData v w e true) ->
     exists c, installed s' a k c /\ plain_closure c /\ c_val (cell_at s' (cl_cell c)) = v) /\
  (frozen_at (obj_at s a) k -> obj_at s' a = obj_at s a).
Proof.
  intros Hrec Hidle Hm Hkind Hrun.
  pose proof (marker_in_heap _ _ _ Hm) as Hlt.
  unfold defineReactive_with in Hrun. unfold bind at 1 in Hrun. unfold new_Dep at 1 in Hrun.
  set (s1 := set_deps (deps s ++ [[]]) s) in *.
  unfold bind at 1 in Hrun. unfold gets at 1 in Hrun.
  change (obj_at s1 a) with (obj_at s a) in Hrun.
  unfold frozen_at.
  destruct (own_property (obj_at s a) k) as [p|] eqn:Hp.
  - destruct (p_configurable p) eqn:Hconf; simpl negb in Hrun; cbv iota in Hrun.
    2: { injection Hrun as <-. split; [done|]. split; [|done].
         intros v w e [= ->]. done. }
    apply (defineReactive_tail n rec a k (uid s) _ _ _ ob s1 s' Hrec) in Hrun; [|done|done|].
    2: { intros v s0. destruct (negb _ || _); [|by intros [= _ <-]].
         by apply get_prop_idle. }
    destruct Hrun as (v & childOb & s2 & HV & Hchild & Hev & ->). cbv zeta.
    assert (a < length (heap (set_cells (cells s2 ++ [mkCell v childOb]) s2))) as Hlt3.
    { simpl. by rewrite (ev_heap _ _ _ Hev). }
    rewrite obj_at_put_obj by done.
    change (obj_at s1 a) with (obj_at s a) in *.
    split; [|split; [|done]].
    + intros k' Hne. rewrite !own_property_not_array by done. simpl.
      by apply lookup_replace_key_ne.
    + intros v0 w e [= ->]. simpl in HV.
      assert (plain_read (obj_at s1 a) k = Some v0) as Hread.
      { unfold plain_read. change (obj_at s1 a) with (obj_at s a). by rewrite Hp. }
      rewrite (plain_read_get_prop _ _ _ _ _ Hread) in HV. injection HV as <-.
      exists (Closure (length (cells s2)) a (uid s) None None false None).
      split; [|split].
      * split; [|split; [reflexivity|split]].
        -- rewrite obj_at_put_obj by done.
           rewrite own_property_not_array by done. simpl.
           apply lookup_replace_key_eq.
        -- simpl. pose proof (ev_deps_len _ _ _ Hev) as Hl. unfold s1 in Hl. simpl in Hl.
           rewrite length_app in Hl. simpl in Hl. unfold uid. lia.
        -- simpl. rewrite length_app. simpl. lia.
      * done.
      * simpl. unfold cell_at. simpl. by rewrite list_lookup_middle.
  - simpl in Hrun.
    apply (defineReactive_tail n rec a k (uid s) _ _ _ ob s1 s' Hrec) in Hrun; [|done|done|].
    2: { intros v s0. by apply get_prop_idle. }
    destruct Hrun as (v & childOb & s2 & HV & Hchild & Hev & ->). cbv zeta.
    assert (a < length (heap (set_cells (cells s2 ++ [mkCell v childOb]) s2))) as Hlt3.
    { simpl. by rewrite (ev_heap _ _ _ Hev). }
    rewrite obj_at_put_obj by done.
    change (obj_at s1 a) with (obj_at s a) in *.
    split; [|split; [done|done]].
    intros k' Hne. rewrite !own_property_not_array by done. simpl.
    by apply lookup_replace_key_ne.
Qed.

Lemma cell_at_prefix s s' i :
  cells s `prefix_of` cells s' -> i < length (cells s) -> cell_at s' i = cell_at s i.
Proof. intros Hpre Hlt. unfold cell_at. by rewrite <- (prefix_lookup_lt _ _ i Hlt Hpre). Qed.

Lemma installed_evolves x s s' a k c :
  evolves x s s' ->
  own_property (obj_at s' a) k = own_property (obj_at s a) k ->
  installed s a k c ->
  installed s' a k c /\ cell_at s' (cl_cell c) = cell_at s (cl_cell c).
Proof.
  intros Hev Hown (Hp & Hobj & Hdep & Hcell).
  pose proof (ev_deps_len _ _ _ Hev). pose proof (prefix_length _ _ (ev_cells _ _ _ Hev)).
  split.
  - split; [by rewrite Hown|]. split; [done|]. split; lia.
  - apply cell_at_prefix; [apply (ev_cells _ _ _ Hev)|done].
Qed.

(** The loop of [walk] over the keys of an object that carries its
    marker. *)
Lemma walk_loop `{Host} fuel n a ob keys s :
  active (target s) = None ->
  marker (obj_at s a) = Some ob ->
  o_kind (obj_at s a) <> KArray ->
  o_extensible (obj_at s a) = true ->
  NoDup keys ->
  KStr "__ob__" ∉ keys ->
  (forall k, k ∈ keys -> is_Some (own_property (obj_at s a) k)) ->
  unmarked s < n ->
  exists s',
    for_each keys (fun k => defineReactive_with fuel (observe n) a k None None false) s
    = Ok tt s' /\
    evolves (Some a) s s' /\
    observers_grow s s' /\
    (forall k, k ∉ keys -> own_property (obj_at s' a) k = own_property (obj_at s a) k) /\
    (forall k v w e, k ∈ keys -> own_property (obj_at s a) k = Some (PData v w e true) ->
       exists c, installed s' a k c /\ plain_closure c /\ c_val (cell_at s' (cl_cell c)) = v) /\
    (forall k, k ∈ keys -> frozen_at (obj_at s a) k ->
       own_property (obj_at s' a) k = own_property (obj_at s a) k).
Proof.
  revert s. induction keys as [|k keys IH]; intros s Hidle Hm Hkind Hext Hnd Hnm Hown Hfuel.
  - exists s. split; [done|]. split; [reflexivity|]. split; [reflexivity|].
    split; [done|]. split; by intros ? ? ? ? ?%elem_of_nil || by intros ? ?%elem_of_nil.
  - apply NoDup_cons in Hnd as [Hk Hnd].
    simpl. unfold bind.
    pose proof (runs_defineReactive fuel n (observe n) a k None None false s
                  (observe_observe_ok n)) as Hruns.
    destruct (defineReactive_with fuel (observe n) a k None None false s)
      as [[] s1| |] eqn:Hstep; simpl in Hruns.
    + destruct Hruns as [Hev1 _].
      { intros ->. apply Hnm. left. }
      { done. }
      { intros Harr. done. }
      { intros _. left. apply Hown. left. }
      destruct (defineReactive_frame fuel n (observe n) a k ob s s1
                  (observe_observe_ok n) Hidle Hm Hkind Hstep) as (Hf1 & Hf2 & Hf3).
      pose proof (og_defineReactive fuel (observe n) (og_observe n) a k None None false
                    s tt s1 Hstep) as Hog1.
      destruct (IH s1) as (s' & Hrun & Hev & Hog & H4 & H5 & H6).
      { by rewrite (ev_target _ _ _ Hev1). }
      { by apply (ev_marker _ _ _ Hev1). }
      { by rewrite (ev_kind _ _ _ Hev1). }
      { by rewrite (ev_extensible _ _ _ Hev1). }
      { done. }
      { intros Hin. apply Hnm. by right. }
      { intros k0 Hk0. apply (ev_own _ _ _ Hev1), Hown. by right. }
      { pose proof (evolves_unmarked _ _ _ Hev1). lia. }
      exists s'. split; [exact Hrun|]. split; [by etrans|]. split; [by etrans|].
      split; [|split].
      * intros k0 Hk0. apply not_elem_of_cons in Hk0 as [Hne Hk0].
        rewrite H4 by done. by apply Hf1.
      * intros k0 v w e Hk0 Hdata. apply elem_of_cons in Hk0 as [->|Hk0].
        -- destruct (Hf2 v w e Hdata) as (c & Hinst & Hplain & Hval).
           destruct (installed_evolves _ s1 s' a k c Hev (H4 k Hk) Hinst) as [Hinst' Hcell].
           exists c. split; [done|]. split; [done|]. by rewrite Hcell.
        -- apply (H5 k0 v w e Hk0). rewrite Hf1; [done|]. by intros ->.
      * intros k0 Hk0 Hfr. apply elem_of_cons in Hk0 as [->|Hk0].
        -- rewrite (H4 k Hk). by rewrite (Hf3 Hfr).
        -- assert (k0 <> k) as Hne by by intros ->.
           rewrite <- (Hf1 k0 Hne). apply H6; [done|].
           unfold frozen_at. by rewrite (Hf1 k0 Hne).
    + exfalso. apply Hruns; try done.
      * intros ->. apply Hnm. left.
      * intros _. left. apply Hown. left.
    + exfalso. assert (n <= unmarked s); [|lia]. apply Hruns; try done.
      * intros ->. apply Hnm. left.
      * intros _. left. apply Hown. left.
Qed.

Lemma current_value_plain `{Host} c s :
  cl_getter c = None -> current_value c (heap s) (cells s) = c_val (cell_at s (cl_cell c)).
Proof. destruct c as [cell obj dep g st sh cs]. simpl. by intros ->. Qed.

Lemma with_marker_own ob o k :
  o_kind o <> KArray -> k <> KStr "__ob__" ->
  own_property (with_marker ob o) k = own_property o k.
Proof.
  intros Hkind Hne. rewrite !own_property_not_array by done. simpl.
  by apply lookup_replace_key_ne.
Qed.

(** X11.  [observe] on an observable plain object, with no subscriber active:
    every own property that is an enumerable and configurable data
    property becomes the accessor pair of an activation of
    [defineReactive] that holds the value the property had, so that a read
    gives that value as before; an own property that is not enumerable or
    not configurable stays as it is, and no property is added but the
    marker. *)
Theorem observe_plain_object `{Host} (fuel : nat) (a : addr) (root : bool) (s : State) :
  observable s a ->
  o_kind (obj_at s a) = KPlain ->
  active (target s) = None ->
  unmarked s <= fuel ->
  exists s',
    observe (S fuel) (VObject a) root s = Ok (Some (length (observers s))) s' /\
    (forall k v w, own_property (obj_at s a) k = Some (PData v w true true) ->
       (exists c, installed s' a k c /\ plain_closure c /\
                  c_val (cell_at s' (cl_cell c)) = v) /\
       (forall fuel', get_prop fuel' (VObject a) k s' = Ok v s')) /\
    (forall k p, own_property (obj_at s a) k = Some p ->
       p_enumerable p = false \/ p_configurable p = false ->
       own_property (obj_at s' a) k = Some p) /\
    (forall k, k <> KStr "__ob__" -> own_property (obj_at s a) k = None ->
       own_property (obj_at s' a) k = None).
Proof.
  intros Hobs Hkind Hidle Hfuel.
  destruct (observe_fresh_ok fuel a root s Hobs Hidle Hfuel) as (s1 & Hrest & Hrun & Hev & Hog).
  pose proof (observable_unmarked s a Hobs) as Hm.
  destruct Hobs as (Hlt & _ & Hown & Hext & _).
  destruct (marked_state_facts a s Hlt Hm) as (Hev3 & Hm3 & Hhid & Hless).
  pose proof (marked_state_obj a s Hlt) as Hobj3.
  assert (o_kind (obj_at s a) <> KArray) as Hna by by rewrite Hkind.
  assert (isArray s (VObject a) = false) as Harr.
  { unfold isArray. by apply bool_decide_eq_false_2. }
  rewrite Harr in Hrest. unfold Observer_rest, walk_with in Hrest.
  unfold bind at 1 in Hrest. unfold gets at 1 in Hrest.
  set (ob := length (observers s)) in *.
  set (s3 := marked_state a s) in *.
  set (keys := Object_keys (obj_at s3 a)) in *.
  assert (o_kind (obj_at s3 a) <> KArray) as Hna3 by by rewrite (ev_kind _ _ _ Hev3).
  assert (forall k, k <> KStr "__ob__" ->
            own_property (obj_at s3 a) k = own_property (obj_at s a) k) as Hown3.
  { intros k Hne. rewrite Hobj3. by apply with_marker_own. }
  destruct (walk_loop fuel fuel a ob keys s3) as (s1' & Hrun1 & _ & _ & H4 & H5 & H6).
  { exact Hidle. }
  { exact Hm3. }
  { exact Hna3. }
  { by rewrite (ev_extensible _ _ _ Hev3). }
  { apply Object_keys_NoDup. }
  { by apply Object_keys_not_marker. }
  { intros k Hk%Object_keys_enumerable.
    by destruct (own_property (obj_at s3 a) k). }
  { lia. }
  rewrite Hrest in Hrun1. injection Hrun1 as <-.
  set (s' := if root then vmCount_incr ob s1 else s1) in *.
  assert (heap s' = heap s1 /\ cells s' = cells s1 /\ target s' = target s1 /\
          length (deps s') = length (deps s1)) as (Hh & Hc & Ht & Hd).
  { unfold s'. by destruct root. }
  assert (forall k, own_property (obj_at s' a) k = own_property (obj_at s1 a) k) as Hsame.
  { intros k. by rewrite (obj_at_heap s1 s' a Hh). }
  assert (forall k, own_property (obj_at s a) k <> None -> k <> KStr "__ob__") as Hnotm.
  { intros k Hk ->. unfold hasOwn in Hown.
    by destruct (own_property (obj_at s a) (KStr "__ob__")). }
  exists s'. split; [exact Hrun|]. split; [|split].
  - intros k v w Hdata.
    assert (k <> KStr "__ob__") as Hne by (apply Hnotm; by rewrite Hdata).
    assert (k ∈ keys) as Hk.
    { apply Object_keys_complete; [done|]. by rewrite Hown3, Hdata. }
    destruct (H5 k v w true Hk) as (c & (Hp & Hobj & Hdep & Hcell) & Hplain & Hval).
    { by rewrite Hown3. }
    assert (installed s' a k c) as Hinst.
    { split; [by rewrite Hsame|]. split; [done|]. split; [lia|]. by rewrite Hc. }
    assert (c_val (cell_at s' (cl_cell c)) = v) as Hval'.
    { unfold cell_at in *. by rewrite Hc. }
    split; [by exists c|].
    intros fuel'. rewrite (get_prop_installed fuel' a k c s' Hinst).
    rewrite reactiveGetter_idle.
    + rewrite current_value_plain by apply Hplain. by rewrite Hval'.
    + by rewrite Ht, (ev_target _ _ _ Hev).
  - intros k p Hp Hwhy.
    assert (k <> KStr "__ob__") as Hne by (apply Hnotm; by rewrite Hp).
    rewrite Hsame, <- Hp, <- (Hown3 k Hne).
    destruct (decide (k ∈ keys)) as [Hk|Hk]; [|by apply H4].
    apply H6; [done|]. unfold frozen_at. rewrite (Hown3 k Hne), Hp.
    destruct Hwhy as [Hen|Hconf]; [|done].
    apply Object_keys_enumerable in Hk. rewrite (Hown3 k Hne), Hp in Hk.
    simpl in Hk. congruence.
  - intros k Hne Hnone. rewrite Hsame, <- Hnone, <- (Hown3 k Hne).
    apply H4. intros Hk%Object_keys_enumerable.
    rewrite (Hown3 k Hne), Hnone in Hk. done.
Qed.

Lemma observe_plain_object_witness :
  exists s',
    @observe dev_host 3 (VObject 0) false state_raw = Ok (Some (length (observers state_raw))) s' /\
    (forall k v w, own_property (obj_at state_raw 0) k = Some (PData v w true true) ->
       (exists c, installed s' 0 k c /\ plain_closure c /\
                  c_val (cell_at s' (cl_cell c)) = v) /\
       (forall fuel', @get_prop dev_host fuel' (VObject 0) k s' = Ok v s')) /\
    (forall k p, own_property (obj_at state_raw 0) k = Some p ->
       p_enumerable p = false \/ p_configurable p = false ->
       own_property (obj_at s' 0) k = Some p) /\
    (forall k, k <> KStr "__ob__" -> own_property (obj_at state_raw 0) k = None ->
       own_property (obj_at s' 0) k = None).
Proof.
  apply (@observe_plain_object dev_host 2 0 false state_raw).
  - unfold observable. split; [simpl; lia|]. split; [by left|].
    repeat split; try reflexivity. by exists VUndefined.
  - reflexivity.
  - reflexivity.
  - vm_compute. lia.
Defined.

(** X8.  Observation switched off around a call, as [toggleObserving(false)],
    [observe(value)], [toggleObserving(true)]: an object without [__ob__]
    gets no Observer, and the state after the three calls is the state
    before them. *)
Theorem observe_toggled_off `{Host} (fuel : nat) (a : addr) (root : bool) (s : State) :
  hasOwn (obj_at s a) (KStr "__ob__") = false ->
  shouldObserve s = true ->
  (toggleObserving false ;;;
   ob <- observe (S fuel) (VObject a) root ;;
   toggleObserving true ;;;
   ret ob) s = Ok None s.
Proof.
  intros Hown Hon. unfold bind at 1. unfold toggleObserving at 1, modify at 1.
  set (s1 := mkState _ _ _ _ _ _ false _ _).
  assert (observe (S fuel) (VObject a) root s1 = Ok None s1) as Hoff.
  { rewrite observe_S. unfold observe_body. unfold bind at 1. unfold gets at 1.
    change (obj_at s1 a) with (obj_at s a).
    destruct (instanceof_VNode (obj_at s a)); [done|].
    rewrite Hown. unfold bind at 1. unfold bind at 1. unfold ret at 1.
    unfold bind at 1. unfold gets at 1. done. }
  unfold bind at 1. rewrite Hoff.
  unfold bind, toggleObserving, modify, ret. f_equal.
  unfold s1. simpl. rewrite <- Hon. apply state_eta.
Qed.

Lemma observe_toggled_off_witness :
  (toggleObserving false ;;;
   ob <- @observe dev_host 1 (VObject 0) false ;;
   toggleObserving true ;;;
   ret ob) state_raw = Ok None state_raw.
Proof. apply (@observe_toggled_off dev_host 0 0 false state_raw); reflexivity. Defined.

(* ===================================================================== *)
(** ** Writing a reactive property                                        *)
(* ===================================================================== *)

(** X12.  A reactive property made over an accessor that has a getter and no
    setter: a write stores nothing, observes nothing and notifies nobody,
    whatever the value; it leaves the line on the console and, in a build
    that is not the production build and for a value that is not the
    current one, the call of the customSetter. *)
Theorem write_getter_only `{Host} (fuel : nat) (c : closure) (f : nat)
    (newVal : value) (s : State) :
  cl_getter c = Some (GUser f) ->
  cl_setter c = None ->
  exists es,
    reactiveSetter fuel c newVal s = Ok tt (emit_all (EConsoleLog newVal :: es) s) /\
    updates es = [] /\
    (es = [] \/
     exists g, cl_customSetter c = Some g /\ production = false /\ es = [ECustomSetter g] /\
               same_value newVal (userGetter f (cl_obj c) (heap s) (cells s)) = false).
Proof.
  destruct c as [cell obj dep getter setter shallow customSetter]. simpl.
  intros -> ->. unfold bind at 1. unfold modify at 1.
  unfold bind at 1. simpl call_getter. unfold gets at 1.
  change (heap (emit (EConsoleLog newVal) s)) with (heap s).
  change (cells (emit (EConsoleLog newVal) s)) with (cells s).
  destruct (same_value newVal (userGetter f obj (heap s) (cells s))) eqn:Hsame.
  - exists []. split; [|split; [done|by left]].
    reflexivity.
  - unfold bind at 1. destruct customSetter as [g|].
    + destruct production eqn:Hprod; simpl.
      * exists []. split; [reflexivity|split; [done|by left]].
      * exists [ECustomSetter g]. split; [|split; [done|]].
        -- unfold modify, ret. f_equal. unfold emit_all, emit. simpl.
           by rewrite <- app_assoc.
        -- right. by exists g.
    + exists []. split; [reflexivity|split; [done|by left]].
Qed.

Lemma write_getter_only_witness :
  exists es,
    @reactiveSetter dev_host 0 (Closure 0 0 1 (Some (GUser 7)) None false (Some 9))
      (VString "x") state_observed
    = Ok tt (emit_all (EConsoleLog (VString "x") :: es) state_observed) /\
    updates es = [] /\
    (es = [] \/
     exists g, cl_customSetter (Closure 0 0 1 (Some (GUser 7)) None false (Some 9)) = Some g /\
               @production dev_host = false /\ es = [ECustomSetter g] /\
               same_value (VString "x")
                 (@userGetter dev_host 7 (cl_obj (Closure 0 0 1 (Some (GUser 7)) None false (Some 9)))
                    (heap state_observed) (cells state_observed)) = false).
Proof.
  apply (@write_getter_only dev_host 0 (Closure 0 0 1 (Some (GUser 7)) None false (Some 9)) 7
           (VString "x") state_observed); reflexivity.
Defined.

(** A write of a value that is not the current one to a property made by
    [walk] or [set] on an object that carries its marker, with no
    subscriber active: the result, up to what [observe] does with the
    value. *)
Lemma write_result `{Host} fuel a k c ob y s :
  installed s a k c ->
  plain_closure c ->
  marker (obj_at s a) = Some ob ->
  same_value y (c_val (cell_at s (cl_cell c))) = false ->
  active (target s) = None ->
  unmarked s < fuel ->
  let s1 := put_cell (cl_cell c) (mkCell y (c_childOb (cell_at s (cl_cell c))))
              (emit (EConsoleLog y) s) in
  exists childOb s2,
    observe fuel y false s1 = Ok childOb s2 /\
    evolves None s1 s2 /\
    put_prop fuel (VObject a) k y s
    = Ok tt (emit_all (EUpdate <$> delivery (subs_at s (cl_dep c)))
               (put_cell (cl_cell c) (mkCell y childOb) s2)).
Proof.
  intros Hinst Hplain Hm Hsame Hidle Hfuel s1.
  destruct c as [cell obj dep g st sh cs].
  destruct Hplain as (Hg & Hst & Hsh & Hcs). simpl in Hg, Hst, Hsh, Hcs. subst g st sh cs.
  assert (obj = a) as -> by apply Hinst.
  simpl in *.
  rewrite (write_steps fuel a k cell dep false y s Hinst Hsame).
  destruct Hinst as (Hown & _ & Hdep & Hcell). simpl in Hdep, Hcell.
  fold s1.
  pose proof (observe_observe_ok fuel y false s1) as Hruns.
  destruct (observe fuel y false s1) as [childOb s2|e|]; simpl in Hruns.
  - destruct Hruns as [Hev _]. exists childOb, s2. split; [done|]. split; [done|].
    assert (c_val (cell_at s2 cell) = y) as ->.
    { unfold cell_at.
      rewrite (prefix_lookup_Some (cells s1) (cells s2) cell
                 (mkCell y (c_childOb (cell_at s cell))));
        [done| |apply (ev_cells _ _ _ Hev)].
      unfold s1, put_cell. simpl. by rewrite list_lookup_insert_eq. }
    do 3 f_equal.
    destruct (ev_idle _ _ _ Hev Hidle) as [Hpre _].
    unfold subs_at. simpl. by rewrite (prefix_lookup_default _ _ dep Hpre Hdep).
  - exfalso. by apply Hruns.
  - exfalso. specialize (Hruns Hidle). rewrite (unmarked_heap s s1) in Hruns by done. lia.
Qed.

(** The property after such a write: the same activation, with the value
    in it. *)
Lemma write_result_installed x a k c ob s s1 s2 v :
  installed s a k c ->
  marker (obj_at s a) = Some ob ->
  heap s1 = heap s -> length (deps s1) = length (deps s) ->
  length (cells s1) = length (cells s) ->
  evolves None s1 s2 ->
  let s' := emit_all x (put_cell (cl_cell c) v s2) in
  installed s' a k c /\ cell_at s' (cl_cell c) = v.
Proof.
  intros (Hown & Hobj & Hdep & Hcell) Hm Hh Hd Hc Hev s'.
  assert (obj_at s2 a = obj_at s a) as Hobj2.
  { rewrite <- (obj_at_heap s s1 a) by done.
    apply (ev_marked _ _ _ Hev); [done|]. rewrite (obj_at_heap s s1 a) by done.
    by rewrite Hm. }
  pose proof (ev_deps_len _ _ _ Hev). pose proof (prefix_length _ _ (ev_cells _ _ _ Hev)).
  split.
  - split; [|split; [done|split]].
    + change (obj_at s' a) with (obj_at s2 a). by rewrite Hobj2.
    + change (deps s') with (deps s2). lia.
    + unfold s', put_cell. simpl. rewrite length_insert. lia.
  - change (cell_at s' (cl_cell c)) with (cell_at (put_cell (cl_cell c) v s2) (cl_cell c)).
    apply cell_at_put_cell. lia.
Qed.

(** X13.  Assigning to a property made by [walk] or [set] on an observed object,
    with no subscriber active.  A value that is not the current one is
    stored, a read gives it back, and [update] is called once on each of
    the subscribers of the Dep of the property, on nobody else; the
    property keeps its activation.  A value the setter takes to be the current one
    (strictly equal, or NaN over NaN) is not stored: the read gives the
    value there was, so that +0 written over -0 reads -0. *)
Theorem write_then_read `{Host} (fuel fuel' : nat) (a : addr) (k : key) (c : closure)
    (ob : nat) (y : value) (s : State) :
  installed s a k c ->
  plain_closure c ->
  marker (obj_at s a) = Some ob ->
  active (target s) = None ->
  unmarked s < fuel ->
  exists s',
    put_prop fuel (VObject a) k y s = Ok tt s' /\
    installed s' a k c /\
    (same_value y (c_val (cell_at s (cl_cell c))) = false ->
       get_prop fuel' (VObject a) k s' = Ok y s' /\
       exists us,
         us ≡ₚ subs_at s (cl_dep c) /\
         trace s' = trace s ++ EConsoleLog y :: (EUpdate <$> us)) /\
    (same_value y (c_val (cell_at s (cl_cell c))) = true ->
       get_prop fuel' (VObject a) k s' = Ok (c_val (cell_at s (cl_cell c))) s' /\
       trace s' = trace s ++ [EConsoleLog y]).
Proof.
  intros Hinst Hplain Hm Hidle Hfuel.
  destruct (same_value y (c_val (cell_at s (cl_cell c)))) eqn:Hsame.
  - exists (emit (EConsoleLog y) s).
    assert (installed (emit (EConsoleLog y) s) a k c) as Hinst' by done.
    split; [|split; [done|split; [done|]]].
    + destruct Hinst as (Hown & _). unfold put_prop, bind at 1, gets at 1. rewrite Hown.
      destruct c as [cell obj dep g st sh cs].
      destruct Hplain as (Hg & _). simpl in Hg. subst g. simpl in *.
      unfold bind at 1. unfold modify at 1. unfold bind at 1. unfold gets at 1.
      change (cell_at (emit (EConsoleLog y) s) cell) with (cell_at s cell).
      by rewrite Hsame.
    + intros _. split; [|done].
      rewrite (get_prop_installed fuel' a k c _ Hinst'), reactiveGetter_idle by done.
      by rewrite current_value_plain by apply Hplain.
  - destruct (write_result fuel a k c ob y s Hinst Hplain Hm Hsame Hidle Hfuel)
      as (childOb & s2 & Hobs & Hev & Hrun).
    eexists. split; [exact Hrun|].
    set (s1 := put_cell (cl_cell c) (mkCell y (c_childOb (cell_at s (cl_cell c))))
                 (emit (EConsoleLog y) s)) in *.
    assert (length (cells s1) = length (cells s)) as Hlen1.
    { unfold s1, put_cell. simpl. by rewrite length_insert. }
    destruct (write_result_installed (EUpdate <$> delivery (subs_at s (cl_dep c)))
                a k c ob s s1 s2 (mkCell y childOb) Hinst Hm eq_refl eq_refl Hlen1 Hev)
      as [Hinst' Hcell].
    split; [exact Hinst'|]. split; [|done]. intros _. split.
    + rewrite (get_prop_installed fuel' a k c _ Hinst'), reactiveGetter_idle.
      * rewrite current_value_plain by apply Hplain. by rewrite Hcell.
      * simpl. by rewrite (ev_target _ _ _ Hev).
    + exists (delivery (subs_at s (cl_dep c))). split; [apply delivery_perm|].
      simpl. rewrite (ev_trace _ _ _ Hev). simpl. by rewrite <- app_assoc.
Qed.

Lemma write_then_read_witness :
  exists s',
    @put_prop dev_host 1 (VObject 0) (KStr "a") (VString "z") state_observed_subs = Ok tt s' /\
    installed s' 0 (KStr "a") closure_a /\
    (same_value (VString "z") (c_val (cell_at state_observed_subs (cl_cell closure_a))) = false ->
       @get_prop dev_host 0 (VObject 0) (KStr "a") s' = Ok (VString "z") s' /\
       exists us,
         us ≡ₚ subs_at state_observed_subs (cl_dep closure_a) /\
         trace s' = trace state_observed_subs
                    ++ EConsoleLog (VString "z") :: (EUpdate <$> us)) /\
    (same_value (VString "z") (c_val (cell_at state_observed_subs (cl_cell closure_a))) = true ->
       @get_prop dev_host 0 (VObject 0) (KStr "a") s'
       = Ok (c_val (cell_at state_observed_subs (cl_cell closure_a))) s' /\
       trace s' = trace state_observed_subs ++ [EConsoleLog (VString "z")]).
Proof.
  apply (@write_then_read dev_host 1 0 0 (KStr "a") closure_a 0 (VString "z")
           state_observed_subs).
  - repeat split; vm_compute; lia.
  - by repeat split.
  - reflexivity.
  - reflexivity.
  - vm_compute. lia.
Defined.

(** [observe], not for root data, on an observable object with no
    subscriber active: the object ends up observed by the new Observer,
    and the run is one of those [observe] makes. *)
Lemma observe_fresh_observed `{Host} n a s :
  observable s a ->
  active (target s) = None ->
  unmarked s <= n ->
  exists s',
    observe (S n) (VObject a) false s = Ok (Some (length (observers s))) s' /\
    observed s' a (length (observers s)) /\
    evolves None s s'.
Proof.
  intros Hobs Hidle Hfuel.
  destruct (observe_fresh_ok n a false s Hobs Hidle Hfuel) as (s1 & _ & Hrun & Hev & Hog).
  pose proof (observable_unmarked s a Hobs) as Hm.
  destruct Hobs as (Hlt & Hkind & Hown & Hext & _).
  destruct (marked_state_facts a s Hlt Hm) as (Hev3 & Hm3 & Hhid & Hless).
  set (ob := length (observers s)) in *.
  set (s3 := marked_state a s) in *.
  assert (ob < length (observers s3)) as Hob3.
  { unfold s3, marked_state. simpl. rewrite length_app. simpl. unfold ob. lia. }
  assert (ob_at s1 ob = mkObserver a (length (deps s)) 0) as Hentry.
  { rewrite (ob_at_grow s3 s1 ob Hog Hob3). apply marked_state_ob_at. }
  exists s1. split; [exact Hrun|]. split.
  - split; [by apply (ev_marker _ _ _ Hev)|].
    split; [pose proof (prefix_length _ _ Hog); lia|].
    rewrite Hentry. simpl. split; [done|]. split.
    + pose proof (ev_deps_len _ _ _ Hev) as Hl. unfold s3, marked_state in Hl. simpl in Hl.
      rewrite length_app in Hl. simpl in Hl. lia.
    + by rewrite (ev_extensible _ _ _ Hev), (ev_extensible _ _ _ Hev3).
  - eapply evolves_upgrade; [|exact Hm]. by etrans.
Qed.

(** X14.  Assigning an observable object to such a property: the object gets an
    Observer, the next in the table, and the property holds the object and
    refers to that Observer as the one of its value. *)
Theorem write_observes_value `{Host} (fuel : nat) (a : addr) (k : key) (c : closure)
    (ob : nat) (b : addr) (s : State) :
  installed s a k c ->
  plain_closure c ->
  marker (obj_at s a) = Some ob ->
  observable s b ->
  same_value (VObject b) (c_val (cell_at s (cl_cell c))) = false ->
  active (target s) = None ->
  unmarked s < fuel ->
  exists s',
    put_prop fuel (VObject a) k (VObject b) s = Ok tt s' /\
    cell_at s' (cl_cell c) = mkCell (VObject b) (Some (length (observers s))) /\
    observed s' b (length (observers s)) /\
    installed s' a k c.
Proof.
  intros Hinst Hplain Hm Hobs Hsame Hidle Hfuel.
  destruct (write_result fuel a k c ob (VObject b) s Hinst Hplain Hm Hsame Hidle Hfuel)
    as (childOb & s2 & Hrun2 & Hev & Hrun).
  set (s1 := put_cell (cl_cell c) (mkCell (VObject b) (c_childOb (cell_at s (cl_cell c))))
               (emit (EConsoleLog (VObject b)) s)) in *.
  assert (length (cells s1) = length (cells s)) as Hlen1.
  { unfold s1, put_cell. simpl. by rewrite length_insert. }
  destruct fuel as [|n]; [lia|].
  destruct (observe_fresh_observed n b s1) as (s2' & Hrun2' & Hobd & _).
  { exact Hobs. }
  { exact Hidle. }
  { rewrite (unmarked_heap s s1) by done. lia. }
  rewrite Hrun2 in Hrun2'. injection Hrun2' as -> <-.
  change (length (observers s1)) with (length (observers s)) in *.
  destruct (write_result_installed (EUpdate <$> delivery (subs_at s (cl_dep c)))
              a k c ob s s1 s2 (mkCell (VObject b) (Some (length (observers s))))
              Hinst Hm eq_refl eq_refl Hlen1 Hev) as [Hinst' Hcell].
  eexists. split; [exact Hrun|]. split; [exact Hcell|]. split; [|exact Hinst'].
  exact Hobd.
Qed.

Lemma write_observes_value_witness :
  exists s',
    @put_prop dev_host 2 (VObject 0) (KStr "a") (VObject 2)
      (set_heap (heap state_observed ++ [plain_obj]) state_observed) = Ok tt s' /\
    cell_at s' (cl_cell closure_a)
    = mkCell (VObject 2)
        (Some (length (observers (set_heap (heap state_observed ++ [plain_obj]) state_observed)))) /\
    observed s' 2 (length (observers (set_heap (heap state_observed ++ [plain_obj]) state_observed))) /\
    installed s' 0 (KStr "a") closure_a.
Proof.
  apply (@write_observes_value dev_host 2 0 (KStr "a") closure_a 0 2
           (set_heap (heap state_observed ++ [plain_obj]) state_observed)).
  - repeat split; vm_compute; lia.
  - by repeat split.
  - reflexivity.
  - unfold observable. split; [vm_compute; lia|]. split; [by left|].
    repeat split; try reflexivity. by exists VUndefined.
  - reflexivity.
  - reflexivity.
  - vm_compute. lia.
Defined.

(* ===================================================================== *)
(** ** set and del: the other branches                                    *)
(* ===================================================================== *)




Lemma replace_key_absent k p l : lookup_key k l = None -> replace_key k p l = l ++ [(k, p)].
Proof.
  induction l as [|[k' p'] l IH]; [done|]. simpl.
  destruct (decide (k = k')); [done|]. intros Hl. by rewrite IH.
Qed.

(** X16.  [set] with a new key on an object that has no Observer and is no
    framework-root instance is the plain assignment: the key becomes an
    ordinary data property, writable, enumerable and configurable, put
    after the others; no Dep is made and nobody is notified.  On an object
    that is not extensible the assignment fails with a TypeError. *)
Theorem set_plain_target `{Host} (fuel : nat) (a : addr) (k : key)
    (val ob isVue : value) (s : State) :
  o_kind (obj_at s a) <> KArray ->
  has_property (obj_at s a) k = false ->
  k <> KStr "__proto__" ->
  plain_read (obj_at s a) (KStr "__ob__") = Some ob ->
  truthy ob = false ->
  plain_read (obj_at s a) (KStr "_isVue") = Some isVue ->
  truthy isVue = false ->
  (o_extensible (obj_at s a) = true ->
   set fuel (VObject a) k val s
   = Ok val (put_obj a (mkObject (o_kind (obj_at s a)) (o_proto (obj_at s a)) true
                          (o_props (obj_at s a) ++ [(k, PData val true true true)])
                          (o_elems (obj_at s a))) s)) /\
  (o_extensible (obj_at s a) = false -> set fuel (VObject a) k val s = Throw TypeError).
Proof.
  intros Hkind Hhas Hk Hob Hfalsy HisVue Hv.
  assert (own_property (obj_at s a) k = None) as Hown.
  { unfold has_property, hasOwn in Hhas. by destruct (own_property (obj_at s a) k). }
  assert (set fuel (VObject a) k val s = (put_prop fuel (VObject a) k val ;;; ret val) s)
    as ->.
  { unfold set. unfold bind at 1. simpl (negb production && _). rewrite andb_false_r.
    unfold ret at 1. unfold bind at 1. unfold gets at 1.
    assert (isArray s (VObject a) = false) as ->.
    { unfold isArray. by apply bool_decide_eq_false_2. }
    simpl (false && _). cbv iota.
    unfold bind at 1. unfold key_in, gets at 1. rewrite Hhas. simpl (false && _). cbv iota.
    unfold bind at 1. rewrite (plain_read_get_prop _ _ _ _ _ Hob).
    unfold bind at 1. rewrite (plain_read_get_prop _ _ _ _ _ HisVue).
    unfold bind at 1. rewrite Hv. rewrite ob_vmCount_falsy by done.
    by rewrite Hfalsy. }
  unfold put_prop, bind, gets. rewrite Hown.
  rewrite bool_decide_eq_false_2 by done.
  split; intros Hext; rewrite Hext; [|done].
  unfold store_prop.
  assert (bool_decide (o_kind (obj_at s a) = KArray) = false) as ->
    by by apply bool_decide_eq_false_2.
  rewrite own_property_not_array in Hown by done.
  simpl. rewrite Hext, (replace_key_absent _ _ _ Hown). reflexivity.
Qed.

Lemma set_plain_target_witness :
  (o_extensible (obj_at state_raw 0) = true ->
   @set dev_host 0 (VObject 0) (KStr "c") (VString "v") state_raw
   = Ok (VString "v")
        (put_obj 0 (mkObject (o_kind (obj_at state_raw 0)) (o_proto (obj_at state_raw 0)) true
                      (o_props (obj_at state_raw 0) ++ [(KStr "c", PData (VString "v") true true true)])
                      (o_elems (obj_at state_raw 0))) state_raw)) /\
  (o_extensible (obj_at state_raw 0) = false ->
   @set dev_host 0 (VObject 0) (KStr "c") (VString "v") state_raw = Throw TypeError).
Proof.
  apply (@set_plain_target dev_host 0 0 (KStr "c") (VString "v") VUndefined VUndefined state_raw);
    done.
Defined.

(** X17.  On [undefined], [null] and primitive values.  [set] fails with a
    TypeError at [key in target]; [del] fails with one on [undefined] and
    [null], at [target.__ob__], and on a boolean or a number it finds no
    own property and returns, after the warning of a build that warns. *)
Theorem set_del_not_an_object `{Host} (fuel : nat) (target : value) (k : key)
    (val : value) (s : State) :
  (isUndef target || isPrimitive target = true -> set fuel target k val s = Throw TypeError) /\
  (isUndef target = true -> del fuel target k s = Throw TypeError) /\
  ((exists b, target = VBool b) \/ (exists f, target = VNumber f) ->
   del fuel target k s = Ok tt (warned WarnDelPrimitive s)).
Proof.
  split; [|split].
  - intros Ht. unfold set. rewrite Ht, andb_true_r.
    destruct target; try done; unfold bind, warn, modify, ret; by destruct production.
  - intros Ht. unfold del. rewrite Ht. simpl (true || _). rewrite andb_true_r.
    destruct target; try done; unfold bind, warn, modify, ret; by destruct production.
  - intros [[b ->]|[f ->]]; unfold del, warned; simpl;
      unfold bind, warn, modify, ret; by destruct production.
Qed.

(** X18.  [del] on a target whose Observer counts at least one root use, or that
    is a framework-root instance: nothing is deleted and nobody is
    notified, also when the key is an own property; only the warning of a
    build that warns is sent. *)
Theorem del_refuses_on_root `{Host} (fuel : nat) (a : addr) (k : key)
    (ob isVue : value) (s : State) :
  isArray s (VObject a) && isValidArrayIndex k = false ->
  plain_read (obj_at s a) (KStr "__ob__") = Some ob ->
  plain_read (obj_at s a) (KStr "_isVue") = Some isVue ->
  (truthy isVue = true \/ exists i, ob = VObserver i /\ vmCount (ob_at s i) <> 0) ->
  del fuel (VObject a) k s = Ok tt (warned WarnDelRoot s) /\
  obj_at (warned WarnDelRoot s) a = obj_at s a /\
  updates (trace (warned WarnDelRoot s)) = updates (trace s).
Proof.
  intros Harr Hob HisVue Hroot. split; [|split].
  - unfold del. unfold bind at 1. simpl (negb production && _). rewrite andb_false_r.
    unfold ret at 1. unfold bind at 1. unfold gets at 1. rewrite Harr.
    unfold bind at 1. rewrite (plain_read_get_prop _ _ _ _ _ Hob).
    unfold bind at 1. rewrite (plain_read_get_prop _ _ _ _ _ HisVue).
    unfold bind at 1.
    assert ((if truthy isVue then ret true else ob_vmCount fuel ob) s = Ok true s) as ->.
    { destruct Hroot as [->|(i & -> & Hcount)]; [done|].
      destruct (truthy isVue); [done|]. rewrite ob_vmCount_Observer.
      by destruct (vmCount (ob_at s i)). }
    unfold warned, warn, modify, ret. by destruct production.
  - unfold warned. by destruct production.
  - apply updates_warned.
Qed.

Lemma del_refuses_on_root_witness :
  @del dev_host 0 (VObject 0) (KStr "a") state_root = Ok tt (@warned dev_host WarnDelRoot state_root) /\
  obj_at (@warned dev_host WarnDelRoot state_root) 0 = obj_at state_root 0 /\
  updates (trace (@warned dev_host WarnDelRoot state_root)) = updates (trace state_root).
Proof.
  apply (@del_refuses_on_root dev_host 0 0 (KStr "a") (VObserver 0) VUndefined state_root).
  - reflexivity.
  - reflexivity.
  - reflexivity.
  - right. exists 0. split; [reflexivity|]. vm_compute. lia.
Defined.

(* ===================================================================== *)
(** ** set and del on the slots of an observed array                      *)
(* ===================================================================== *)

Lemma put_elems_obj_ne a b l s : a <> b -> obj_at (put_elems a l s) b = obj_at s b.
Proof. intros Hne. unfold put_elems. by apply obj_at_put_obj_ne. Qed.

(** X19.  [del(arr, i)] on an observed array, root data or not: the slot is
    taken out by the wrapped [splice], the slots after it move down by one
    (nothing goes when [i] is not below the length), and in both cases
    [update] is called once on each of the subscribers of the Dep of the
    Observer, and nothing else is sent. *)
Theorem del_array_index `{Host} (fuel : nat) (a : addr) (i : nat) (ob : nat) (s : State) :
  o_kind (obj_at s a) = KArray ->
  observed s a ob ->
  augmented s a ->
  isValidArrayIndex (KIdx i) = true ->
  exists us,
    us ≡ₚ subs_at s (ob_dep (ob_at s ob)) /\
    del fuel (VObject a) (KIdx i) s
    = Ok tt (emit_all (EUpdate <$> us)
               (put_elems a (take i (o_elems (obj_at s a)) ++ drop (S i) (o_elems (obj_at s a)))
                  s)).
Proof.
  intros Hkind (Hm & Hob & Hval & Hdep & Hext) Haug Hvalid.
  exists (delivery (subs_at s (ob_dep (ob_at s ob)))). split; [apply delivery_perm|].
  pose proof (marker_in_heap _ _ _ Hm) as Hlt.
  unfold del. unfold bind at 1. simpl (negb production && _). rewrite andb_false_r.
  unfold ret at 1. unfold bind at 1. unfold gets at 1.
  assert (isArray s (VObject a) = true) as ->.
  { unfold isArray. by apply bool_decide_eq_true_2. }
  rewrite Hvalid. simpl (true && true). cbv iota beta.
  unfold bind at 1. unfold call_splice. unfold bind at 1.
  rewrite (plain_read_get_prop _ _ _ _ _ Haug).
  unfold mutator_splice. unfold bind at 1.
  set (l := o_elems (obj_at s a)).
  set (s1 := put_elems a (take i l ++ drop (S i) l) s).
  assert (exists removed, Array_splice a i 1 [] s = Ok removed s1) as [removed ->].
  { unfold Array_splice. fold l. rewrite Hext. simpl (negb true && _). cbv iota.
    eexists. f_equal. unfold s1. f_equal. rewrite fmap_nil, app_nil_l.
    destruct (decide (i < length l)) as [Hi|Hi].
    - rewrite (Nat.min_l i) by lia. rewrite (Nat.min_l 1) by lia. by rewrite Nat.add_1_r.
    - rewrite (Nat.min_r i) by lia. rewrite Nat.sub_diag, (Nat.min_r 1) by lia.
      rewrite Nat.add_0_r.
      rewrite (take_ge l (length l)) by done. rewrite (drop_ge l (length l)) by done.
      rewrite (take_ge l i) by lia. by rewrite (drop_ge l (S i)) by lia. }
  assert (plain_read (obj_at s1 a) (KStr "__ob__") = Some (VObserver ob)) as Hread.
  { unfold s1. rewrite obj_at_put_elems by done. rewrite plain_read_elems by done.
    by apply marker_plain_read. }
  unfold bind at 1. rewrite (plain_read_get_prop _ _ _ _ _ Hread).
  unfold bind at 1. unfold observer_of, ret at 1.
  unfold bind at 1. simpl (length []).
  unfold observeArray, observeArray_with. simpl for_loop. unfold ret at 1.
  unfold bind at 1. unfold gets at 1.
  unfold bind at 1. rewrite notify_eq. reflexivity.
Qed.

Lemma del_array_index_witness :
  exists us,
    us ≡ₚ subs_at state_array_subs (ob_dep (ob_at state_array_subs 1)) /\
    @del dev_host 0 (VObject 1) (KIdx 0) state_array_subs
    = Ok tt (emit_all (EUpdate <$> us)
               (put_elems 1 (take 0 (o_elems (obj_at state_array_subs 1))
                             ++ drop 1 (o_elems (obj_at state_array_subs 1)))
                  state_array_subs)).
Proof.
  apply (@del_array_index dev_host 0 1 0 1 state_array_subs).
  - reflexivity.
  - repeat split; vm_compute; lia.
  - reflexivity.
  - reflexivity.
Defined.

Lemma put_elems_same a s : a < length (heap s) -> put_elems a (o_elems (obj_at s a)) s = s.
Proof.
  intros Hlt. unfold put_elems, put_obj.
  destruct (lookup_lt_is_Some_2 (heap s) a Hlt) as [o Ho].
  unfold obj_at. rewrite Ho. simpl. destruct o. simpl.
  rewrite list_insert_id by done. by destruct s.
Qed.

(** Up to the call of [observeArray], [set] on a slot below the length of
    an observed array is fixed: the value is put in the slot. *)
Lemma set_array_replace_steps `{Host} fuel a i val ob s :
  o_kind (obj_at s a) = KArray ->
  observed s a ob ->
  augmented s a ->
  isValidArrayIndex (KIdx i) = true ->
  i < length (o_elems (obj_at s a)) ->
  let s1 := put_elems a (<[i := Some val]> (o_elems (obj_at s a))) s in
  set fuel (VObject a) (KIdx i) val s =
  match observeArray fuel 1 (fun j => ret (nth j [val] VUndefined)) s1 with
  | Ok _ s2 =>
      Ok val (emit_all (EUpdate <$> delivery (subs_at s2 (ob_dep (ob_at s2 ob)))) s2)
  | Throw e => Throw e
  | OutOfFuel => OutOfFuel
  end.
Proof.
  intros Hkind (Hm & Hob & Hval & Hdep & Hext) Haug Hvalid Hlen s1.
  pose proof (marker_in_heap _ _ _ Hm) as Hlt.
  unfold set. unfold bind at 1. simpl (negb production && _). rewrite andb_false_r.
  unfold ret at 1. unfold bind at 1. unfold gets at 1.
  assert (isArray s (VObject a) = true) as Harr.
  { unfold isArray. by apply bool_decide_eq_true_2. }
  rewrite Harr, Hvalid. simpl (true && true). cbv iota beta.
  unfold bind at 1. unfold gets at 1. simpl (array_length s (VObject a)).
  rewrite Nat.max_l by lia.
  unfold bind at 1. unfold set_length at 1, modify at 1.
  set (l := o_elems (obj_at s a)) in *.
  rewrite firstn_all, Nat.sub_diag. simpl (replicate 0 None). rewrite app_nil_r.
  unfold l at 1. rewrite put_elems_same by done.
  unfold bind at 1. unfold call_splice at 1. unfold bind at 1.
  rewrite (plain_read_get_prop _ _ _ _ _ Haug).
  unfold mutator_splice. unfold bind at 1.
  assert (exists removed, Array_splice a i 1 [val] s = Ok removed s1) as [removed ->].
  { unfold Array_splice. fold l. rewrite Hext. simpl (negb true && _). cbv iota.
    eexists. f_equal. unfold s1. f_equal.
    rewrite (Nat.min_l i) by lia. rewrite (Nat.min_l 1) by lia.
    rewrite Nat.add_1_r. symmetry. apply insert_take_drop. done. }
  assert (plain_read (obj_at s1 a) (KStr "__ob__") = Some (VObserver ob)) as Hread.
  { unfold s1. rewrite obj_at_put_elems by done. rewrite plain_read_elems by done.
    by apply marker_plain_read. }
  unfold bind at 1. rewrite (plain_read_get_prop _ _ _ _ _ Hread).
  unfold bind at 1. unfold observer_of, ret at 1.
  unfold bind at 1. change (length [val]) with 1.
  destruct (observeArray fuel 1 _ s1) as [[] s2| |]; [|done..].
  unfold bind at 1. unfold gets at 1.
  unfold bind at 1. rewrite notify_eq. reflexivity.
Qed.

Lemma observeArray_one `{Host} fuel val s :
  observeArray fuel 1 (fun j => ret (nth j [val] VUndefined)) s
  = match observe fuel val false s with
    | Ok _ s' => Ok tt s'
    | Throw e => Throw e
    | OutOfFuel => OutOfFuel
    end.
Proof.
  unfold observeArray, observeArray_with. simpl. unfold bind, ret.
  by destruct (observe fuel val false s).
Qed.

(** X20.  [set(arr, i, x)] on an observed array, for any valid index, with no
    subscriber active: the slots of the array become what the assignment
    [arr[i] = x] would make them (the other slots stay, and holes fill the
    gap when [i] is past the end), [x] is returned, [update] is called
    once on each of the subscribers of the Dep of the Observer and nothing
    else is sent, and an observable object put in the slot gets its
    Observer. *)
Theorem set_array_slot `{Host} (fuel : nat) (a : addr) (i : nat) (val : value)
    (ob : nat) (s : State) :
  o_kind (obj_at s a) = KArray ->
  observed s a ob ->
  augmented s a ->
  isValidArrayIndex (KIdx i) = true ->
  active (target s) = None ->
  unmarked s < fuel ->
  exists s',
    set fuel (VObject a) (KIdx i) val s = Ok val s' /\
    o_elems (obj_at s' a) = store_slot i (Some val) (o_elems (obj_at s a)) /\
    (exists us,
       us ≡ₚ subs_at s (ob_dep (ob_at s ob)) /\
       trace s' = trace s ++ (EUpdate <$> us)) /\
    (forall b, val = VObject b -> observable s b -> observed s' b (length (observers s))).
Proof.
  intros Hkind Hobs Haug Hvalid Hidle Hfuel.
  set (l := o_elems (obj_at s a)).
  set (s1 := put_elems a (store_slot i (Some val) l) s).
  assert (set fuel (VObject a) (KIdx i) val s =
          match observe fuel val false s1 with
          | Ok _ s2 =>
              Ok val (emit_all (EUpdate <$> delivery (subs_at s2 (ob_dep (ob_at s2 ob)))) s2)
          | Throw e => Throw e
          | OutOfFuel => OutOfFuel
          end) as ->.
  { unfold s1, store_slot. case_bool_decide as Hi.
    - rewrite (set_array_replace_steps fuel a i val ob s) by done.
      rewrite observeArray_one. by destruct (observe fuel val false _).
    - rewrite (set_array_steps fuel a i val ob s) by (done || (fold l; lia)).
      rewrite observeArray_one. by destruct (observe fuel val false _). }
  destruct Hobs as (Hm & Hob & Hval & Hdep & Hext).
  pose proof (marker_in_heap _ _ _ Hm) as Hlt.
  pose proof (observe_observe_ok fuel val false s1) as Hruns.
  assert (unmarked s1 <= unmarked s) as Hun by apply unmarked_put_elems.
  destruct (observe fuel val false s1) as [r s2|e|] eqn:Hobserve; simpl in Hruns.
  2: { exfalso. by apply Hruns. }
  2: { exfalso. specialize (Hruns Hidle). lia. }
  destruct Hruns as [Hev _].
  destruct (ev_observers _ _ _ Hev ob Hob) as [_ Hd].
  change (ob_dep (ob_at s1 ob)) with (ob_dep (ob_at s ob)) in Hd.
  eexists. split; [reflexivity|]. split; [|split].
  - change (obj_at (emit_all _ s2) a) with (obj_at s2 a).
    rewrite (ev_elems _ _ _ Hev). unfold s1. by rewrite obj_at_put_elems.
  - exists (delivery (subs_at s (ob_dep (ob_at s ob)))). split; [apply delivery_perm|].
    simpl. rewrite (ev_trace _ _ _ Hev), Hd. simpl. do 3 f_equal.
    destruct (ev_idle _ _ _ Hev Hidle) as [Hpre _].
    unfold subs_at. by rewrite (prefix_lookup_default _ _ _ Hpre Hdep).
  - intros b -> Hb.
    assert (a <> b) as Hne.
    { intros <-. apply observable_unmarked in Hb. congruence. }
    destruct fuel as [|n]; [lia|].
    destruct (observe_fresh_observed n b s1) as (s2' & Hrun' & Hobd & _).
    { destruct Hb as (Hb1 & Hb2 & Hb3 & Hb4 & Hb5).
      unfold observable, s1. rewrite put_elems_obj_ne by done.
      split; [|done]. unfold put_elems, put_obj. simpl. by rewrite length_insert. }
    { exact Hidle. }
    { lia. }
    rewrite Hobserve in Hrun'. injection Hrun' as _ <-. exact Hobd.
Qed.

Lemma set_array_slot_witness :
  exists s',
    @set dev_host 1 (VObject 1) (KIdx 0) (VString "y") state_array_subs = Ok (VString "y") s' /\
    o_elems (obj_at s' 1)
    = store_slot 0 (Some (VString "y")) (o_elems (obj_at state_array_subs 1)) /\
    (exists us,
       us ≡ₚ subs_at state_array_subs (ob_dep (ob_at state_array_subs 1)) /\
       trace s' = trace state_array_subs ++ (EUpdate <$> us)) /\
    (forall b, VString "y" = VObject b -> @observable dev_host state_array_subs b ->
               observed s' b (length (observers state_array_subs))).
Proof.
  apply (@set_array_slot dev_host 1 1 0 (VString "y") 1 state_array_subs).
  - reflexivity.
  - repeat split; vm_compute; lia.
  - reflexivity.
  - reflexivity.
  - reflexivity.
  - vm_compute. lia.
Defined.

(* ===================================================================== *)
(** ** Reads by a subscriber: the Observer of the value, the items        *)
(* ===================================================================== *)

Lemma depend_total d s : exists s', depend d s = Ok tt s'.
Proof.
  unfold depend, bind, gets. destruct (active (target s)) as [w|]; [|by eexists].
  unfold Watcher_addDep, bind, gets, modify. case_bool_decide; by eexists.
Qed.

Lemma depend_records d w s s' :
  target s = TWatcher w ->
  depend d s = Ok tt s' ->
  registers s s' /\ d ∈ recorded s' w.
Proof.
  intros Ht Hrun. split; [by eapply depend_registers|].
  unfold depend, bind, gets in Hrun. rewrite Ht in Hrun. simpl in Hrun.
  unfold Watcher_addDep, bind, gets, modify in Hrun.
  case_bool_decide as Hseen.
  - by injection Hrun as <-.
  - injection Hrun as <-. unfold recorded. simpl. rewrite lookup_insert_eq. simpl.
    apply elem_of_app. right. by left.
Qed.

Lemma recorded_registers s s' w d : registers s s' -> d ∈ recorded s w -> d ∈ recorded s' w.
Proof. intros Hreg Hin. eapply elem_of_prefix; [done|]. apply (reg_recorded _ _ Hreg). Qed.

(** X21.  The read, by subscriber [w], of a reactive property whose value has an
    Observer: besides the Dep of the property, the Dep of that Observer is
    recorded with [w], and [w] is among its subscribers if it had not
    recorded it before; nothing but registrations changes.  When the value
    is no array the read returns. *)
Theorem read_registers_child `{Host} (fuel : nat) (a : addr) (k : key) (c : closure)
    (w : Watcher) (ob : nat) (s : State) :
  installed s a k c ->
  cl_getter c = None ->
  target s = TWatcher w ->
  c_childOb (cell_at s (cl_cell c)) = Some ob ->
  (forall v s',
     get_prop fuel (VObject a) k s = Ok v s' ->
     v = c_val (cell_at s (cl_cell c)) /\
     registers s s' /\
     cl_dep c ∈ recorded s' w /\
     ob_dep (ob_at s ob) ∈ recorded s' w /\
     (ob_dep (ob_at s ob) ∉ recorded s w -> ob_dep (ob_at s ob) < length (deps s) ->
      w ∈ subs_at s' (ob_dep (ob_at s ob)))) /\
  (isArray s (c_val (cell_at s (cl_cell c))) = false ->
   exists s', get_prop fuel (VObject a) k s = Ok (c_val (cell_at s (cl_cell c))) s').
Proof.
  intros Hinst Hg Ht Hchild.
  rewrite (get_prop_installed fuel a k c s Hinst).
  destruct c as [cell obj dep getter setter shallow customSetter]. simpl in *. subst getter.
  split.
  - intros v s' Hrun.
    pose proof (call_getter_registers (dependArray fuel)
                  (GReactive (Closure cell obj dep None setter shallow customSetter)) 0
                  (dependArray_registers fuel) s v s' Hrun) as Hreg.
    apply bind_Ok in Hrun as (value & s1 & [= <- <-] & Hrest).
    apply bind_Ok in Hrest as (t & s2 & [= <- <-] & Hrest).
    rewrite Ht in Hrest. simpl in Hrest.
    apply bind_Ok in Hrest as ([] & s3 & Hdep & [= <- <-]).
    apply bind_Ok in Hdep as ([] & s4 & Hadd & Hrest).
    destruct (depend_records dep w s s4 Ht Hadd) as [Hreg4 Hin4].
    apply bind_Ok in Hrest as (childOb & s5 & [= <- <-] & Hrest).
    unfold cell_at in Hrest. rewrite (reg_cells _ _ Hreg4) in Hrest.
    fold (cell_at s cell) in Hrest. rewrite Hchild in Hrest.
    apply bind_Ok in Hrest as (d & s6 & [= <- <-] & Hrest).
    unfold ob_at in Hrest. rewrite (reg_observers _ _ Hreg4) in Hrest.
    fold (ob_at s ob) in Hrest.
    apply bind_Ok in Hrest as ([] & s7 & Hadd2 & Hrest).
    destruct (depend_records (ob_dep (ob_at s ob)) w s4 s7) as [Hreg7 Hin7]; [|done|].
    { by rewrite (reg_target _ _ Hreg4). }
    assert (registers s7 s3) as Hreg3.
    { apply bind_Ok in Hrest as (is_arr & s8 & [= <- <-] & Hrest).
      destruct (isArray s7 (c_val (cell_at s cell))).
      - by eapply dependArray_registers.
      - by injection Hrest as <-. }
    split; [done|]. split; [done|].
    split; [apply (recorded_registers s7 s3), (recorded_registers s4 s7); done|].
    split; [by apply (recorded_registers s7 s3)|].
    intros Hnot Hlt. apply (reg_new _ _ Hreg w (ob_dep (ob_at s ob))); [|done|done].
    by apply (recorded_registers s7 s3).
  - intros Harr. unfold bind at 1. unfold gets at 1.
    unfold bind at 1. unfold gets at 1. rewrite Ht. simpl active. cbv iota.
    unfold bind at 1. unfold bind at 1.
    destruct (depend_total dep s) as [s4 Hadd]. rewrite Hadd.
    destruct (depend_records dep w s s4 Ht Hadd) as [Hreg4 _].
    unfold bind at 1. unfold gets at 1.
    unfold cell_at at 1. rewrite (reg_cells _ _ Hreg4). fold (cell_at s cell).
    rewrite Hchild. unfold bind at 1. unfold gets at 1.
    unfold bind at 1.
    destruct (depend_total (ob_dep (ob_at s4 ob)) s4) as [s7 Hadd2]. rewrite Hadd2.
    assert (registers s4 s7) as Hreg7 by by eapply depend_registers.
    unfold bind at 1. unfold gets at 1.
    assert (isArray s7 (c_val (cell_at s cell)) = false) as ->.
    { rewrite <- Harr. unfold isArray. destruct (c_val (cell_at s cell)); try done.
      unfold obj_at. by rewrite (reg_heap _ _ Hreg7), (reg_heap _ _ Hreg4). }
    by eexists.
Qed.

Lemma read_registers_child_witness :
  (forall v s',
     @get_prop dev_host 1 (VObject 0) (KStr "b") state_observed_w1 = Ok v s' ->
     v = c_val (cell_at state_observed_w1 (cl_cell (Closure 1 0 2 None None false None))) /\
     registers state_observed_w1 s' /\
     cl_dep (Closure 1 0 2 None None false None) ∈ recorded s' w1 /\
     ob_dep (ob_at state_observed_w1 1) ∈ recorded s' w1 /\
     (ob_dep (ob_at state_observed_w1 1) ∉ recorded state_observed_w1 w1 ->
      ob_dep (ob_at state_observed_w1 1) < length (deps state_observed_w1) ->
      w1 ∈ subs_at s' (ob_dep (ob_at state_observed_w1 1)))) /\
  (isArray state_observed_w1
     (c_val (cell_at state_observed_w1 (cl_cell (Closure 1 0 2 None None false None)))) = false ->
   exists s', @get_prop dev_host 1 (VObject 0) (KStr "b") state_observed_w1
              = Ok (c_val (cell_at state_observed_w1
                             (cl_cell (Closure 1 0 2 None None false None)))) s').
Proof.
  apply (@read_registers_child dev_host 1 0 (KStr "b") (Closure 1 0 2 None None false None)
           w1 1 state_observed_w1).
  - repeat split; vm_compute; lia.
  - reflexivity.
  - reflexivity.
  - reflexivity.
Defined.

(** The read registers the subscriber with the Dep of the property, with
    the Dep of the Observer of the array it holds, and nowhere else. *)
Example read_registers_child_example :
  exists s',
    @get_prop dev_host 1 (VObject 0) (KStr "b") state_observed_w1 = Ok (VObject 1) s' /\
    recorded s' w1 = [2; 3] /\
    deps s' = [[]; []; [w1]; [w1]].
Proof. eexists. split; [reflexivity|]. split; reflexivity. Qed.

(** One round of the loop of [dependArray] on a flat item. *)
Lemma dependArray_step `{Host} rec arr i w s :
  target s = TWatcher w ->
  o_kind (obj_at s arr) = KArray ->
  isValidArrayIndex (KIdx i) = true ->
  flat_item s (mjoin (o_elems (obj_at s arr) !! i)) = true ->
  exists s',
    (e <- get_prop_with rec (VObject arr) (KIdx i) ;;
     (if truthy e then
        ob <- get_prop_with rec e (KStr "__ob__") ;;
        if truthy ob then
          o <- observer_of ob ;;
          d <- gets (fun s => ob_dep (ob_at s o)) ;;
          depend d
        else ret tt
      else ret tt) ;;;
     is_arr <- gets (fun s => isArray s e) ;;
     if is_arr then rec e else ret tt) s = Ok tt s' /\
    registers s s' /\
    (forall b o, o_elems (obj_at s arr) !! i = Some (Some (VObject b)) ->
                 marker (obj_at s b) = Some o ->
                 ob_dep (ob_at s o) ∈ recorded s' w).
Proof.
  intros Ht Hkind Hvalid Hflat.
  unfold bind at 1. unfold get_prop_with at 1. unfold bind at 1. unfold gets at 1.
  unfold own_property. rewrite Hkind, Hvalid. simpl (bool_decide _ && true). cbv iota.
  destruct (o_elems (obj_at s arr) !! i) as [[e|]|] eqn:Hi; simpl in Hflat.
  2, 3: exists s; by split; [|split; [reflexivity|]].
  unfold ret at 1.
  destruct e as [| |bo|f|str|b|o|m|name]; simpl in Hflat.
  1, 2: exists s; by split; [|split; [reflexivity|]].
  - exists s. destruct bo; by split; [|split; [reflexivity|]].
  - exists s. split; [|by split; [reflexivity|]].
    by destruct (truthy (VNumber f)).
  - exists s. split; [|by split; [reflexivity|]].
    by destruct (truthy (VString str)).
  - apply andb_prop in Hflat as [Hna Hob].
    apply negb_true_iff in Hna.
    assert (isArray s (VObject b) = false) as Hnarr by done.
    destruct (plain_read (obj_at s b) (KStr "__ob__")) as [x|] eqn:Hread; [|done].
    simpl (truthy (VObject b)). cbv iota.
    unfold bind at 1. unfold bind at 1.
    assert (get_prop_with rec (VObject b) (KStr "__ob__") s = Ok x s) as ->.
    { revert Hread. unfold plain_read, get_prop_with, bind, gets.
      destruct (own_property (obj_at s b) (KStr "__ob__")) as [[? ? ? ?|[g|] ? ? ?]|];
        try done; by intros [= <-]. }
    assert ((exists o, x = VObserver o) \/ truthy x = false) as [[o ->]|Hfalsy].
    { destruct x; try (right; by apply negb_true_iff). left. by eexists. }
    + simpl (truthy (VObserver o)). cbv iota.
      unfold bind at 1. unfold observer_of, ret at 1.
      unfold bind at 1. unfold gets at 1.
      destruct (depend_total (ob_dep (ob_at s o)) s) as [s1 Hadd]. rewrite Hadd.
      destruct (depend_records _ w s s1 Ht Hadd) as [Hreg Hin].
      unfold bind at 1. unfold gets at 1.
      assert (isArray s1 (VObject b) = false) as ->.
      { rewrite <- Hnarr. unfold isArray, obj_at. by rewrite (reg_heap _ _ Hreg). }
      exists s1. split; [done|]. split; [done|].
      intros b' o' [= <-] Hm. apply marker_plain_read in Hm. rewrite Hm in Hread.
      by injection Hread as <-.
    + rewrite Hfalsy. unfold ret at 1. unfold bind at 1. unfold gets at 1. rewrite Hnarr.
      exists s. split; [done|]. split; [reflexivity|].
      intros b' o' [= <-] Hm. apply marker_plain_read in Hm. rewrite Hm in Hread.
      injection Hread as <-. done.
  - exists s. by split; [|split; [reflexivity|]].
  - exists s. by split; [|split; [reflexivity|]].
  - exists s. by split; [|split; [reflexivity|]].
Qed.

Lemma registers_obj_at s s' a : registers s s' -> obj_at s' a = obj_at s a.
Proof. intros Hreg. unfold obj_at. by rewrite (reg_heap _ _ Hreg). Qed.

Lemma registers_ob_at s s' o : registers s s' -> ob_at s' o = ob_at s o.
Proof. intros Hreg. unfold ob_at. by rewrite (reg_observers _ _ Hreg). Qed.

Lemma flat_item_registers s s' e : registers s s' -> flat_item s' e = flat_item s e.
Proof.
  intros Hreg. destruct e as [[]|]; try done. simpl.
  by rewrite (registers_obj_at s s').
Qed.

Lemma isValidArrayIndex_below i n :
  (N.of_nat n <= 4294967295)%N -> i < n -> isValidArrayIndex (KIdx i) = true.
Proof. intros Hn Hi. simpl. apply bool_decide_eq_true_2. lia. Qed.

Lemma forallb_lookup {A} (f : A -> bool) (l : list A) i x :
  forallb f l = true -> l !! i = Some x -> f x = true.
Proof.
  revert i. induction l as [|y l IH]; intros i Hall Hi; [done|].
  simpl in Hall. apply andb_prop in Hall as [Hy Hl].
  destruct i as [|i]; simpl in Hi; [by injection Hi as <-|by eapply IH].
Qed.

Lemma forallb_same {A} (f g : A -> bool) (l : list A) :
  (forall x, f x = g x) -> forallb f l = forallb g l.
Proof. intros Hfg. induction l as [|y l IH]; [done|]. simpl. by rewrite Hfg, IH. Qed.

Lemma for_loop_S n from body :
  for_loop (S n) from body = (body from ;;; for_loop n (S from) body).
Proof. reflexivity. Qed.

(** The loop of [dependArray] over flat items. *)
Lemma dependArray_loop `{Host} rec arr w n from s :
  target s = TWatcher w ->
  o_kind (obj_at s arr) = KArray ->
  (N.of_nat (length (o_elems (obj_at s arr))) <= 4294967295)%N ->
  forallb (flat_item s) (o_elems (obj_at s arr)) = true ->
  from + n <= length (o_elems (obj_at s arr)) ->
  exists s',
    for_loop n from (fun i =>
      e <- get_prop_with rec (VObject arr) (KIdx i) ;;
      (if truthy e then
         ob <- get_prop_with rec e (KStr "__ob__") ;;
         if truthy ob then
           o <- observer_of ob ;;
           d <- gets (fun s => ob_dep (ob_at s o)) ;;
           depend d
         else ret tt
       else ret tt) ;;;
      is_arr <- gets (fun s => isArray s e) ;;
      if is_arr then rec e else ret tt) s = Ok tt s' /\
    registers s s' /\
    (forall i b o, from <= i < from + n ->
       o_elems (obj_at s arr) !! i = Some (Some (VObject b)) ->
       marker (obj_at s b) = Some o ->
       ob_dep (ob_at s o) ∈ recorded s' w).
Proof.
  revert from s. induction n as [|n IH]; intros from s Ht Hkind Hlen Hflat Hrange.
  - exists s. split; [done|]. split; [reflexivity|]. intros i b o Hi. lia.
  - rewrite for_loop_S. unfold bind at 1. cbv beta.
    destruct (dependArray_step rec arr from w s Ht Hkind) as (s1 & -> & Hreg1 & Hrec1).
    { apply (isValidArrayIndex_below from _ Hlen). lia. }
    { destruct (o_elems (obj_at s arr) !! from) as [e|] eqn:He; [|done]. simpl.
      by apply (forallb_lookup _ _ from e Hflat). }
    destruct (IH (S from) s1) as (s' & Hrun & Hreg & Hrec).
    { by rewrite (reg_target _ _ Hreg1). }
    { by rewrite (registers_obj_at s s1). }
    { by rewrite (registers_obj_at s s1). }
    { rewrite (registers_obj_at s s1) by done.
      rewrite <- Hflat. apply forallb_same. intros e. by apply flat_item_registers. }
    { rewrite (registers_obj_at s s1) by done. lia. }
    exists s'. split; [exact Hrun|]. split; [by etrans|].
    intros i b o Hi Hel Hm. destruct (decide (i = from)) as [->|Hne].
    + apply (recorded_registers s1 s'); [done|]. by apply (Hrec1 b o).
    + rewrite <- (registers_ob_at s s1 o Hreg1). apply (Hrec i b o); [lia| |].
      * by rewrite (registers_obj_at s s1).
      * by rewrite (registers_obj_at s s1).
Qed.

(** X22.  [dependArray] on an array of the host language whose items are flat,
    by subscriber [w]: it returns, it changes nothing but registrations,
    and the Dep of the Observer of every item that has one is recorded
    with [w], who is among its subscribers if it had not recorded it
    before. *)
Theorem dependArray_flat `{Host} (fuel : nat) (arr : addr) (w : Watcher) (s : State) :
  target s = TWatcher w ->
  o_kind (obj_at s arr) = KArray ->
  (N.of_nat (length (o_elems (obj_at s arr))) <= 4294967295)%N ->
  forallb (flat_item s) (o_elems (obj_at s arr)) = true ->
  exists s',
    dependArray (S fuel) (VObject arr) s = Ok tt s' /\
    registers s s' /\
    (forall i b o,
       o_elems (obj_at s arr) !! i = Some (Some (VObject b)) ->
       marker (obj_at s b) = Some o ->
       ob_dep (ob_at s o) ∈ recorded s' w /\
       (ob_dep (ob_at s o) ∉ recorded s w -> ob_dep (ob_at s o) < length (deps s) ->
        w ∈ subs_at s' (ob_dep (ob_at s o)))).
Proof.
  intros Ht Hkind Hlen Hflat.
  simpl dependArray. unfold dependArray_body. unfold bind at 1. unfold gets at 1.
  simpl (array_length s (VObject arr)).
  destruct (dependArray_loop (dependArray fuel) arr w (length (o_elems (obj_at s arr))) 0 s
              Ht Hkind Hlen Hflat) as (s' & Hrun & Hreg & Hrec); [done|].
  exists s'. split; [exact Hrun|]. split; [exact Hreg|].
  intros i b o Hel Hm.
  assert (ob_dep (ob_at s o) ∈ recorded s' w) as Hin.
  { apply (Hrec i b o); [|done|done]. apply lookup_lt_Some in Hel. lia. }
  split; [exact Hin|]. intros Hnot Hlt. by apply (reg_new _ _ Hreg).
Qed.

Lemma dependArray_flat_witness :
  exists s',
    @dependArray dev_host 1 (VObject 0) state_items = Ok tt s' /\
    registers state_items s' /\
    (forall i b o,
       o_elems (obj_at state_items 0) !! i = Some (Some (VObject b)) ->
       marker (obj_at state_items b) = Some o ->
       ob_dep (ob_at state_items o) ∈ recorded s' w1 /\
       (ob_dep (ob_at state_items o) ∉ recorded state_items w1 ->
        ob_dep (ob_at state_items o) < length (deps state_items) ->
        w1 ∈ subs_at s' (ob_dep (ob_at state_items o)))).
Proof.
  apply (@dependArray_flat dev_host 0 0 w1 state_items).
  - reflexivity.
  - reflexivity.
  - vm_compute. discriminate.
  - reflexivity.
Defined.

(** The Dep of the Observer of the object in the array gets the
    subscriber. *)
Example dependArray_example :
  exists s',
    @dependArray dev_host 1 (VObject 0) state_items = Ok tt s' /\
    recorded s' w1 = [1] /\ subs_at s' 1 = [w1].
Proof. eexists. split; [reflexivity|]. split; reflexivity. Qed.

(* ===================================================================== *)
(** ** observe goes deep: the values of the properties, the items         *)
(* ===================================================================== *)

Lemma marker_own o o' :
  own_property o' (KStr "__ob__") = own_property o (KStr "__ob__") -> marker o' = marker o.
Proof. unfold marker. by intros ->. Qed.

Lemma marker_hidden_own o o' :
  own_property o' (KStr "__ob__") = own_property o (KStr "__ob__") ->
  marker_hidden o -> marker_hidden o'.
Proof. unfold marker_hidden. by intros ->. Qed.

Lemma observed_settles s s' b i : settles s s' -> observed s b i -> observed s' b i.
Proof.
  intros Hst (Hm & Hob & Hval & Hdep & Hext).
  assert (ob_at s' i = ob_at s i) as Hat.
  { unfold ob_at. by rewrite <- (prefix_lookup_lt _ _ i Hob (st_observers _ _ Hst)). }
  split; [|split; [|split; [|split]]].
  - rewrite (marker_own (obj_at s b) (obj_at s' b)); [done|].
    apply (st_marker _ _ Hst). by rewrite Hm.
  - pose proof (prefix_length _ _ (st_observers _ _ Hst)). lia.
  - by rewrite Hat.
  - rewrite Hat. pose proof (st_deps _ _ Hst). lia.
  - by rewrite (st_extensible _ _ Hst).
Qed.

#[global] Instance settles_preorder : PreOrder settles.
Proof.
  split.
  - intros s. split; try done. intros b i Hn Hs. congruence.
  - intros s1 s2 s3 H12 H23. split.
    + intros b Hb. rewrite (st_marker _ _ H23), (st_marker _ _ H12); [done|done|].
      rewrite (marker_own (obj_at s1 b) (obj_at s2 b)); [done|].
      by apply (st_marker _ _ H12).
    + intros b Hb. rewrite (st_unmarked _ _ H23 b Hb).
      apply (st_unmarked _ _ H12). by rewrite <- (st_unmarked _ _ H23 b Hb).
    + etrans; [apply (st_observers _ _ H12)|apply (st_observers _ _ H23)].
    + pose proof (st_deps _ _ H12). pose proof (st_deps _ _ H23). lia.
    + by rewrite (st_heap _ _ H23), (st_heap _ _ H12).
    + by rewrite (st_shouldObserve _ _ H23), (st_shouldObserve _ _ H12).
    + intros b. by rewrite (st_extensible _ _ H23), (st_extensible _ _ H12).
    + intros b. by rewrite (st_kind _ _ H23), (st_kind _ _ H12).
    + intros b i Hn Hs. destruct (marker (obj_at s2 b)) as [j|] eqn:H2.
      * assert (observed s2 b j) as Hobs by by apply (st_new _ _ H12).
        pose proof (observed_settles s2 s3 b j H23 Hobs) as Hobs3.
        destruct Hobs3 as (Hm3 & _). rewrite Hm3 in Hs. injection Hs as <-.
        by apply (observed_settles s2 s3).
      * by apply (st_new _ _ H23).
Qed.

(** A step that leaves the heap alone. *)
Lemma settles_heap s s' :
  heap s' = heap s ->
  observers s `prefix_of` observers s' ->
  length (deps s) <= length (deps s') ->
  shouldObserve s' = shouldObserve s ->
  settles s s'.
Proof.
  intros Hh Ho Hd Hsh.
  assert (forall b, obj_at s' b = obj_at s b) as Hobj by (intros b; by apply obj_at_heap).
  split; try done.
  - intros b _. by rewrite Hobj.
  - by rewrite Hh.
  - intros b. by rewrite Hobj.
  - intros b. by rewrite Hobj.
  - intros b i Hn Hs. rewrite Hobj in Hs. congruence.
Qed.

Lemma settles_registers s s' : registers s s' -> settles s s'.
Proof.
  intros Hreg. apply settles_heap.
  - apply (reg_heap _ _ Hreg).
  - by rewrite (reg_observers _ _ Hreg).
  - by rewrite (reg_deps _ _ Hreg).
  - apply (reg_shouldObserve _ _ Hreg).
Qed.

(** A step that redefines a property other than the marker on an object
    that carries a marker. *)
Lemma settles_put_obj a o' s :
  is_Some (marker (obj_at s a)) ->
  own_property o' (KStr "__ob__") = own_property (obj_at s a) (KStr "__ob__") ->
  o_extensible o' = o_extensible (obj_at s a) ->
  o_kind o' = o_kind (obj_at s a) ->
  settles s (put_obj a o' s).
Proof.
  intros [i Hm] Hown Hext Hkind.
  pose proof (marker_in_heap _ _ _ Hm) as Hlt.
  assert (obj_at (put_obj a o' s) a = o') as Ha by by apply obj_at_put_obj.
  assert (forall b, b <> a -> obj_at (put_obj a o' s) b = obj_at s b) as Hne.
  { intros b Hb. by apply obj_at_put_obj_ne. }
  assert (marker o' = Some i) as Hm'.
  { by rewrite (marker_own (obj_at s a) o'). }
  split; try done.
  - intros b _. destruct (decide (b = a)) as [->|Hb]; [by rewrite Ha|by rewrite Hne].
  - intros b Hb. destruct (decide (b = a)) as [->|Hba]; [|by apply Hne].
    rewrite Ha in Hb. congruence.
  - unfold put_obj. simpl. by rewrite length_insert.
  - intros b. destruct (decide (b = a)) as [->|Hb]; [by rewrite Ha|by rewrite Hne].
  - intros b. destruct (decide (b = a)) as [->|Hb]; [by rewrite Ha|by rewrite Hne].
  - intros b j Hn Hs. destruct (decide (b = a)) as [->|Hb]; [congruence|].
    rewrite Hne in Hs by done. congruence.
Qed.

(** Setting the marker on an object that has none and is extensible. *)
Lemma settles_marked_state a s :
  a < length (heap s) ->
  marker (obj_at s a) = None ->
  o_extensible (obj_at s a) = true ->
  settles s (marked_state a s).
Proof.
  intros Hlt Hm Hext.
  destruct (marked_state_facts a s Hlt Hm) as (Hev & Hm3 & Hhid & _).
  pose proof (marked_state_obj a s Hlt) as Hobj.
  split.
  - intros b Hb. rewrite marked_state_other; [done|]. intros <-. rewrite Hm in Hb.
    by destruct Hb.
  - intros b Hb. apply marked_state_other. intros <-. congruence.
  - unfold marked_state. simpl. by apply prefix_app_r.
  - unfold marked_state. simpl. rewrite length_app. lia.
  - apply (ev_heap _ _ _ Hev).
  - done.
  - intros b. apply (ev_extensible _ _ _ Hev).
  - intros b. apply (ev_kind _ _ _ Hev).
  - intros b i Hn Hs. destruct (decide (a = b)) as [<-|Hne].
    + rewrite Hm3 in Hs. injection Hs as <-.
      split; [done|]. split; [unfold marked_state; simpl; rewrite length_app; simpl; lia|].
      rewrite marked_state_ob_at. simpl. split; [done|].
      split; [unfold marked_state; simpl; rewrite length_app; simpl; lia|].
      by rewrite (ev_extensible _ _ _ Hev).
    + rewrite marked_state_other in Hs by done. congruence.
Qed.

Lemma own_marker_replace o k p :
  k <> KStr "__ob__" ->
  own_property (mkObject (o_kind o) (o_proto o) (o_extensible o)
                         (replace_key k p (o_props o)) (o_elems o)) (KStr "__ob__")
  = own_property o (KStr "__ob__").
Proof.
  intros Hne. rewrite !own_property_name by done. simpl.
  by apply lookup_replace_key_ne.
Qed.

Section settles_on.
Context `{Host}.
Variable fuel : nat.
Variable rec : value -> bool -> M (option nat).
Hypothesis Hrec : forall v, preserves settles (rec v false).
Variable a : addr.

Lemma so_preserves {A} (m : M A) : preserves settles m -> settles_on a m.
Proof. intros Hm s x s' _ _ Hrun. by eapply Hm. Qed.

Lemma so_ret {A} (x : A) : settles_on a (ret x).
Proof. apply so_preserves, preserves_ret, _. Qed.

Lemma so_gets {A} (f : State -> A) : settles_on a (gets f).
Proof. apply so_preserves, preserves_gets, _. Qed.

Lemma so_bind {A B} (m : M A) (f : A -> M B) :
  settles_on a m -> (forall x, settles_on a (f x)) -> settles_on a (bind m f).
Proof.
  intros Hm Hf s y s' Hmk Hh (x & s1 & H1 & H2)%bind_Ok.
  pose proof (Hm s x s1 Hmk Hh H1) as Hst. etrans; [exact Hst|].
  pose proof (st_marker _ _ Hst a Hmk) as Hown.
  apply (Hf x s1 y s'); [|by eapply marker_hidden_own|done].
  by rewrite (marker_own (obj_at s a) (obj_at s1 a)).
Qed.

Lemma so_for_each {A} (l : list A) (body : A -> M unit) :
  (forall x, x ∈ l -> settles_on a (body x)) -> settles_on a (for_each l body).
Proof.
  induction l as [|x l IH]; intros Hb; simpl; [apply so_ret|].
  apply so_bind; [apply Hb; left|]. intros _. apply IH. intros y Hy. apply Hb. by right.
Qed.

Lemma so_for_loop n from (body : nat -> M unit) :
  (forall i, settles_on a (body i)) -> settles_on a (for_loop n from body).
Proof.
  intros Hb. revert from. induction n as [|n IH]; intros from; simpl; [apply so_ret|].
  apply so_bind; [apply Hb|]. intros _. apply IH.
Qed.

Lemma so_get_prop v k : settles_on a (get_prop fuel v k).
Proof.
  apply so_preserves. intros s x s' Hrun.
  by apply settles_registers, (get_prop_registers fuel v k s x s').
Qed.

Lemma so_defineProperty k g st e c :
  k <> KStr "__ob__" -> settles_on a (defineProperty a k (PAccessor g st e c)).
Proof.
  intros Hne s x s' Hmk Hh. unfold defineProperty.
  destruct (match own_property (obj_at s a) k with
            | Some old => p_configurable old
            | None => o_extensible (obj_at s a)
            end); [|done].
  destruct (store_prop k _ (obj_at s a)) as [o'|] eqn:Hstore; [|done].
  apply store_prop_accessor in Hstore as ->. intros [= _ <-].
  apply settles_put_obj; [done| |done|done]. by apply own_marker_replace.
Qed.

Lemma so_def name v : name <> "__ob__" -> settles_on a (def a name v).
Proof.
  intros Hne s x s' Hmk Hh. unfold def, modify. intros [= _ <-].
  apply settles_put_obj; [done| |done|done]. apply own_marker_replace. congruence.
Qed.

Lemma so_protoAugment : settles_on a (protoAugment a).
Proof.
  intros s x s' Hmk Hh. unfold protoAugment, modify. intros [= _ <-].
  apply settles_put_obj; [done| |done|done]. by rewrite !own_property_name.
Qed.

Lemma so_defineReactive k val cs sh :
  k <> KStr "__ob__" -> settles_on a (defineReactive_with fuel rec a k val cs sh).
Proof.
  intros Hne. unfold defineReactive_with.
  apply so_bind.
  { apply so_preserves. intros s d s' [= _ <-]. apply settles_heap; try done.
    simpl. rewrite length_app. lia. }
  intros dep. apply so_bind; [apply so_gets|]. intros property.
  destruct (match property with Some p => negb (p_configurable p) | None => false end);
    [apply so_ret|].
  apply so_bind.
  { destruct val; [apply so_ret|].
    destruct (negb _ || _); [apply so_get_prop|apply so_ret]. }
  intros v. apply so_bind.
  { destruct sh; [apply so_ret|apply so_preserves, Hrec]. }
  intros childOb. apply so_bind.
  { apply so_preserves. intros s c s' [= _ <-]. by apply settles_heap. }
  intros cell. by apply so_defineProperty.
Qed.

Lemma so_walk : settles_on a (walk_with fuel rec a).
Proof.
  intros s x s' Hmk Hh Hrun. unfold walk_with in Hrun.
  unfold bind at 1 in Hrun. unfold gets at 1 in Hrun.
  revert Hrun. apply so_for_each; [|done|done].
  intros k Hk. apply so_defineReactive. intros ->.
  by apply (Object_keys_not_marker (obj_at s a)).
Qed.

Lemma so_observeArray l :
  settles_on a (observeArray_with rec l (fun i => get_prop fuel (VObject a) (KIdx i))).
Proof.
  unfold observeArray_with. apply so_for_loop. intros i.
  apply so_bind; [apply so_get_prop|]. intros v.
  apply so_bind; [apply so_preserves, Hrec|]. intros _. apply so_ret.
Qed.

Lemma so_Observer_rest is_arr : settles_on a (Observer_rest fuel rec a is_arr).
Proof.
  unfold Observer_rest. destruct is_arr; [|apply so_walk].
  apply so_bind.
  { destruct hasProto; [apply so_protoAugment|].
    unfold copyAugment. apply so_for_each. intros m _. apply so_def.
    apply method_name_not_marker. }
  intros _. apply so_bind; [apply so_gets|]. intros l. apply so_observeArray.
Qed.

(** The constructor of Observer on an object that has no marker and is
    extensible. *)
Lemma settles_new_Observer s x s' :
  a < length (heap s) ->
  marker (obj_at s a) = None ->
  o_extensible (obj_at s a) = true ->
  new_Observer_with fuel rec a s = Ok x s' ->
  settles s s'.
Proof.
  intros Hlt Hm Hext Hrun. rewrite new_Observer_steps in Hrun.
  apply bind_Ok in Hrun as ([] & s1 & Hrest & [= _ <-]).
  destruct (marked_state_facts a s Hlt Hm) as (_ & Hm3 & Hhid & _).
  etrans; [by apply settles_marked_state|].
  apply (so_Observer_rest _ _ tt s1) in Hrest; [done|by rewrite Hm3|done].
Qed.

(** The branch of [observe] that makes an Observer. *)
Lemma settles_fresh_branch (o : object) s x s' :
  o = obj_at s a ->
  marker o = None ->
  (enabled <- gets shouldObserve ;;
   if enabled && negb isServerRendering
      && (bool_decide (o_kind o = KArray) || isPlainObject o)
      && o_extensible o
   then
     isVue <- get_prop fuel (VObject a) (KStr "_isVue") ;;
     if negb (truthy isVue)
     then this <- new_Observer_with fuel rec a ;; ret (Some this)
     else ret None
   else ret None) s = Ok x s' ->
  settles s s'.
Proof.
  intros -> Hm Hrun.
  apply bind_Ok in Hrun as (enabled & s0 & [= <- <-] & Hrun).
  destruct (shouldObserve s && negb isServerRendering
            && (bool_decide (o_kind (obj_at s a) = KArray) || isPlainObject (obj_at s a))
            && o_extensible (obj_at s a)) eqn:Hguard.
  2: { injection Hrun as _ <-. reflexivity. }
  apply andb_prop in Hguard as [Hguard Hext].
  apply andb_prop in Hguard as [_ Hkind].
  apply bind_Ok in Hrun as (isVue & s1 & Hread & Hrun).
  pose proof (get_prop_registers fuel _ _ s isVue s1 Hread) as Hreg.
  destruct (negb (truthy isVue)).
  2: { injection Hrun as _ <-. by apply settles_registers. }
  apply bind_Ok in Hrun as (this & s2 & Hnew & [= _ <-]).
  etrans; [by apply settles_registers|].
  pose proof (registers_obj_at s s1 a Hreg) as Hobj.
  apply (settles_new_Observer s1 this s2); [| | |done].
  - rewrite (reg_heap _ _ Hreg).
    destruct (decide (a < length (heap s))) as [|Hge]; [done|].
    exfalso. unfold obj_at in Hkind. rewrite lookup_ge_None_2 in Hkind by lia.
    done.
  - by rewrite Hobj.
  - by rewrite Hobj.
Qed.

End settles_on.

Section settles_observe.
Context `{Host}.
Variable fuel : nat.
Variable rec : value -> bool -> M (option nat).
Hypothesis Hrec : forall v, preserves settles (rec v false).

Lemma settles_observe_body v : preserves settles (observe_body fuel rec v false).
Proof.
  intros s x s' Hrun. unfold observe_body in Hrun.
  destruct v as [| | | | |b| | |]; try (injection Hrun as _ <-; reflexivity).
  apply bind_Ok in Hrun as (o & s0 & [= <- <-] & Hrun).
  destruct (instanceof_VNode (obj_at s b)); [injection Hrun as _ <-; reflexivity|].
  apply bind_Ok in Hrun as (ob & s2 & Hob & Hrun).
  assert (s' = s2) as ->.
  { destruct ob as [i|]; [|by injection Hrun as _ <-].
    apply bind_Ok in Hrun as ([] & s3 & [= <-] & [= _ <-]). done. }
  clear Hrun.
  apply bind_Ok in Hob as (existing & s1 & Hex & Hob).
  assert (registers s s1) as Hreg1.
  { destruct (hasOwn (obj_at s b) (KStr "__ob__")); [|by injection Hex as _ <-].
    by eapply get_prop_registers. }
  assert ((exists i, existing = VObserver i) \/ marker (obj_at s b) = None) as [[i ->]|Hm].
  { destruct (marker (obj_at s b)) as [i|] eqn:Hm; [left|by right]. exists i.
    assert (hasOwn (obj_at s b) (KStr "__ob__") = true) as Hown.
    { unfold hasOwn. unfold marker in Hm.
      by destruct (own_property (obj_at s b) (KStr "__ob__")). }
    rewrite Hown in Hex.
    rewrite (plain_read_get_prop _ _ _ _ _ (marker_plain_read _ _ Hm)) in Hex.
    by injection Hex as <- _. }
  - apply bind_Ok in Hob as (ob' & s3 & Hread & Hret).
    pose proof (get_prop_registers fuel _ _ s1 ob' s3 Hread) as Hreg3.
    assert (s2 = s3) as ->.
    { destruct ob'; try (by injection Hret as _ <-);
        destruct (truthy _); try done; by injection Hret as _ <-. }
    apply settles_registers. by etrans.
  - etrans; [by apply settles_registers|].
    assert (forall y, y = existing ->
              (match y with
               | VObserver _ =>
                   ob <- get_prop fuel (VObject b) (KStr "__ob__") ;;
                   match ob with
                   | VObserver i => ret (Some i)
                   | _ => if truthy ob then throw Unmodelled else ret None
                   end
               | _ =>
                   enabled <- gets shouldObserve ;;
                   if enabled && negb isServerRendering
                      && (bool_decide (o_kind (obj_at s b) = KArray)
                          || isPlainObject (obj_at s b))
                      && o_extensible (obj_at s b)
                   then
                     isVue <- get_prop fuel (VObject b) (KStr "_isVue") ;;
                     if negb (truthy isVue)
                     then this <- new_Observer_with fuel rec b ;; ret (Some this)
                     else ret None
                   else ret None
               end) s1 = Ok ob s2 -> settles s1 s2) as Hcases.
    2: { by apply (Hcases existing). }
    intros y Hy.
    destruct y;
      try (intros Hfresh;
           eapply (settles_fresh_branch fuel rec Hrec b (obj_at s b)); [| |exact Hfresh];
           [by rewrite (registers_obj_at s s1)|done]).
    intros Hob'.
    apply bind_Ok in Hob' as (ob' & s3 & Hread & Hret).
    pose proof (get_prop_registers fuel _ _ s1 ob' s3 Hread) as Hreg3.
    assert (s2 = s3) as ->.
    { destruct ob'; try (by injection Hret as _ <-);
        destruct (truthy _); try done; by injection Hret as _ <-. }
    by apply settles_registers.
Qed.

End settles_observe.

Lemma settles_observe `{Host} n v : preserves settles (observe n v false).
Proof.
  revert v. induction n as [|n IH]; intros v; [by intros s x s'|].
  rewrite observe_S. by apply settles_observe_body.
Qed.


Lemma observed_evolves x s s' b i : evolves x s s' -> observed s b i -> observed s' b i.
Proof.
  intros Hev (Hm & Hob & Hval & Hdep & Hext).
  destruct (ev_observers _ _ _ Hev i Hob) as [Ev Ed].
  split; [by apply (ev_marker _ _ _ Hev)|].
  split; [pose proof (ev_observers_len _ _ _ Hev); lia|].
  split; [by rewrite Ev|].
  split; [rewrite Ed; pose proof (ev_deps_len _ _ _ Hev); lia|].
  by rewrite (ev_extensible _ _ _ Hev).
Qed.

(** [observe] on an object that carries its marker returns the Observer
    the marker refers to and changes nothing. *)
Lemma observe_marked `{Host} n b i s :
  marker (obj_at s b) = Some i ->
  o_kind (obj_at s b) <> KVNode ->
  observe (S n) (VObject b) false s = Ok (Some i) s.
Proof.
  intros Hm Hkind. rewrite observe_S. unfold observe_body.
  unfold bind at 1. unfold gets at 1.
  assert (instanceof_VNode (obj_at s b) = false) as ->.
  { unfold instanceof_VNode. by apply bool_decide_eq_false_2. }
  assert (hasOwn (obj_at s b) (KStr "__ob__") = true) as ->.
  { unfold hasOwn. unfold marker in Hm.
    by destruct (own_property (obj_at s b) (KStr "__ob__")). }
  pose proof (plain_read_get_prop n b _ _ s (marker_plain_read _ _ Hm)) as Hread.
  unfold bind at 1. unfold bind at 1. rewrite Hread.
  unfold bind at 1. by rewrite Hread.
Qed.

Lemma ready_settles `{Host} s s' b : settles s s' -> ready s b -> ready s' b.
Proof.
  intros Hst [Hobs|(Hk & i & Hobd)].
  - pose proof (observable_unmarked s b Hobs) as Hm.
    destruct Hobs as (Hlt & Hkind & Hown & Hext & Hon & Hssr & HisVue).
    destruct (marker (obj_at s' b)) as [j|] eqn:Hm'.
    + right. split.
      * rewrite (st_kind _ _ Hst). by destruct Hkind as [-> | ->].
      * exists j. by apply (st_new _ _ Hst).
    + left. pose proof (st_unmarked _ _ Hst b Hm') as Hobj.
      unfold observable. rewrite Hobj, (st_heap _ _ Hst), (st_shouldObserve _ _ Hst).
      done.
  - right. split; [by rewrite (st_kind _ _ Hst)|]. exists i. by apply (observed_settles s s').
Qed.

(** [observe] on a ready object, with no subscriber active: it returns the
    Observer of the object, which is observed by it afterwards. *)
Lemma observe_ready `{Host} n b s :
  ready s b ->
  active (target s) = None ->
  unmarked s <= n ->
  exists j s',
    observe (S n) (VObject b) false s = Ok (Some j) s' /\
    observed s' b j /\
    evolves None s s' /\
    settles s s'.
Proof.
  intros [Hobs|(Hk & i & Hobd)] Hidle Hfuel.
  - destruct (observe_fresh_observed n b s Hobs Hidle Hfuel) as (s' & Hrun & Hobd & Hev).
    exists (length (observers s)), s'. split; [done|]. split; [done|]. split; [done|].
    by eapply settles_observe.
  - exists i, s. split; [apply observe_marked; [apply Hobd|done]|].
    split; [done|]. split; reflexivity.
Qed.

(** The call [defineReactive(obj, key)] of [walk] on a configurable data
    property of an object that carries its marker: the state it leaves. *)
Lemma defineReactive_child `{Host} fuel n rec a k ob v w e s s' :
  observe_ok n rec ->
  active (target s) = None ->
  marker (obj_at s a) = Some ob ->
  o_kind (obj_at s a) <> KArray ->
  own_property (obj_at s a) k = Some (PData v w e true) ->
  defineReactive_with fuel rec a k None None false s = Ok tt s' ->
  exists childOb s2,
    rec v false (set_deps (deps s ++ [[]]) s) = Ok childOb s2 /\
    evolves None (set_deps (deps s ++ [[]]) s) s2 /\
    let c := Closure (length (cells s2)) a (uid s) None None false None in
    installed s' a k c /\
    cell_at s' (length (cells s2)) = mkCell v childOb /\
    s' = put_obj a
           (mkObject (o_kind (obj_at s a)) (o_proto (obj_at s a)) (o_extensible (obj_at s a))
              (replace_key k (PAccessor (Some (GReactive c)) (Some (SReactive c)) true true)
                 (o_props (obj_at s a)))
              (o_elems (obj_at s a)))
           (set_cells (cells s2 ++ [mkCell v childOb]) s2).
Proof.
  intros Hrec Hidle Hm Hkind Hp Hrun.
  pose proof (marker_in_heap _ _ _ Hm) as Hlt.
  unfold defineReactive_with in Hrun. unfold bind at 1 in Hrun. unfold new_Dep at 1 in Hrun.
  set (s1 := set_deps (deps s ++ [[]]) s) in *.
  unfold bind at 1 in Hrun. unfold gets at 1 in Hrun.
  change (obj_at s1 a) with (obj_at s a) in Hrun. rewrite Hp in Hrun.
  simpl negb in Hrun. cbv iota in Hrun.
  apply (defineReactive_tail n rec a k (uid s) _ _ _ ob s1 s' Hrec) in Hrun; [|done|done|].
  2: { intros v0 s0. destruct (negb _ || _); [|by intros [= _ <-]]. by apply get_prop_idle. }
  destruct Hrun as (v0 & childOb & s2 & HV & Hchild & Hev & Hs'). cbv zeta in Hs'.
  simpl in HV.
  assert (plain_read (obj_at s1 a) k = Some v) as Hread.
  { unfold plain_read. change (obj_at s1 a) with (obj_at s a). by rewrite Hp. }
  rewrite (plain_read_get_prop _ _ _ _ _ Hread) in HV. injection HV as <-.
  exists childOb, s2. split; [done|]. split; [done|]. cbv zeta.
  change (obj_at s1 a) with (obj_at s a) in Hs'. simpl in Hs'.
  assert (a < length (heap (set_cells (cells s2 ++ [mkCell v childOb]) s2))) as Hlt3.
  { simpl. by rewrite (ev_heap _ _ _ Hev). }
  split; [|split; [|exact Hs']].
  - rewrite Hs'. split; [|split; [reflexivity|split]].
    + rewrite obj_at_put_obj by done.
      rewrite own_property_not_array by done. simpl. apply lookup_replace_key_eq.
    + simpl. pose proof (ev_deps_len _ _ _ Hev) as Hl. unfold s1 in Hl. simpl in Hl.
      rewrite length_app in Hl. simpl in Hl. unfold uid. lia.
    + simpl. rewrite length_app. simpl. lia.
  - rewrite Hs'. unfold cell_at. simpl. by rewrite list_lookup_middle.
Qed.

(** The loop of [walk], for a property that holds a ready object: the
    object is observed afterwards, and the activation of the property
    refers to its Observer. *)
Lemma walk_loop_deep `{Host} fuel n a ob keys k b w e s s' :
  active (target s) = None ->
  marker (obj_at s a) = Some ob ->
  marker_hidden (obj_at s a) ->
  o_kind (obj_at s a) <> KArray ->
  o_extensible (obj_at s a) = true ->
  NoDup keys ->
  KStr "__ob__" ∉ keys ->
  (forall k, k ∈ keys -> is_Some (own_property (obj_at s a) k)) ->
  unmarked s < n ->
  k ∈ keys ->
  own_property (obj_at s a) k = Some (PData (VObject b) w e true) ->
  ready s b ->
  for_each keys (fun k => defineReactive_with fuel (observe n) a k None None false) s
  = Ok tt s' ->
  exists c j,
    installed s' a k c /\ plain_closure c /\
    cell_at s' (cl_cell c) = mkCell (VObject b) (Some j) /\
    observed s' b j.
Proof.
  revert s. induction keys as [|k1 keys IH];
    intros s Hidle Hm Hhid Hkind Hext Hnd Hnm Hown Hfuel Hk Hp Hready Hrun.
  { by apply elem_of_nil in Hk. }
  apply NoDup_cons in Hnd as [Hk1 Hnd].
  simpl in Hrun. apply bind_Ok in Hrun as ([] & s1 & Hstep & Hrest).
  assert (k1 <> KStr "__ob__") as Hne1 by (intros ->; apply Hnm; left).
  pose proof (runs_defineReactive fuel n (observe n) a k1 None None false s
                (observe_observe_ok n) Hne1 Hext) as Hruns.
  rewrite Hstep in Hruns. destruct Hruns as [Hev1 _].
  { intros Harr. done. }
  { intros _. left. apply Hown. left. }
  assert (settles s s1) as Hst1.
  { apply (so_defineReactive fuel (observe n) (settles_observe n) a k1 None None false
             Hne1 s tt s1); [by rewrite Hm|done|done]. }
  destruct (defineReactive_frame fuel n (observe n) a k1 ob s s1
              (observe_observe_ok n) Hidle Hm Hkind Hstep) as (Hf1 & _ & _).
  assert (active (target s1) = None) as Hidle1 by by rewrite (ev_target _ _ _ Hev1).
  assert (marker (obj_at s1 a) = Some ob) as Hm1 by by apply (ev_marker _ _ _ Hev1).
  assert (marker_hidden (obj_at s1 a)) as Hhid1.
  { eapply marker_hidden_own; [|exact Hhid]. apply (st_marker _ _ Hst1). by rewrite Hm. }
  assert (o_kind (obj_at s1 a) <> KArray) as Hkind1 by by rewrite (ev_kind _ _ _ Hev1).
  assert (o_extensible (obj_at s1 a) = true) as Hext1
    by by rewrite (ev_extensible _ _ _ Hev1).
  assert (KStr "__ob__" ∉ keys) as Hnm1 by (intros Hin; apply Hnm; by right).
  assert (forall k0, k0 ∈ keys -> is_Some (own_property (obj_at s1 a) k0)) as Hown1.
  { intros k0 Hk0. apply (ev_own _ _ _ Hev1), Hown. by right. }
  assert (unmarked s1 < n) as Hfuel1.
  { pose proof (evolves_unmarked _ _ _ Hev1). lia. }
  destruct (decide (k = k1)) as [<-|Hne].
  - destruct (defineReactive_child fuel n (observe n) a k ob (VObject b) w e s s1
                (observe_observe_ok n) Hidle Hm Hkind Hp Hstep)
      as (childOb & s2 & Hchild & Hev2 & Hinst & Hcell & Hs1).
    cbv zeta in Hinst, Hs1.
    set (s0 := set_deps (deps s ++ [[]]) s) in *.
    destruct n as [|m]; [lia|].
    destruct (observe_ready m b s0) as (j & s2' & Hrun' & Hobd & _ & _).
    { apply (ready_settles s s0); [|done]. apply settles_heap; try done.
      unfold s0. simpl. rewrite length_app. lia. }
    { done. }
    { rewrite (unmarked_heap s s0) by done. lia. }
    rewrite Hchild in Hrun'. injection Hrun' as -> <-.
    assert (obj_at s2 a = obj_at s a) as Hobj2.
    { change (obj_at s a) with (obj_at s0 a). apply (ev_marked _ _ _ Hev2); [done|].
      change (obj_at s0 a) with (obj_at s a). by rewrite Hm. }
    assert (observed s1 b j) as Hobd1.
    { apply (observed_settles s2 s1); [|done]. rewrite Hs1.
      set (s2c := set_cells (cells s2 ++ [mkCell (VObject b) (Some j)]) s2).
      assert (obj_at s2c a = obj_at s a) as Hobj2c by done.
      etrans; [by apply (settles_heap s2 s2c)|].
      apply settles_put_obj.
      - by rewrite Hobj2c, Hm.
      - rewrite Hobj2c. apply own_marker_replace. intros ->. apply Hnm. left.
      - by rewrite Hobj2c.
      - by rewrite Hobj2c. }
    destruct (walk_loop fuel (S m) a ob keys s1 Hidle1 Hm1 Hkind1 Hext1 Hnd Hnm1 Hown1 Hfuel1)
      as (s'' & Hrun'' & Hev'' & _ & H4 & _ & _).
    rewrite Hrest in Hrun''. injection Hrun'' as <-.
    destruct (installed_evolves _ s1 s' a k _ Hev'' (H4 k Hk1) Hinst) as [Hinst' Hcell'].
    eexists _, j. split; [exact Hinst'|]. split; [done|].
    split; [|eapply observed_evolves; [exact Hev''|exact Hobd1]].
    simpl in Hcell'. simpl. by rewrite Hcell'.
  - apply elem_of_cons in Hk as [->|Hk]; [done|].
    apply (IH s1); try done.
    + by rewrite Hf1.
    + by apply (ready_settles s s1).
Qed.

Lemma observed_vmCount_incr i s b j : observed s b j -> observed (vmCount_incr i s) b j.
Proof.
  intros (Hm & Hob & Hval & Hdep & Hext).
  assert (ob_value (ob_at (vmCount_incr i s) j) = ob_value (ob_at s j) /\
          ob_dep (ob_at (vmCount_incr i s) j) = ob_dep (ob_at s j)) as [Ev Ed].
  { destruct (decide (i = j)) as [->|Hne].
    - by rewrite ob_at_vmCount_incr.
    - by rewrite ob_at_vmCount_incr_ne. }
  split; [done|]. split; [unfold vmCount_incr; simpl; by rewrite length_insert|].
  split; [by rewrite Ev|]. split; [by rewrite Ed|done].
Qed.

(** X23.  [observe] on an observable plain object goes deep, with no
    subscriber active: for every own enumerable and configurable data
    property that holds an object that is observable or observed already,
    that object is observed afterwards, and the activation of the property
    holds the object and refers to its Observer as the one of its value. *)
Theorem observe_deep_object `{Host} (fuel : nat) (a : addr) (root : bool) (s : State) :
  observable s a ->
  o_kind (obj_at s a) = KPlain ->
  active (target s) = None ->
  unmarked s <= fuel ->
  exists s',
    observe (S fuel) (VObject a) root s = Ok (Some (length (observers s))) s' /\
    (forall k b w,
       own_property (obj_at s a) k = Some (PData (VObject b) w true true) ->
       ready s b ->
       exists c j,
         installed s' a k c /\
         cell_at s' (cl_cell c) = mkCell (VObject b) (Some j) /\
         observed s' b j).
Proof.
  intros Hobs Hkind Hidle Hfuel.
  destruct (observe_fresh_ok fuel a root s Hobs Hidle Hfuel) as (s1 & Hrest & Hrun & Hev & Hog).
  pose proof (observable_unmarked s a Hobs) as Hm.
  destruct Hobs as (Hlt & _ & Hown & Hext & _).
  destruct (marked_state_facts a s Hlt Hm) as (Hev3 & Hm3 & Hhid & Hless).
  pose proof (marked_state_obj a s Hlt) as Hobj3.
  pose proof (settles_marked_state a s Hlt Hm Hext) as Hst3.
  assert (o_kind (obj_at s a) <> KArray) as Hna by by rewrite Hkind.
  assert (isArray s (VObject a) = false) as Harr.
  { unfold isArray. by apply bool_decide_eq_false_2. }
  rewrite Harr in Hrest. unfold Observer_rest, walk_with in Hrest.
  unfold bind at 1 in Hrest. unfold gets at 1 in Hrest.
  set (ob := length (observers s)) in *.
  set (s3 := marked_state a s) in *.
  set (keys := Object_keys (obj_at s3 a)) in *.
  assert (o_kind (obj_at s3 a) <> KArray) as Hna3 by by rewrite (ev_kind _ _ _ Hev3).
  exists (if root then vmCount_incr ob s1 else s1). split; [exact Hrun|].
  intros k b w Hp Hready.
  assert (k <> KStr "__ob__") as Hne.
  { intros ->. unfold hasOwn in Hown. by rewrite Hp in Hown. }
  assert (own_property (obj_at s3 a) k = Some (PData (VObject b) w true true)) as Hp3.
  { rewrite Hobj3. by rewrite with_marker_own. }
  destruct (walk_loop_deep fuel fuel a ob keys k b w true s3 s1) as (c & j & Hinst & _ & Hcell & Hobd);
    try done.
  - by rewrite (ev_extensible _ _ _ Hev3).
  - apply Object_keys_NoDup.
  - by apply Object_keys_not_marker.
  - intros k0 Hk0%Object_keys_enumerable. by destruct (own_property (obj_at s3 a) k0).
  - lia.
  - apply Object_keys_complete; [done|]. by rewrite Hp3.
  - by apply (ready_settles s s3).
  - exists c, j. destruct root; [|done].
    split; [done|]. split; [done|]. by apply observed_vmCount_incr.
Qed.

Lemma observe_deep_object_witness :
  exists s',
    @observe dev_host 3 (VObject 0) false state_raw = Ok (Some (length (observers state_raw))) s' /\
    (forall k b w,
       own_property (obj_at state_raw 0) k = Some (PData (VObject b) w true true) ->
       @ready dev_host state_raw b ->
       exists c j,
         installed s' 0 k c /\
         cell_at s' (cl_cell c) = mkCell (VObject b) (Some j) /\
         observed s' b j).
Proof.
  apply (@observe_deep_object dev_host 2 0 false state_raw).
  - unfold observable. split; [simpl; lia|]. split; [by left|].
    repeat split; try reflexivity. by exists VUndefined.
  - reflexivity.
  - reflexivity.
  - vm_compute. lia.
Defined.

(** The object [{ a: NaN, b: [...] }]: the array in [b] gets Observer 1,
    and the activation of [b] refers to it. *)
Example observe_deep_example :
  observed state_observed 1 1 /\
  cell_at state_observed 1 = mkCell (VObject 1) (Some 1).
Proof. split; [repeat split; vm_compute; lia|reflexivity]. Qed.

(** ** The items of an array *)

Lemma runs_item `{Host} fuel n a i s :
  runs n None s
    ((v <- get_prop fuel (VObject a) (KIdx i) ;; observe n v false ;;; ret tt) s)
    (fun _ _ => True).
Proof.
  eapply runs_bind; [apply runs_get_prop; by right|].
  intros v s2 _ _ _.
  eapply runs_bind with (Q := fun _ _ => True).
  { eapply runs_weaken; [apply observe_observe_ok|done]. }
  intros ? s3 _ _ _. apply runs_ret_True.
Qed.

(** The loop of [observeArray], for an item that is a ready object: the
    object is observed afterwards. *)
Lemma observeArray_loop_deep `{Host} fuel n a cnt from s s' i b :
  active (target s) = None ->
  o_kind (obj_at s a) = KArray ->
  (N.of_nat (length (o_elems (obj_at s a))) <= 4294967295)%N ->
  unmarked s < n ->
  from <= i < from + cnt ->
  o_elems (obj_at s a) !! i = Some (Some (VObject b)) ->
  ready s b ->
  for_loop cnt from
    (fun i => v <- get_prop fuel (VObject a) (KIdx i) ;; observe n v false ;;; ret tt) s
  = Ok tt s' ->
  exists j, observed s' b j.
Proof.
  revert from s. induction cnt as [|cnt IH];
    intros from s Hidle Hkind Hlen Hfuel Hi Hel Hready Hrun; [lia|].
  rewrite for_loop_S in Hrun.
  apply bind_Ok in Hrun as ([] & s1 & Hstep & Hrest).
  apply bind_Ok in Hstep as (v & s0 & Hget & Hobs).
  pose proof (get_prop_idle _ _ _ _ _ _ Hidle Hget) as ->.
  apply bind_Ok in Hobs as (r & s2 & Hobs & [= <-]).
  pose proof (observe_observe_ok n v false s) as Hruns.
  rewrite Hobs in Hruns. destruct Hruns as [Hev _].
  pose proof (settles_observe n v s r s2 Hobs) as Hst.
  destruct (decide (i = from)) as [->|Hne].
  - assert (v = VObject b) as ->.
    { unfold get_prop, get_prop_with, bind, gets in Hget. unfold own_property in Hget.
      rewrite Hkind, (isValidArrayIndex_below from _ Hlen) in Hget.
      - simpl in Hget. rewrite Hel in Hget. by injection Hget.
      - by apply lookup_lt_Some in Hel. }
    destruct n as [|m]; [lia|].
    destruct (observe_ready m b s Hready Hidle) as (j & s2' & Hrun' & Hobd & _ & _); [lia|].
    rewrite Hobs in Hrun'. injection Hrun' as -> <-.
    pose proof (runs_for_loop (S m) None cnt (S from)
      (fun i => v <- get_prop fuel (VObject a) (KIdx i) ;; observe (S m) v false ;;; ret tt)
      s2) as Hruns.
    rewrite Hrest in Hruns. destruct Hruns as [Hev' _].
    { intros i s3 _. apply runs_item. }
    exists j. eapply observed_evolves; [exact Hev'|exact Hobd].
  - apply (IH (S from) s2).
    + by rewrite (ev_target _ _ _ Hev).
    + by rewrite (ev_kind _ _ _ Hev).
    + by rewrite (ev_elems _ _ _ Hev).
    + pose proof (evolves_unmarked _ _ _ Hev). lia.
    + lia.
    + by rewrite (ev_elems _ _ _ Hev).
    + by apply (ready_settles s s2).
    + done.
Qed.

Lemma settles_augment `{Host} a :
  settles_on a (if hasProto then protoAugment a else copyAugment a methodsToPatch).
Proof.
  destruct hasProto; [apply so_protoAugment|].
  unfold copyAugment. apply so_for_each. intros m _. apply so_def.
  apply method_name_not_marker.
Qed.

(** X24.  [observe] on an observable array goes through the items, with no
    subscriber active: every item that is an object observable or observed
    already is observed afterwards. *)
Theorem observe_deep_array `{Host} (fuel : nat) (a : addr) (root : bool) (s : State) :
  observable s a ->
  o_kind (obj_at s a) = KArray ->
  (N.of_nat (length (o_elems (obj_at s a))) <= 4294967295)%N ->
  active (target s) = None ->
  unmarked s <= fuel ->
  exists s',
    observe (S fuel) (VObject a) root s = Ok (Some (length (observers s))) s' /\
    (forall i b,
       o_elems (obj_at s a) !! i = Some (Some (VObject b)) ->
       ready s b ->
       exists j, observed s' b j).
Proof.
  intros Hobs Hkind Hlen Hidle Hfuel.
  destruct (observe_fresh_ok fuel a root s Hobs Hidle Hfuel) as (s1 & Hrest & Hrun & Hev & Hog).
  pose proof (observable_unmarked s a Hobs) as Hm.
  destruct Hobs as (Hlt & _ & Hown & Hext & _).
  destruct (marked_state_facts a s Hlt Hm) as (Hev3 & Hm3 & Hhid & Hless).
  pose proof (settles_marked_state a s Hlt Hm Hext) as Hst3.
  assert (isArray s (VObject a) = true) as Harr.
  { unfold isArray. by apply bool_decide_eq_true_2. }
  rewrite Harr in Hrest.
  set (ob := length (observers s)) in *.
  set (s3 := marked_state a s) in *.
  destruct (Observer_rest_array fuel a s3 s1 ob Hm3 Hrest) as (s4 & Haug & Hev4 & _).
  unfold Observer_rest in Hrest. unfold bind at 1 in Hrest. rewrite Haug in Hrest.
  unfold bind at 1 in Hrest. unfold gets at 1 in Hrest.
  unfold observeArray_with in Hrest.
  assert (settles s3 s4) as Hst4.
  { apply (settles_augment a s3 tt s4); [by rewrite Hm3|done|done]. }
  assert (forall b, o_elems (obj_at s4 b) = o_elems (obj_at s b)) as Hel4.
  { intros b. by rewrite (ev_elems _ _ _ Hev4), (ev_elems _ _ _ Hev3). }
  exists (if root then vmCount_incr ob s1 else s1). split; [exact Hrun|].
  intros i b Hi Hready.
  destruct (observeArray_loop_deep fuel fuel a (array_length s4 (VObject a)) 0 s4 s1 i b)
    as (j & Hobd); try done.
  - by rewrite (ev_target _ _ _ Hev4), (ev_target _ _ _ Hev3).
  - by rewrite (ev_kind _ _ _ Hev4), (ev_kind _ _ _ Hev3).
  - by rewrite Hel4.
  - pose proof (evolves_unmarked _ _ _ Hev4). lia.
  - simpl. rewrite Hel4. apply lookup_lt_Some in Hi. lia.
  - by rewrite Hel4.
  - apply (ready_settles s3 s4); [done|]. by apply (ready_settles s s3).
  - exists j. destruct root; [|done]. by apply observed_vmCount_incr.
Qed.

Lemma observe_deep_array_witness :
  exists s',
    @observe dev_host 3 (VObject 0) true state_items_raw
    = Ok (Some (length (observers state_items_raw))) s' /\
    (forall i b,
       o_elems (obj_at state_items_raw 0) !! i = Some (Some (VObject b)) ->
       @ready dev_host state_items_raw b ->
       exists j, observed s' b j).
Proof.
  apply (@observe_deep_array dev_host 2 0 true state_items_raw).
  - unfold observable. split; [simpl; lia|]. split; [by right|].
    repeat split; try reflexivity. by exists VUndefined.
  - reflexivity.
  - vm_compute. discriminate.
  - reflexivity.
  - vm_compute. lia.
Defined.

(** The object in the array has Observer 1 once the array is observed. *)
Example observe_deep_array_example : observed state_items 1 1.
Proof. repeat split; vm_compute; lia. Qed.

(** ** The flag [shallow] *)

Lemma shallow_define `{Host} fuel a k v cs s :
  o_kind (obj_at s a) <> KArray ->
  data_slot (obj_at s a) k = true ->
  let c := Closure (length (cells s)) a (uid s) None None true cs in
  let o := obj_at s a in
  defineReactive fuel a k (Some v) cs true s
  = Ok tt (put_obj a
             (mkObject (o_kind o) (o_proto o) (o_extensible o)
                (replace_key k (PAccessor (Some (GReactive c)) (Some (SReactive c)) true true)
                   (o_props o))
                (o_elems o))
             (set_cells (cells s ++ [mkCell v None]) (set_deps (deps s ++ [[]]) s))).
Proof.
  intros Hkind Hslot c o. unfold data_slot in Hslot.
  unfold defineReactive, defineReactive_with.
  unfold bind at 1. unfold new_Dep at 1.
  set (s1 := set_deps (deps s ++ [[]]) s).
  unfold bind at 1. unfold gets at 1. change (obj_at s1 a) with (obj_at s a).
  assert (store_prop k (PAccessor (Some (GReactive c)) (Some (SReactive c)) true true) o
          = Some (mkObject (o_kind o) (o_proto o) (o_extensible o)
                (replace_key k (PAccessor (Some (GReactive c)) (Some (SReactive c)) true true)
                   (o_props o)) (o_elems o))) as Hstore.
  { unfold store_prop. by rewrite (bool_decide_eq_false_2 _ Hkind). }
  destruct (own_property (obj_at s a) k) as [[x w e cf|]|] eqn:Hown; [|done|].
  - subst cf. simpl. unfold bind, ret, new_cell, defineProperty. simpl.
    change (obj_at (set_cells _ s1) a) with (obj_at s a). rewrite Hown. simpl.
    fold o. fold c. by rewrite Hstore.
  - simpl. unfold bind, ret, new_cell, defineProperty. simpl.
    change (obj_at (set_cells _ s1) a) with (obj_at s a). rewrite Hown, Hslot.
    fold o. fold c. by rewrite Hstore.
Qed.

Lemma shallow_write `{Host} fuel a k cell dep cs y s :
  let c := Closure cell a dep None None true cs in
  installed s a k c ->
  same_value y (c_val (cell_at s cell)) = false ->
  exists s',
    put_prop fuel (VObject a) k y s = Ok tt s' /\
    heap s' = heap s /\ observers s' = observers s /\ deps s' = deps s /\
    length (cells s') = length (cells s) /\
    cell_at s' cell = mkCell y None /\
    updates (trace s') = updates (trace s) ++ delivery (subs_at s dep).
Proof.
  intros c (Hown & _ & _ & Hcell) Hsame. simpl in Hcell.
  unfold put_prop. unfold bind at 1. unfold gets at 1. rewrite Hown.
  simpl. unfold bind at 1. unfold modify at 1.
  unfold bind at 1. unfold gets at 1.
  change (cell_at (emit (EConsoleLog y) s) cell) with (cell_at s cell).
  rewrite Hsame.
  set (s0 := emit (EConsoleLog y) s).
  assert (exists s1, (match cs with
                      | Some f => if negb production then modify (emit (ECustomSetter f))
                                  else ret tt
                      | None => ret tt
                      end) s0 = Ok tt s1 /\
                     heap s1 = heap s /\ observers s1 = observers s /\ deps s1 = deps s /\
                     cells s1 = cells s /\ updates (trace s1) = updates (trace s))
    as (s1 & Hcs & Hh & Ho & Hd & Hc & Ht).
  { assert (updates (trace s0) = updates (trace s)) as Ht0.
    { unfold s0. simpl. rewrite updates_app. simpl. by rewrite app_nil_r. }
    destruct cs as [f|]; [destruct production|]; simpl.
    - by exists s0.
    - eexists. split; [reflexivity|]. simpl. rewrite updates_app, updates_app. simpl.
      by rewrite !app_nil_r.
    - by exists s0. }
  unfold bind at 1. rewrite Hcs. simpl.
  unfold bind at 1. unfold modify at 1.
  unfold bind at 1. unfold ret at 1.
  unfold bind at 1. unfold modify at 1.
  rewrite notify_eq.
  eexists. split; [reflexivity|]. simpl.
  rewrite !length_insert, Hc.
  split; [done|]. split; [done|]. split; [done|]. split; [done|].
  split.
  - unfold cell_at. simpl. rewrite list_lookup_insert_eq.
    + simpl. f_equal. rewrite list_lookup_insert_eq; [done|]. by rewrite Hc.
    + by rewrite length_insert, Hc.
  - rewrite updates_app, updates_fmap, Ht. f_equal. f_equal.
    unfold subs_at. simpl. by rewrite Hd.
Qed.

(** X25.  [defineReactive] with [shallow] on, for a key that holds no
    accessor: the value is stored as it is, and neither it nor a value
    written later is observed.  No Observer is made and no other object
    changes, the activation refers to no Observer of its value, and the
    write, which finds no subscriber on the new Dep, calls no [update]. *)
Theorem defineReactive_shallow `{Host} (fuel fuel' : nat) (a : addr) (k : key)
    (v : value) (cs : option nat) (y : value) (s : State) :
  a < length (heap s) ->
  o_kind (obj_at s a) <> KArray ->
  data_slot (obj_at s a) k = true ->
  same_value y v = false ->
  exists c s1 s2,
    defineReactive fuel a k (Some v) cs true s = Ok tt s1 /\
    installed s1 a k c /\
    cell_at s1 (cl_cell c) = mkCell v None /\
    put_prop fuel' (VObject a) k y s1 = Ok tt s2 /\
    installed s2 a k c /\
    cell_at s2 (cl_cell c) = mkCell y None /\
    observers s2 = observers s /\
    (forall b, b <> a -> obj_at s2 b = obj_at s b) /\
    updates (trace s2) = updates (trace s).
Proof.
  intros Hlt Hkind Hslot Hsame.
  pose proof (shallow_define fuel a k v cs s Hkind Hslot) as Hdef. cbv zeta in Hdef.
  set (c := Closure (length (cells s)) a (uid s) None None true cs) in *.
  set (s1 := put_obj a _ _) in Hdef.
  assert (installed s1 a k c) as Hinst.
  { split; [|split; [done|split]].
    - unfold s1. rewrite obj_at_put_obj by done.
      rewrite own_property_not_array by done. simpl. apply lookup_replace_key_eq.
    - unfold s1, c, uid. simpl. rewrite length_app. simpl. lia.
    - unfold s1, c. simpl. rewrite length_app. simpl. lia. }
  assert (cell_at s1 (length (cells s)) = mkCell v None) as Hcell.
  { unfold cell_at, s1. simpl. by rewrite list_lookup_middle. }
  destruct (shallow_write fuel' a k (length (cells s)) (uid s) cs y s1 Hinst)
    as (s2 & Hput & Hh & Ho & Hd & Hc & Hcell2 & Hup).
  { rewrite Hcell. exact Hsame. }
  exists c, s1, s2. split; [done|]. split; [done|]. split; [done|]. split; [done|].
  split.
  { destruct Hinst as (Hown & Hobj & Hdep & Hlen).
    split; [|split; [done|split]].
    - unfold obj_at. by rewrite Hh.
    - by rewrite Hd.
    - by rewrite Hc. }
  split; [done|]. split; [done|]. split.
  - intros b Hne. unfold obj_at at 1. rewrite Hh.
    change (default dead_object (heap s1 !! b)) with (obj_at s1 b).
    unfold s1. by rewrite obj_at_put_obj_ne.
  - rewrite Hup.
    assert (subs_at s1 (uid s) = []) as ->.
    { unfold subs_at, s1, uid. simpl. by rewrite list_lookup_middle. }
    unfold delivery. destruct sync_mode; by rewrite ?app_nil_r.
Qed.

Lemma defineReactive_shallow_witness :
  exists c s1 s2,
    @defineReactive dev_host 0 0 (KStr "c") (Some (VObject 1)) (Some 5) true state_raw
    = Ok tt s1 /\
    installed s1 0 (KStr "c") c /\
    cell_at s1 (cl_cell c) = mkCell (VObject 1) None /\
    @put_prop dev_host 0 (VObject 0) (KStr "c") (VString "z") s1 = Ok tt s2 /\
    installed s2 0 (KStr "c") c /\
    cell_at s2 (cl_cell c) = mkCell (VString "z") None /\
    observers s2 = observers state_raw /\
    (forall b, b <> 0 -> obj_at s2 b = obj_at state_raw b) /\
    updates (trace s2) = updates (trace state_raw).
Proof.
  apply (@defineReactive_shallow dev_host 0 0 0 (KStr "c") (VObject 1) (Some 5) (VString "z")
           state_raw).
  - simpl. lia.
  - discriminate.
  - reflexivity.
  - reflexivity.
Defined.
